(** * jiragitfluence: the roadmap projection engine

    A shallow embedding of the roadmap generator of jiragitfluence
    (package [generator], with the data model of package [models]) and
    the properties of its timeframe resolver, item normaliser, status
    aggregation, grouping engine, quarter placement and view dispatch.

    Go values are embedded as follows.
    - [string] is a Rocq [string] (a sequence of bytes); [+:+] is Go's [+].
    - [int] is [Z]; Go's [/] and [%] are [Z.quot] and [Z.rem].
    - [*time.Time] is [option Time]; [*models.JiraIssue] is
      [option JiraIssue].  The module is built with go 1.24, where the
      variable of a [for ... range] loop is fresh in every iteration, so
      [&issue] never aliases the issue of another iteration and the
      pointer is embedded as the value it points to.
    - [map[string]V] is [gmap string V].  Go leaves the order of a
      [range] over a map unspecified; where the code ranges over a map
      the order is an explicit argument of the embedding.
    - [*strings.Builder] is the string written so far; every
      [WriteString] appends to it.
    - [time.Now()] is an explicit argument [now]: all the calls made for
      one request read the same time. *)

From stdpp Require Import gmap strings list fin_maps.
From Stdlib Require Import ZArith Lia Ascii DecimalString.
From Stdlib Require Import DecimalPos DecimalZ.

Local Open Scope Z_scope.

(** ** Package [time]

    A [Time] is an instant, counted in nanoseconds since
    0001-01-01T00:00:00 (Go's zero [Time]).  All times live in one
    location without offset changes, so the calendar fields of a time are
    a function of the instant alone.  The calendar arithmetic follows
    [time.Date] and [Time.date]: days are counted through 400-, 100-,
    4- and 1-year cycles. *)
Module GoTime.

Record Time : Type := mkTime { nanos : Z }.

Definition nsPerSecond : Z := 1000000000.
Definition nsPerMinute : Z := 60 * nsPerSecond.
Definition nsPerHour : Z := 60 * nsPerMinute.
Definition nsPerDay : Z := 24 * nsPerHour.

Definition daysPer400Years : Z := 365 * 400 + 97.
Definition daysPer100Years : Z := 365 * 100 + 24.
Definition daysPer4Years : Z := 365 * 4 + 1.

(** [daysBefore[m]] counts the days in a non-leap year before month [m+1]. *)
Definition daysBeforeTable : list Z :=
  [0; 31; 59; 90; 120; 151; 181; 212; 243; 273; 304; 334; 365].

Definition daysBefore (m : Z) : Z := nth (Z.to_nat m) daysBeforeTable 0.

Definition isLeap (year : Z) : bool :=
  (year mod 4 =? 0) && (negb (year mod 100 =? 0) || (year mod 400 =? 0)).

(** Days from 0001-01-01 to the first of January of [year]. *)
Definition daysSinceEpoch (year : Z) : Z :=
  let y := year - 1 in
  365 * y + y / 4 - y / 100 + y / 400.

(** Day number of a calendar date whose month is already in [1..12];
    [day] may lie outside the month and overflows into the next ones. *)
Definition dateToDays (year month day : Z) : Z :=
  daysSinceEpoch year + daysBefore (month - 1)
  + (if isLeap year && (3 <=? month) then 1 else 0)
  + (day - 1).

(** [time.Date]: the month is normalised into the year first, then the
    day and the clock fields overflow upwards. *)
Definition Date (year month day hour min sec nsec : Z) : Time :=
  let m := month - 1 in
  let year := year + m / 12 in
  let month := m mod 12 + 1 in
  mkTime (dateToDays year month day * nsPerDay
          + hour * nsPerHour + min * nsPerMinute + sec * nsPerSecond + nsec).

(** [absDate]: the year and the zero-based day of the year of a day number. *)
Definition absDate (days : Z) : Z * Z :=
  let d := days in
  let n := d / daysPer400Years in
  let y := 400 * n in
  let d := d - daysPer400Years * n in
  let n := d / daysPer100Years in
  let n := n - Z.shiftr n 2 in
  let y := y + 100 * n in
  let d := d - daysPer100Years * n in
  let n := d / daysPer4Years in
  let y := y + 4 * n in
  let d := d - daysPer4Years * n in
  let n := d / 365 in
  let n := n - Z.shiftr n 2 in
  let y := y + n in
  let d := d - 365 * n in
  (y + 1, d).

(** Month and day of the month from the day of the year. *)
Definition monthDay (year yday : Z) : Z * Z :=
  let rest (day : Z) : Z * Z :=
    let month := day / 31 in
    let end_ := daysBefore (month + 1) in
    if end_ <=? day then (month + 2, day - end_ + 1)
    else (month + 1, day - daysBefore month + 1) in
  if isLeap year then
    if 31 + 29 - 1 <? yday then rest (yday - 1)
    else if yday =? 31 + 29 - 1 then (2, 29)
    else rest yday
  else rest yday.

Definition civil (days : Z) : Z * Z * Z :=
  let '(year, yday) := absDate days in
  let '(month, day) := monthDay year yday in
  (year, month, day).

Definition absDays (t : Time) : Z := nanos t / nsPerDay.
Definition timeOfDay (t : Time) : Z := nanos t mod nsPerDay.

Definition Year (t : Time) : Z := (civil (absDays t)).1.1.
Definition Month (t : Time) : Z := (civil (absDays t)).1.2.
Definition Day (t : Time) : Z := (civil (absDays t)).2.

Definition Hour (t : Time) : Z := timeOfDay t / nsPerHour.
Definition Minute (t : Time) : Z := (timeOfDay t mod nsPerHour) / nsPerMinute.
Definition Second (t : Time) : Z := (timeOfDay t mod nsPerMinute) / nsPerSecond.
Definition Nanosecond (t : Time) : Z := timeOfDay t mod nsPerSecond.

(** [t.AddDate(years, months, days)]. *)
Definition AddDate (t : Time) (years months days : Z) : Time :=
  Date (Year t + years) (Month t + months) (Day t + days)
       (Hour t) (Minute t) (Second t) (Nanosecond t).

Definition Before (t u : Time) : bool := nanos t <? nanos u.
Definition IsZero (t : Time) : bool := nanos t =? 0.

(** The zero value [time.Time{}]. *)
Definition zero : Time := mkTime 0.

End GoTime.

Import GoTime.

(** ** Strings: the parts of [strings], [html], [fmt] and [strconv] in use *)
Module GoStrings.

Definition chr (n : Z) : ascii := ascii_of_N (Z.to_N n).
Definition ord (c : ascii) : Z := Z.of_N (N_of_ascii c).
Definition str1 (n : Z) : string := String (chr n) "".

(** Source literals are written with a back quote for the double quote
    and with Go's escapes [\n] and [\\]; [lit] yields the bytes of the
    Go literal. *)
Fixpoint lit_go (escaped : bool) (s : string) : string :=
  match s with
  | "" => ""
  | String c rest =>
      if escaped then
        String (if (c =? "n")%char then chr 10 else c) (lit_go false rest)
      else if (c =? "\")%char then lit_go true rest
      else if (c =? "`")%char then String (chr 34) (lit_go false rest)
      else String c (lit_go false rest)
  end.

Definition lit (s : string) : string := lit_go false s.

(** [string(rune(n))] for an [int] [n]: the conversion to [rune] wraps
    to 32 bits, and a value that is no Unicode scalar value encodes as
    U+FFFD. *)
Definition toRune (n : Z) : Z := (n + 2 ^ 31) mod 2 ^ 32 - 2 ^ 31.

Definition encodeRune (r : Z) : string :=
  if (r <? 0) || (1114111 <? r) || ((55296 <=? r) && (r <=? 57343))
  then str1 239 +:+ str1 191 +:+ str1 189
  else if r <? 128 then str1 r
  else if r <? 2048 then
    str1 (192 + Z.shiftr r 6) +:+ str1 (128 + Z.land r 63)
  else if r <? 65536 then
    str1 (224 + Z.shiftr r 12) +:+ str1 (128 + Z.land (Z.shiftr r 6) 63)
    +:+ str1 (128 + Z.land r 63)
  else
    str1 (240 + Z.shiftr r 18) +:+ str1 (128 + Z.land (Z.shiftr r 12) 63)
    +:+ str1 (128 + Z.land (Z.shiftr r 6) 63) +:+ str1 (128 + Z.land r 63).

Definition runeString (n : Z) : string := encodeRune (toRune n).

(** [%d] of [fmt.Sprintf]. *)
Definition itoa (n : Z) : string := NilEmpty.string_of_int (Z.to_int n).

Definition HasPrefix (s prefix : string) : bool := String.prefix prefix s.

Definition HasSuffix (s suffix : string) : bool :=
  let n := String.length s in
  let m := String.length suffix in
  (m <=? n)%nat && String.eqb (String.substring (n - m) m s) suffix.

Fixpoint Contains (s substr : string) : bool :=
  String.prefix substr s ||
  match s with
  | "" => false
  | String _ rest => Contains rest substr
  end.

Definition TrimPrefix (s prefix : string) : string :=
  if HasPrefix s prefix
  then String.substring (String.length prefix)
         (String.length s - String.length prefix) s
  else s.

(** White space is the ASCII white space; the other Unicode spaces that
    [strings.TrimSpace] and [fmt] know of are not modelled. *)
Definition isSpace (c : ascii) : bool :=
  let n := ord c in (n =? 32) || ((9 <=? n) && (n <=? 13)).

Fixpoint trimLeft (s : string) : string :=
  match s with
  | String c rest => if isSpace c then trimLeft rest else s
  | "" => ""
  end.

Fixpoint trimRight (s : string) : string :=
  match s with
  | "" => ""
  | String c rest =>
      match trimRight rest with
      | "" => if isSpace c then "" else String c ""
      | rest' => String c rest'
      end
  end.

Definition TrimSpace (s : string) : string := trimRight (trimLeft s).

(** [strings.Split(s, sep)] for a non-empty [sep]: [skip] counts the bytes
    of a separator still to be dropped, [cur] is the piece being read. *)
Fixpoint splitGo (sep : string) (s : string) (skip : nat) (cur : string)
  : list string :=
  match s with
  | "" => [cur]
  | String c rest =>
      match skip with
      | S k => splitGo sep rest k cur
      | O =>
          if String.prefix sep s
          then cur :: splitGo sep rest (String.length sep - 1) ""
          else splitGo sep rest 0 (cur +:+ String c "")
      end
  end.

Definition Split (s sep : string) : list string := splitGo sep s 0 "".

Fixpoint Join (elems : list string) (sep : string) : string :=
  match elems with
  | [] => ""
  | [e] => e
  | e :: rest => e +:+ sep +:+ Join rest sep
  end.

(** [html.EscapeString]. *)
Fixpoint EscapeString (s : string) : string :=
  match s with
  | "" => ""
  | String c rest =>
      (if (c =? "&")%char then "&amp;"
       else if (c =? "'")%char then "&#39;"
       else if (c =? "<")%char then "&lt;"
       else if (c =? ">")%char then "&gt;"
       else if (ord c =? 34) then "&#34;"
       else String c "") +:+ EscapeString rest
  end.

(** The integer verb of [fmt.Sscanf]: leading spaces are skipped (a
    newline is an error), an optional sign and a run of digits and
    underscores form the token, and [strconv.ParseInt] in base 10 accepts
    the token when it has no underscore and fits 64 bits.  The rest of the
    input is returned with the value. *)
Fixpoint skipSpace (s : string) : option string :=
  match s with
  | String c rest =>
      if ord c =? 10 then None
      else if isSpace c then skipSpace rest
      else Some s
  | "" => Some ""
  end.

Definition isDigit (c : ascii) : bool := (48 <=? ord c) && (ord c <=? 57).

Fixpoint scanNumber (s : string) (acc : Z) (ok : bool) (seen : bool)
  : option (Z * bool) * string :=
  match s with
  | String c rest =>
      if isDigit c then scanNumber rest (10 * acc + (ord c - 48)) ok true
      else if (c =? "_")%char then scanNumber rest acc false true
      else (if seen then Some (acc, ok) else None, s)
  | "" => (if seen then Some (acc, ok) else None, "")
  end.

Definition scanInt (s : string) : option Z :=
  match skipSpace s with
  | None => None
  | Some s =>
      let '(neg, s) :=
        match s with
        | String c rest =>
            if (c =? "-")%char then (true, rest)
            else if (c =? "+")%char then (false, rest)
            else (false, s)
        | "" => (false, s)
        end in
      match scanNumber s 0 true false with
      | (Some (n, true), _) =>
          let v := if neg then - n else n in
          if (- 2 ^ 63 <=? v) && (v <? 2 ^ 63) then Some v else None
      | _ => None
      end
  end.

(** [fmt.Sscanf(s, prefix + "%d" + ..., &v)] with a literal [prefix]
    without spaces: [Some] of the value stored in [v], [None] when [v] is
    left as it was.  The text of the format after the verb cannot undo the
    store. *)
Definition Sscanf_d (s prefix : string) : option Z :=
  if HasPrefix s prefix
  then scanInt (String.substring (String.length prefix)
                  (String.length s - String.length prefix) s)
  else None.

End GoStrings.

Import GoStrings.

(** ** Package [models] *)
Module models.

Module JiraIssue.
Record t : Type := mk {
  Key : string;
  IssueType : string;
  Summary : string;
  Status : string;
  Priority : string;
  Assignee : string;
  Reporter : string;
  Team : string;
  Labels : list string;
  EpicLink : string;
  CreatedDate : Time;
  UpdatedDate : Time;
  Description : string;
  FixVersions : list string;
  Watchers : list string;
  URL : string;
  PlannedStartDate : option Time;
  PlannedEndDate : option Time;
  Theme : string;
  Initiative : string;
  Dependencies : list string;
  PriorityScore : Z;
  RoadmapStatus : string;
  Milestone : string;
  Quarter : string
}.
End JiraIssue.

Module GitHubIssue.
Record t : Type := mk {
  Title : string;
  Number : Z;
  State : string;
  Labels : list string;
  Assignees : list string;
  CreatedDate : Time;
  UpdatedDate : Time;
  URL : string;
  Repository : string;
  PlannedStartDate : option Time;
  PlannedEndDate : option Time;
  Theme : string;
  Initiative : string;
  Dependencies : list string;
  PriorityScore : Z;
  RoadmapStatus : string;
  Milestone : string;
  Quarter : string
}.
End GitHubIssue.

Module GitHubPR.
Record t : Type := mk {
  Title : string;
  Number : Z;
  State : string;
  Labels : list string;
  Assignees : list string;
  CreatedDate : Time;
  UpdatedDate : Time;
  URL : string;
  Repository : string;
  IsDraft : bool;
  MergeStatus : string
}.
End GitHubPR.

Module Metadata.
Record t : Type := mk {
  FetchTime : Time;
  JiraProjects : list string;
  GitHubRepos : list string;
  JiraJQL : string;
  GitHubLabels : list string;
  GitHubContentFilter : string;
  GitHubCreator : string;
  VersionLabel : string;
  RoadmapTimeframe : string;
  RoadmapGrouping : string;
  RoadmapView : string;
  RoadmapThemes : list string;
  RoadmapQuarters : list string
}.
End Metadata.

Module AggregatedData.
Record t : Type := mk {
  JiraIssues : list JiraIssue.t;
  GitHubIssues : list GitHubIssue.t;
  GitHubPRs : list GitHubPR.t;
  Metadata : Metadata.t
}.
End AggregatedData.

End models.

Import models.

(** ** Package [generator]: roadmap items and their statuses *)

Module RoadmapItem.
Record t : Type := mk {
  Type_ : string;
  JiraIssue : option models.JiraIssue.t;
  GitHubIssue : option models.GitHubIssue.t;
  Status : string;
  StartDate : option Time;
  EndDate : option Time
}.
End RoadmapItem.

Module Milestone.
Record t : Type := mk {
  Name : string;
  TargetDate : Time;
  Status : string;
  Items : list RoadmapItem.t
}.
End Milestone.

(** The [s == "a" || s == "b" ...] of a [case "a", "b":]. *)
Definition oneOf (s : string) (cases : list string) : bool :=
  existsb (String.eqb s) cases.

Definition deriveRoadmapStatus (status : string) : string :=
  if oneOf status ["To Do"; "Open"; "Backlog"] then "Planned"
  else if oneOf status ["In Progress"; "In Review"] then "In Progress"
  else if oneOf status ["Blocked"; "Impediment"] then "Blocked"
  else if oneOf status ["Done"; "Closed"; "Resolved"] then "Completed"
  else "Planned".

Definition deriveRoadmapStatusFromGitHub (state : string) : string :=
  if String.eqb state "open" then "In Progress"
  else if String.eqb state "closed" then "Completed"
  else "Planned".

Definition getRoadmapStatusColor (status : string) : string :=
  if String.eqb status "Planned" then "#0052CC"
  else if String.eqb status "In Progress" then "#36B37E"
  else if String.eqb status "At Risk" then "#FF8B00"
  else if String.eqb status "Blocked" then "#FF5630"
  else if String.eqb status "Completed" then "#6554C0"
  else "#0052CC".

Definition statusPriority : gmap string Z :=
  list_to_map
    [("Blocked", 5); ("At Risk", 4); ("In Progress", 3); ("Planned", 2);
     ("Completed", 1)].

(** [statusPriority[status]]: a missing key of a Go map reads as the zero
    value. *)
Definition priorityOf (status : string) : Z :=
  default 0 (statusPriority !! status).

Definition aggregateStatus (currentStatus newStatus : string) : string :=
  let currentPriority := priorityOf currentStatus in
  let newPriority := priorityOf newStatus in
  if currentPriority <? newPriority then newStatus else currentStatus.

(** ** Normalisation of issues into roadmap items

    The body of the two loops that open [groupRoadmapItems] (the same
    body is repeated in [generateEpicGanttView]). *)
Definition jiraRoadmapItem (issue : JiraIssue.t) : RoadmapItem.t :=
  let startDate :=
    match issue.(JiraIssue.PlannedStartDate) with
    | Some d => d
    | None => issue.(JiraIssue.CreatedDate)
    end in
  let endDate :=
    match issue.(JiraIssue.PlannedEndDate) with
    | Some d => d
    | None =>
        if oneOf issue.(JiraIssue.Status) ["Done"; "Closed"; "Resolved"]
        then issue.(JiraIssue.UpdatedDate)
        else AddDate startDate 0 0 14
    end in
  let status := issue.(JiraIssue.RoadmapStatus) in
  {| RoadmapItem.Type_ := "jira";
     RoadmapItem.JiraIssue := Some issue;
     RoadmapItem.GitHubIssue := None;
     RoadmapItem.Status :=
       if String.eqb status "" then deriveRoadmapStatus issue.(JiraIssue.Status)
       else status;
     RoadmapItem.StartDate := Some startDate;
     RoadmapItem.EndDate := Some endDate |}.

Definition githubRoadmapItem (issue : GitHubIssue.t) : RoadmapItem.t :=
  let startDate :=
    match issue.(GitHubIssue.PlannedStartDate) with
    | Some d => d
    | None => issue.(GitHubIssue.CreatedDate)
    end in
  let endDate :=
    match issue.(GitHubIssue.PlannedEndDate) with
    | Some d => d
    | None =>
        if String.eqb issue.(GitHubIssue.State) "closed"
        then issue.(GitHubIssue.UpdatedDate)
        else AddDate startDate 0 0 14
    end in
  let status := issue.(GitHubIssue.RoadmapStatus) in
  {| RoadmapItem.Type_ := "github-issue";
     RoadmapItem.JiraIssue := None;
     RoadmapItem.GitHubIssue := Some issue;
     RoadmapItem.Status :=
       if String.eqb status ""
       then deriveRoadmapStatusFromGitHub issue.(GitHubIssue.State)
       else status;
     RoadmapItem.StartDate := Some startDate;
     RoadmapItem.EndDate := Some endDate |}.

(** The slice [allItems]: ticket items first, then host items; pull
    requests are left out. *)
Definition allItems (data : AggregatedData.t) : list RoadmapItem.t :=
  map jiraRoadmapItem data.(AggregatedData.JiraIssues)
  ++ map githubRoadmapItem data.(AggregatedData.GitHubIssues).

(** ** Grouping engine *)

(** [result[key] = append(result[key], item)]. *)
Definition appendItem (result : gmap string (list RoadmapItem.t))
    (key : string) (item : RoadmapItem.t) : gmap string (list RoadmapItem.t) :=
  <[key := default [] (result !! key) ++ [item]]> result.

(** [fmt.Sprintf("Q%d %d", (int(month)-1)/3+1, year)]. *)
Definition quarterLabel (t : Time) : string :=
  "Q" +:+ itoa ((Month t - 1) ÷ 3 + 1) +:+ " " +:+ itoa (Year t).

(** The group label of an item under each grouping.  An item of type
    "jira" built by the normaliser always carries its ticket and one of
    type "github-issue" its host issue; the branch of a missing payload
    (a nil dereference in Go) is never taken on such items. *)
Definition epicKeyOf (item : RoadmapItem.t) : string :=
  match item.(RoadmapItem.JiraIssue) with
  | Some j =>
      if String.eqb item.(RoadmapItem.Type_) "jira"
         && negb (String.eqb j.(JiraIssue.EpicLink) "")
      then j.(JiraIssue.EpicLink) else "No Epic"
  | None => "No Epic"
  end.

Definition themeOf (item : RoadmapItem.t) : string :=
  if String.eqb item.(RoadmapItem.Type_) "jira" then
    match item.(RoadmapItem.JiraIssue) with
    | Some j =>
        if negb (String.eqb j.(JiraIssue.Theme) "") then j.(JiraIssue.Theme)
        else if negb (String.eqb j.(JiraIssue.IssueType) "")
        then j.(JiraIssue.IssueType)
        else "No Theme"
    | None => "No Theme"
    end
  else if String.eqb item.(RoadmapItem.Type_) "github-issue" then
    match item.(RoadmapItem.GitHubIssue) with
    | Some g =>
        if negb (String.eqb g.(GitHubIssue.Theme) "") then g.(GitHubIssue.Theme)
        else match g.(GitHubIssue.Labels) with
             | label :: _ => label
             | [] => "No Theme"
             end
    | None => "No Theme"
    end
  else "No Theme".

Definition teamOf (item : RoadmapItem.t) : string :=
  if String.eqb item.(RoadmapItem.Type_) "jira" then
    match item.(RoadmapItem.JiraIssue) with
    | Some j =>
        if negb (String.eqb j.(JiraIssue.Team) "") then j.(JiraIssue.Team)
        else "No Team"
    | None => "No Team"
    end
  else "No Team".

Definition quarterOf (item : RoadmapItem.t) : string :=
  match item.(RoadmapItem.StartDate) with
  | Some startDate =>
      let derived := quarterLabel startDate in
      if String.eqb item.(RoadmapItem.Type_) "jira" then
        match item.(RoadmapItem.JiraIssue) with
        | Some j =>
            if negb (String.eqb j.(JiraIssue.Quarter) "")
            then j.(JiraIssue.Quarter) else derived
        | None => "No Quarter"
        end
      else if String.eqb item.(RoadmapItem.Type_) "github-issue" then
        match item.(RoadmapItem.GitHubIssue) with
        | Some g =>
            if negb (String.eqb g.(GitHubIssue.Quarter) "")
            then g.(GitHubIssue.Quarter) else derived
        | None => "No Quarter"
        end
      else "No Quarter"
  | None => "No Quarter"
  end.

(** One of the four loops [for _, item := range allItems]. *)
Definition groupBy (key : RoadmapItem.t -> string) (items : list RoadmapItem.t)
    (result : gmap string (list RoadmapItem.t))
  : gmap string (list RoadmapItem.t) :=
  foldl (fun result item => appendItem result (key item) item) result items.

Definition groupRoadmapItems (data : AggregatedData.t) (grouping : string)
  : gmap string (list RoadmapItem.t) :=
  let result : gmap string (list RoadmapItem.t) := ∅ in
  let allItems := allItems data in
  if String.eqb grouping "epic" then groupBy epicKeyOf allItems result
  else if String.eqb grouping "theme" then groupBy themeOf allItems result
  else if String.eqb grouping "team" then groupBy teamOf allItems result
  else if String.eqb grouping "quarter" then groupBy quarterOf allItems result
  else <["All Items" := allItems]> result.

(** ** Milestones *)

Definition addToMilestone (milestoneMap : gmap string Milestone.t)
    (name : string) (plannedEnd : Time) (item : RoadmapItem.t)
  : gmap string Milestone.t :=
  let milestoneMap :=
    match milestoneMap !! name with
    | Some _ => milestoneMap
    | None =>
        <[name := {| Milestone.Name := name;
                     Milestone.TargetDate := plannedEnd;
                     Milestone.Status := "Planned";
                     Milestone.Items := [] |}]> milestoneMap
    end in
  match milestoneMap !! name with
  | Some milestone =>
      <[name := {| Milestone.Name := milestone.(Milestone.Name);
                   Milestone.TargetDate := milestone.(Milestone.TargetDate);
                   Milestone.Status :=
                     aggregateStatus milestone.(Milestone.Status)
                                     item.(RoadmapItem.Status);
                   Milestone.Items := milestone.(Milestone.Items) ++ [item] |}]>
        milestoneMap
  | None => milestoneMap
  end.

Definition jiraMilestoneItem (issue : JiraIssue.t) : RoadmapItem.t :=
  let status := issue.(JiraIssue.RoadmapStatus) in
  {| RoadmapItem.Type_ := "jira";
     RoadmapItem.JiraIssue := Some issue;
     RoadmapItem.GitHubIssue := None;
     RoadmapItem.Status :=
       if String.eqb status "" then deriveRoadmapStatus issue.(JiraIssue.Status)
       else status;
     RoadmapItem.StartDate := None;
     RoadmapItem.EndDate := None |}.

Definition githubMilestoneItem (issue : GitHubIssue.t) : RoadmapItem.t :=
  let status := issue.(GitHubIssue.RoadmapStatus) in
  {| RoadmapItem.Type_ := "github-issue";
     RoadmapItem.JiraIssue := None;
     RoadmapItem.GitHubIssue := Some issue;
     RoadmapItem.Status :=
       if String.eqb status ""
       then deriveRoadmapStatusFromGitHub issue.(GitHubIssue.State)
       else status;
     RoadmapItem.StartDate := None;
     RoadmapItem.EndDate := None |}.

Definition milestoneJiraStep (milestoneMap : gmap string Milestone.t)
    (issue : JiraIssue.t) : gmap string Milestone.t :=
  match issue.(JiraIssue.PlannedEndDate) with
  | Some plannedEnd =>
      if negb (String.eqb issue.(JiraIssue.Milestone) "")
      then addToMilestone milestoneMap issue.(JiraIssue.Milestone) plannedEnd
             (jiraMilestoneItem issue)
      else milestoneMap
  | None => milestoneMap
  end.

Definition milestoneGitHubStep (milestoneMap : gmap string Milestone.t)
    (issue : GitHubIssue.t) : gmap string Milestone.t :=
  match issue.(GitHubIssue.PlannedEndDate) with
  | Some plannedEnd =>
      if negb (String.eqb issue.(GitHubIssue.Milestone) "")
      then addToMilestone milestoneMap issue.(GitHubIssue.Milestone) plannedEnd
             (githubMilestoneItem issue)
      else milestoneMap
  | None => milestoneMap
  end.

(** The map built by the two loops of [extractMilestones]. *)
Definition milestoneMapOf (data : AggregatedData.t) : gmap string Milestone.t :=
  foldl milestoneGitHubStep
    (foldl milestoneJiraStep ∅ data.(AggregatedData.JiraIssues))
    data.(AggregatedData.GitHubIssues).

(** [extractMilestones] returns the values of the map in the order of a
    [range] over it, which Go leaves unspecified; here it is the order of
    [map_to_list]. *)
Definition extractMilestones (data : AggregatedData.t) : list Milestone.t :=
  (map_to_list (milestoneMapOf data)).*2.

(** ** Quarter placement *)

(** ["Q" + string(rune('0'+q)) + " " + ] the four runes of the year. *)
Definition itemQuarterStr (t : Time) : string :=
  let year := Year t in
  let q := (Month t - 1) ÷ 3 + 1 in
  "Q" +:+ runeString (48 + q) +:+ " "
  +:+ runeString (48 + year ÷ 1000)
  +:+ runeString (48 + Z.rem (year ÷ 100) 10)
  +:+ runeString (48 + Z.rem (year ÷ 10) 10)
  +:+ runeString (48 + Z.rem year 10).

(** The loop [for i, q := range quarters] from index [i] on. *)
Fixpoint findQuarters (quarters : list string) (i : Z)
    (startQStr endQStr : string) (startQuarter endQuarter : Z) : Z * Z :=
  match quarters with
  | [] => (startQuarter, endQuarter)
  | q :: rest =>
      let startQuarter :=
        if String.eqb q startQStr && (startQuarter =? -1) then i
        else startQuarter in
      let endQuarter :=
        if String.eqb q endQStr && (endQuarter =? -1) then i
        else endQuarter in
      findQuarters rest (i + 1) startQStr endQStr startQuarter endQuarter
  end.

Definition getItemQuarters (item : RoadmapItem.t) (quarters : list string)
  : Z * Z :=
  match item.(RoadmapItem.StartDate), item.(RoadmapItem.EndDate) with
  | Some startDate, Some endDate =>
      let startQStr := itemQuarterStr startDate in
      let endQStr := itemQuarterStr endDate in
      let '(startQuarter, endQuarter) :=
        findQuarters quarters 0 startQStr endQStr (-1) (-1) in
      let startQuarter := if startQuarter =? -1 then 0 else startQuarter in
      let endQuarter :=
        if endQuarter =? -1 then Z.of_nat (length quarters) - 1
        else endQuarter in
      (startQuarter, endQuarter)
  | _, _ => (0, 0)
  end.

(** ** Timeframe resolver *)

(** [fmt.Sscanf] into a variable that holds 0 before the call. *)
Definition scanned (r : option Z) : Z := default 0 r.

Definition firstOfMonth (now : Time) : Time :=
  Date (Year now) (Month now) 1 0 0 0 0.

Definition parseQuarterRange (timeframe : string) : option (Time * Time) :=
  if Contains timeframe "-" && Contains timeframe "Q" then
    match Split timeframe "-" with
    | [part0; part1] =>
        let yearStr := TrimSpace (TrimPrefix part1 "Q1") in
        let yearStr := TrimSpace (TrimPrefix yearStr "Q2") in
        let yearStr := TrimSpace (TrimPrefix yearStr "Q3") in
        let yearStr := TrimSpace (TrimPrefix yearStr "Q4") in
        let year := scanned (Sscanf_d yearStr "") in
        let startQ := scanned (Sscanf_d (TrimSpace part0) "Q") in
        let endQ := scanned (Sscanf_d (TrimSpace part1) "Q") in
        if (1 <=? startQ) && (startQ <=? 4) && (1 <=? endQ) && (endQ <=? 4)
           && (0 <? year)
        then
          let startMonth := (startQ - 1) * 3 + 1 in
          let endMonth := endQ * 3 in
          let startDate := Date year startMonth 1 0 0 0 0 in
          let endDate := Date year endMonth 1 0 0 0 0 in
          let endDate := AddDate endDate 0 1 0 in
          Some (startDate, endDate)
        else None
    | _ => None
    end
  else None.

Definition parseYears (now : Time) (timeframe : string) : option (Time * Time) :=
  if HasSuffix timeframe "year" || HasSuffix timeframe "years" then
    let years := scanned (Sscanf_d timeframe "") in
    let years := if years =? 0 then scanned (Sscanf_d timeframe "") else years in
    if 0 <? years then
      let startDate := firstOfMonth now in
      Some (startDate, AddDate startDate years 0 0)
    else None
  else None.

Definition parseMonths (now : Time) (timeframe : string) : option (Time * Time) :=
  if HasSuffix timeframe "months" then
    let months := scanned (Sscanf_d timeframe "") in
    if 0 <? months then
      let startDate := firstOfMonth now in
      Some (startDate, AddDate startDate 0 months 0)
    else None
  else None.

Definition parseTimeframe (now : Time) (timeframe : string) : Time * Time :=
  let startDate := GoTime.zero in
  let endDate := GoTime.zero in
  if String.eqb timeframe "" then (startDate, endDate)
  else match parseMonths now timeframe with
  | Some range => range
  | None =>
  match parseYears now timeframe with
  | Some range => range
  | None =>
  match parseQuarterRange timeframe with
  | Some range => range
  | None => (startDate, endDate)
  end end end.

(** The loop [for current.Before(end)] of [generateQuarters].  Each turn
    of the loop uses one unit of [fuel]; [None] means that the fuel ran
    out before the loop condition failed. *)
Definition appendQuarter (quarters : list string) (quarter : string)
  : list string :=
  if existsb (String.eqb quarter) quarters then quarters
  else quarters ++ [quarter].

Fixpoint generateQuartersLoop (fuel : nat) (current end_ : Time)
    (quarters : list string) : option (list string) :=
  if Before current end_ then
    match fuel with
    | O => None
    | S fuel =>
        generateQuartersLoop fuel (AddDate current 0 1 0) end_
          (appendQuarter quarters (quarterLabel current))
    end
  else Some quarters.

(** A month step moves a time forward by 28 days at least, which bounds
    the number of turns. *)
Definition quartersFuel (start end_ : Time) : nat :=
  Z.to_nat ((nanos end_ - nanos start) / (28 * nsPerDay) + 1).

Definition generateQuarters (start end_ : Time) : option (list string) :=
  generateQuartersLoop (quartersFuel start end_) start end_ [].

(** ** Vocabulary of the statements *)

(** The five canonical planning statuses. *)
Definition canonical (s : string) : Prop :=
  s = "Planned" \/ s = "In Progress" \/ s = "At Risk" \/ s = "Blocked"
  \/ s = "Completed".

(** The index of the first occurrence of a label in the axis. *)
Definition firstIndex (label : string) (quarters : list string) : option nat :=
  fst <$> list_find (eq label) quarters.

(** A ticket created on 2025-01-10 and updated on 2025-01-20; the other
    fields hold Go's zero values. *)
Definition ticket (key issueType summary status : string)
    (plannedStart plannedEnd : option Time) (milestone : string)
  : JiraIssue.t :=
  {| JiraIssue.Key := key; JiraIssue.IssueType := issueType;
     JiraIssue.Summary := summary; JiraIssue.Status := status;
     JiraIssue.Priority := ""; JiraIssue.Assignee := "";
     JiraIssue.Reporter := ""; JiraIssue.Team := ""; JiraIssue.Labels := [];
     JiraIssue.EpicLink := "";
     JiraIssue.CreatedDate := Date 2025 1 10 0 0 0 0;
     JiraIssue.UpdatedDate := Date 2025 1 20 0 0 0 0;
     JiraIssue.Description := ""; JiraIssue.FixVersions := [];
     JiraIssue.Watchers := []; JiraIssue.URL := "";
     JiraIssue.PlannedStartDate := plannedStart;
     JiraIssue.PlannedEndDate := plannedEnd;
     JiraIssue.Theme := ""; JiraIssue.Initiative := "";
     JiraIssue.Dependencies := []; JiraIssue.PriorityScore := 0;
     JiraIssue.RoadmapStatus := ""; JiraIssue.Milestone := milestone;
     JiraIssue.Quarter := "" |}.

(** A ticket planned to start in the last quarter of 2025 and to end in
    its first quarter, the item it is normalised into, and the axis of
    2025. *)
Definition invertedTicket : JiraIssue.t :=
  ticket "PROJ-9" "Story" "Import" "To Do"
    (Some (Date 2025 10 1 0 0 0 0)) (Some (Date 2025 1 15 0 0 0 0)) "".

Definition invertedItem : RoadmapItem.t := jiraRoadmapItem invertedTicket.

Definition axis2025 : list string :=
  ["Q1 2025"; "Q2 2025"; "Q3 2025"; "Q4 2025"].

(** A bounded universal quantifier over [lo, lo + n), for checking one
    400-year cycle of the calendar by computation. *)
Fixpoint forallRange (n : nat) (lo : Z) (P : Z -> bool) : bool :=
  match n with
  | O => true
  | S k => P lo && forallRange k (lo + 1) P
  end.

Definition civilOk (d : Z) : bool :=
  let '(y, m, dd) := civil d in
  (1 <=? m) && (m <=? 12) && (1 <=? dd) && (dd <=? 31)
  && (dateToDays y m dd =? d).

(** The times the loop of [generateQuarters] visits: [n] month steps from
    [t] on, and the time after them. *)
Fixpoint monthSteps (n : nat) (t : Time) : list Time :=
  match n with
  | O => []
  | S k => t :: monthSteps k (AddDate t 0 1 0)
  end.

Fixpoint afterMonths (n : nat) (t : Time) : Time :=
  match n with
  | O => t
  | S k => afterMonths k (AddDate t 0 1 0)
  end.

(** The labels of a list in the order of their first occurrence. *)
Fixpoint firstSeen (l : list string) : list string :=
  match l with
  | [] => []
  | x :: rest => x :: filter (fun y => y <> x) (firstSeen rest)
  end.

(** The inferred start date of an issue: the planned start, or else the
    creation date. *)
Definition jiraStart (issue : JiraIssue.t) : Time :=
  default issue.(JiraIssue.CreatedDate) issue.(JiraIssue.PlannedStartDate).

Definition githubStart (issue : GitHubIssue.t) : Time :=
  default issue.(GitHubIssue.CreatedDate) issue.(GitHubIssue.PlannedStartDate).

(** A ticket in progress and an open host issue, both without planned
    dates, created on 2025-01-10 and updated on 2025-01-20. *)
Definition exampleTicket : JiraIssue.t :=
  ticket "PROJ-7" "Story" "Export" "In Progress" None None "".

Definition exampleHostIssue : GitHubIssue.t :=
  {| GitHubIssue.Title := "Crash on start"; GitHubIssue.Number := 12;
     GitHubIssue.State := "open"; GitHubIssue.Labels := [];
     GitHubIssue.Assignees := [];
     GitHubIssue.CreatedDate := Date 2025 1 10 0 0 0 0;
     GitHubIssue.UpdatedDate := Date 2025 1 20 0 0 0 0;
     GitHubIssue.URL := ""; GitHubIssue.Repository := "org/repo";
     GitHubIssue.PlannedStartDate := None;
     GitHubIssue.PlannedEndDate := None;
     GitHubIssue.Theme := ""; GitHubIssue.Initiative := "";
     GitHubIssue.Dependencies := []; GitHubIssue.PriorityScore := 0;
     GitHubIssue.RoadmapStatus := ""; GitHubIssue.Milestone := "";
     GitHubIssue.Quarter := "" |}.

(** The label function that a grouping key selects. *)
Definition groupKey (grouping : string) : RoadmapItem.t -> string :=
  if String.eqb grouping "epic" then epicKeyOf
  else if String.eqb grouping "theme" then themeOf
  else if String.eqb grouping "team" then teamOf
  else if String.eqb grouping "quarter" then quarterOf
  else fun _ => "All Items".

(** All items of all groups, group after group. *)
Definition groupedItems (groups : gmap string (list RoadmapItem.t))
  : list RoadmapItem.t :=
  concat (map_to_list groups).*2.

(** The planned end date of the issue behind a milestone item. *)
Definition itemPlannedEnd (item : RoadmapItem.t) : option Time :=
  match item.(RoadmapItem.JiraIssue), item.(RoadmapItem.GitHubIssue) with
  | Some j, _ => j.(JiraIssue.PlannedEndDate)
  | None, Some g => g.(GitHubIssue.PlannedEndDate)
  | None, None => None
  end.

(** What the loops of [extractMilestones] keep true of every milestone of
    the map. *)
Definition milestoneOk (name : string) (m : Milestone.t) : Prop :=
  m.(Milestone.Name) = name
  /\ m.(Milestone.Status)
     = foldl aggregateStatus "Planned"
         (RoadmapItem.Status <$> m.(Milestone.Items))
  /\ (head m.(Milestone.Items)) ≫= itemPlannedEnd
     = Some m.(Milestone.TargetDate).

(** A release whose only ticket is done. *)
Definition doneTicket : JiraIssue.t :=
  ticket "PROJ-1" "Story" "Login" "Done" None
    (Some (Date 2025 3 31 0 0 0 0)) "v1.0".

Definition emptyMetadata : Metadata.t :=
  {| Metadata.FetchTime := GoTime.zero; Metadata.JiraProjects := [];
     Metadata.GitHubRepos := []; Metadata.JiraJQL := "";
     Metadata.GitHubLabels := []; Metadata.GitHubContentFilter := "";
     Metadata.GitHubCreator := ""; Metadata.VersionLabel := "";
     Metadata.RoadmapTimeframe := ""; Metadata.RoadmapGrouping := "";
     Metadata.RoadmapView := ""; Metadata.RoadmapThemes := [];
     Metadata.RoadmapQuarters := [] |}.

Definition doneRelease : AggregatedData.t :=
  {| AggregatedData.JiraIssues := [doneTicket];
     AggregatedData.GitHubIssues := [];
     AggregatedData.GitHubPRs := [];
     AggregatedData.Metadata := emptyMetadata |}.

(** ** The epic-Gantt view *)

Module Options.
Record t : Type := mk {
  Format : string;
  GroupBy : string;
  IncludeMetadata : bool;
  VersionLabel : string;
  RoadmapTimeframe : string;
  RoadmapGrouping : string;
  RoadmapView : string;
  IncludeDependencies : bool
}.
End Options.

Definition TableFormat : string := "table".
Definition KanbanFormat : string := "kanban".
Definition CustomFormat : string := "custom".
Definition GanttFormat : string := "gantt".
Definition RoadmapFormat : string := "roadmap".

Definition TimelineView : string := "timeline".
Definition StrategicView : string := "strategic".
Definition ReleaseView : string := "release".
Definition EpicGanttView : string := "epicgantt".

Definition escapeHTML (content : string) : string := EscapeString content.

(** The strings written by a loop, one after the other. *)
Definition writeAll (chunks : list string) : string :=
  foldr String.append "" chunks.

(** [generateQuartersFromNow(count)] for [count >= 0]. *)
Definition generateQuartersFromNow (now : Time) (count : Z) : list string :=
  let currentYear := Year now in
  let currentQuarter := (Month now - 1) ÷ 3 + 1 in
  map (fun i : Z =>
         let quarterNum := Z.rem (currentQuarter + i - 1) 4 + 1 in
         let yearOffset := (currentQuarter + i - 1) ÷ 4 in
         let year := currentYear + yearOffset in
         "Q" +:+ itoa quarterNum +:+ " " +:+ itoa year)
      (map Z.of_nat (seq 0 (Z.to_nat count))).

(** First pass of [generateEpicGanttView]: the epics in the order of
    their first occurrence, and their names. *)
Definition collectEpic (acc : list string * gmap string string)
    (issue : JiraIssue.t) : list string * gmap string string :=
  let '(allEpics, epicKeyToName) := acc in
  if String.eqb issue.(JiraIssue.IssueType) "Epic" then
    let epicKey := issue.(JiraIssue.Key) in
    let epicName := issue.(JiraIssue.Summary) in
    match epicKeyToName !! epicKey with
    | Some _ => (allEpics, epicKeyToName)
    | None => (allEpics ++ [epicKey], <[epicKey := epicName]> epicKeyToName)
    end
  else (allEpics, epicKeyToName).

(** Second pass: every ticket that is no epic goes under its epic link. *)
Definition groupTicket (epicMap : gmap string (list RoadmapItem.t))
    (issue : JiraIssue.t) : gmap string (list RoadmapItem.t) :=
  if String.eqb issue.(JiraIssue.IssueType) "Epic" then epicMap
  else
    let item := jiraRoadmapItem issue in
    let epicKey :=
      if negb (String.eqb issue.(JiraIssue.EpicLink) "")
      then issue.(JiraIssue.EpicLink) else "No Epic" in
    appendItem epicMap epicKey item.

(** [for key := range epicKeyToName] over the keys in the order [keys],
    up to the [break]. *)
Fixpoint findEpicInTitle (keys : list string) (title : string) : string :=
  match keys with
  | [] => "No Epic"
  | key :: rest =>
      if negb (String.eqb key "No Epic") && Contains title key then key
      else findEpicInTitle rest title
  end.

(** The order of a [range] over a map with string keys: [rangeKeys n keys]
    is the order in which the [n]-th [range] statement of a call yields
    the keys [keys] of its map.  Go lets it be any rearrangement of the
    keys. *)
Definition RangeOrder : Type := nat -> list string -> list string.

Definition keysOf {V : Type} (m : gmap string V) : list string :=
  (map_to_list m).*1.

(** Third pass: the host issues; the [n]-th issue makes the [n]-th range
    over [epicKeyToName]. *)
Definition groupHostIssue (rangeKeys : RangeOrder)
    (epicKeyToName : gmap string string)
    (epicMap : gmap string (list RoadmapItem.t))
    (indexed : nat * GitHubIssue.t) : gmap string (list RoadmapItem.t) :=
  let '(n, issue) := indexed in
  let item := githubRoadmapItem issue in
  let epicKey :=
    findEpicInTitle (rangeKeys n (keysOf epicKeyToName))
      issue.(GitHubIssue.Title) in
  appendItem epicMap epicKey item.

Definition statusTextColor (status : string) : string :=
  if String.eqb status "Blocked" || String.eqb status "At Risk"
  then "#FFFFFF" else "#000000".

(** The badge of a status, and the cell that describes an item.  The two
    views that draw item rows differ in the link of a host issue only. *)
Definition statusBadge (status : string) : string :=
  let statusColor := getRoadmapStatusColor status in
  let textColor := statusTextColor status in
  lit "<span style=`display: inline-block; padding: 3px 8px; border-radius: 3px; background-color:"
  +:+ statusColor +:+ lit "; color:" +:+ textColor
  +:+ lit "; font-size: 12px; margin-right: 5px;`>"
  +:+ status +:+ lit "</span>\n".

Definition epicGanttHostLink (githubIssue : GitHubIssue.t) : string :=
  lit "<strong><a href=`" +:+ githubIssue.(GitHubIssue.URL)
  +:+ lit "` style=`text-decoration: none;`>"
  +:+ escapeHTML githubIssue.(GitHubIssue.Repository) +:+ " #"
  +:+ itoa githubIssue.(GitHubIssue.Number) +:+ lit "</a></strong>: "
  +:+ escapeHTML githubIssue.(GitHubIssue.Title) +:+ lit "<br/>\n".

Definition timelineHostLink (githubIssue : GitHubIssue.t) : string :=
  lit "<a href=`" +:+ githubIssue.(GitHubIssue.URL) +:+ lit "`>"
  +:+ escapeHTML githubIssue.(GitHubIssue.Repository) +:+ " #"
  +:+ itoa githubIssue.(GitHubIssue.Number) +:+ lit "</a>: "
  +:+ escapeHTML githubIssue.(GitHubIssue.Title) +:+ lit "<br/>\n".

Definition itemDetails (hostLink : GitHubIssue.t -> string)
    (item : RoadmapItem.t) : string :=
  if String.eqb item.(RoadmapItem.Type_) "jira" then
    match item.(RoadmapItem.JiraIssue) with
    | Some jiraIssue =>
        lit "<strong><a href=`" +:+ jiraIssue.(JiraIssue.URL)
        +:+ lit "` style=`text-decoration: none;`>"
        +:+ jiraIssue.(JiraIssue.Key) +:+ lit "</a></strong>: "
        +:+ escapeHTML jiraIssue.(JiraIssue.Summary) +:+ lit "<br/>\n"
        +:+ lit "<div style=`margin-top: 5px;`>\n"
        +:+ statusBadge item.(RoadmapItem.Status)
        +:+ lit "<small>Assignee: " +:+ escapeHTML jiraIssue.(JiraIssue.Assignee)
        +:+ lit "</small>\n"
        +:+ lit "</div>\n"
    | None => ""
    end
  else if String.eqb item.(RoadmapItem.Type_) "github-issue" then
    match item.(RoadmapItem.GitHubIssue) with
    | Some githubIssue =>
        hostLink githubIssue
        +:+ lit "<div style=`margin-top: 5px;`>\n"
        +:+ statusBadge item.(RoadmapItem.Status)
        +:+ lit "<small>Assignees: "
        +:+ Join githubIssue.(GitHubIssue.Assignees) ", " +:+ lit "</small>\n"
        +:+ lit "</div>\n"
    | None => ""
    end
  else "".

(** The cell of quarter [i] in the row of an item placed at
    [startQuarter .. endQuarter]. *)
Definition timelineCell (status : string) (startQuarter endQuarter i : Z)
  : string :=
  if (startQuarter <=? i) && (i <=? endQuarter) then
    let color := getRoadmapStatusColor status in
    let textColor := statusTextColor status in
    let '(cellContent, borderStyle) :=
      if (i =? startQuarter) && (i =? endQuarter) then
        (lit "<span style=`font-weight: bold;`>●</span>",
         "border: 1px solid #ddd; border-radius: 4px;")
      else if i =? startQuarter then
        (lit "<span style=`font-weight: bold;`>▶</span>",
         "border: 1px solid #ddd; border-left: 3px solid " +:+ color
         +:+ "; border-top: 1px solid " +:+ color
         +:+ "; border-bottom: 1px solid " +:+ color +:+ ";")
      else if i =? endQuarter then
        (lit "<span style=`font-weight: bold;`>◀</span>",
         "border: 1px solid #ddd; border-right: 3px solid " +:+ color
         +:+ "; border-top: 1px solid " +:+ color
         +:+ "; border-bottom: 1px solid " +:+ color +:+ ";")
      else
        (lit "<span style=`font-weight: bold;`>━</span>",
         "border: 1px solid #ddd; border-top: 1px solid " +:+ color
         +:+ "; border-bottom: 1px solid " +:+ color +:+ ";") in
    lit "<td class=`confluenceTd` style=`text-align: center; padding: 10px; background-color:"
    +:+ color +:+ lit "; color:" +:+ textColor +:+ "; " +:+ borderStyle
    +:+ lit "`>" +:+ cellContent +:+ lit "</td>\n"
  else
    lit "<td class=`confluenceTd` style=`border: 1px solid #ddd; padding: 10px;`></td>\n".

(** The row of an item. *)
Definition itemRow (hostLink : GitHubIssue.t -> string)
    (quarters : list string) (item : RoadmapItem.t) : string :=
  let '(startQuarter, endQuarter) := getItemQuarters item quarters in
  lit "<tr>\n"
  +:+ lit "<td class=`confluenceTd` style=`vertical-align:top; padding: 10px; border: 1px solid #ddd;`>\n"
  +:+ itemDetails hostLink item
  +:+ lit "</td>\n"
  +:+ writeAll (imap (fun i _ =>
                        timelineCell item.(RoadmapItem.Status)
                          startQuarter endQuarter (Z.of_nat i))
                     quarters)
  +:+ lit "</tr>\n".

(** The header row of an epic: its name and an empty cell per quarter. *)
Definition epicHeaderRow (quarters : list string) (name : string) : string :=
  lit "<tr>\n"
  +:+ lit "<td class=`confluenceTd` style=`padding: 10px; background-color:#e9f0f7; font-weight:bold; border: 1px solid #ddd; border-bottom: 2px solid #4a6785;`>"
  +:+ escapeHTML name +:+ lit "</td>\n"
  +:+ writeAll (map (fun _ =>
                       lit "<td class=`confluenceTd` style=`padding: 10px; border: 1px solid #ddd; background-color:#e9f0f7;`></td>\n")
                    quarters)
  +:+ lit "</tr>\n".

(** The rows written for one element of [allEpics]. *)
Definition epicRows (quarters : list string)
    (epicKeyToName : gmap string string)
    (epicMap : gmap string (list RoadmapItem.t)) (epicKey : string) : string :=
  let items := default [] (epicMap !! epicKey) in
  if (Z.of_nat (length items) =? 0) && negb (String.eqb epicKey "No Epic")
  then ""
  else
    epicHeaderRow quarters (default "" (epicKeyToName !! epicKey))
    +:+ writeAll (map (itemRow epicGanttHostLink quarters) items).

Definition statusLegend : string :=
  writeAll
    (map (fun status =>
            lit "<td style=`padding: 5px 10px; margin-right: 10px; background-color:"
            +:+ getRoadmapStatusColor status +:+ lit "; color:"
            +:+ statusTextColor status
            +:+ lit "; border-radius: 3px; font-size: 12px;`>" +:+ status
            +:+ lit "</td>\n"
            +:+ lit "<td style=`padding-right: 15px;`></td>\n")
         ["Planned"; "In Progress"; "At Risk"; "Blocked"; "Completed"]).

(** The legend below the table of a view: the statuses and the symbols
    of the timeline. *)
Definition viewLegend : string :=
  lit "<div style=`margin-top: 20px; margin-bottom: 20px;`>\n"
  +:+ lit "<h4>Legend</h4>\n"
  +:+ lit "<table style=`width: auto; border-collapse: collapse; margin-bottom: 15px;`>\n"
  +:+ lit "<tr>\n"
  +:+ statusLegend
  +:+ lit "</tr>\n"
  +:+ lit "</table>\n"
  +:+ lit "<table style=`width: auto; border-collapse: collapse; margin-bottom: 15px;`>\n"
  +:+ lit "<tr>\n"
  +:+ lit "<td style=`padding: 5px 10px; font-weight: bold;`>●</td>\n"
  +:+ lit "<td style=`padding-right: 15px;`>Single quarter item</td>\n"
  +:+ lit "<td style=`padding: 5px 10px; font-weight: bold;`>▶</td>\n"
  +:+ lit "<td style=`padding-right: 15px;`>Start of multi-quarter item</td>\n"
  +:+ lit "<td style=`padding: 5px 10px; font-weight: bold;`>━</td>\n"
  +:+ lit "<td style=`padding-right: 15px;`>Middle of timeline</td>\n"
  +:+ lit "<td style=`padding: 5px 10px; font-weight: bold;`>◀</td>\n"
  +:+ lit "<td style=`padding-right: 15px;`>End of multi-quarter item</td>\n"
  +:+ lit "</tr>\n"
  +:+ lit "</table>\n"
  +:+ lit "</div>\n".

Definition addDependenciesVisualization (content : string)
    (data : AggregatedData.t) : string :=
  content
  +:+ lit "<h3>Dependencies</h3>\n"
  +:+ lit "<p>This diagram shows dependencies between work items.</p>\n"
  +:+ lit "<ac:structured-macro ac:name=`plantuml`>\n"
  +:+ lit "<ac:parameter ac:name=`atlassian-macro-output-type`>BLOCK</ac:parameter>\n"
  +:+ lit "<ac:plain-text-body><![CDATA[\n"
  +:+ lit "@startuml\n"
  +:+ lit "skinparam monochrome true\n"
  +:+ lit "skinparam shadowing false\n"
  +:+ lit "skinparam defaultFontName Arial\n"
  +:+ lit "skinparam defaultFontSize 12\n"
  +:+ writeAll
        (map (fun issue : JiraIssue.t =>
                match issue.(JiraIssue.Dependencies) with
                | [] => ""
                | _ =>
                    lit "rectangle `" +:+ issue.(JiraIssue.Key) +:+ lit "\\n"
                    +:+ escapeHTML issue.(JiraIssue.Summary) +:+ lit "` as "
                    +:+ issue.(JiraIssue.Key) +:+ lit "\n"
                end)
             data.(AggregatedData.JiraIssues))
  +:+ writeAll
        (imap (fun i (issue : GitHubIssue.t) =>
                 match issue.(GitHubIssue.Dependencies) with
                 | [] => ""
                 | _ =>
                     let nodeID := "GH_ISSUE_" +:+ itoa (Z.of_nat i) in
                     lit "rectangle `" +:+ escapeHTML issue.(GitHubIssue.Repository)
                     +:+ " #" +:+ itoa issue.(GitHubIssue.Number) +:+ lit "\\n"
                     +:+ escapeHTML issue.(GitHubIssue.Title) +:+ lit "` as "
                     +:+ nodeID +:+ lit "\n"
                 end)
              data.(AggregatedData.GitHubIssues))
  +:+ writeAll
        (map (fun issue : JiraIssue.t =>
                writeAll
                  (map (fun dep =>
                          issue.(JiraIssue.Key) +:+ " --> " +:+ dep +:+ lit "\n")
                       issue.(JiraIssue.Dependencies)))
             data.(AggregatedData.JiraIssues))
  +:+ lit "@enduml\n"
  +:+ lit "]]></ac:plain-text-body>\n"
  +:+ lit "</ac:structured-macro>\n".

(** The axis of a view: four quarters from the current one when the
    caller passes none. *)
Definition viewQuarters (now : Time) (quarters : list string)
  : list string :=
  if Z.of_nat (length quarters) =? 0 then generateQuartersFromNow now 4
  else quarters.

(** The state of [generateEpicGanttView] before the table is written:
    the ordered epics, their names and the items of each. *)
Definition epicGanttEpics (data : AggregatedData.t)
  : list string * gmap string string :=
  let '(allEpics, epicKeyToName) :=
    foldl collectEpic ([], ∅) data.(AggregatedData.JiraIssues) in
  (allEpics ++ ["No Epic"],
   <["No Epic" := "Issues without Epic"]> epicKeyToName).

Definition epicGanttMap (rangeKeys : RangeOrder)
    (data : AggregatedData.t) : gmap string (list RoadmapItem.t) :=
  let epicKeyToName := (epicGanttEpics data).2 in
  let epicMap := foldl groupTicket ∅ data.(AggregatedData.JiraIssues) in
  foldl (groupHostIssue rangeKeys epicKeyToName) epicMap
    (imap (fun i issue => (i, issue)) data.(AggregatedData.GitHubIssues)).

Definition epicGanttBody (rangeKeys : RangeOrder)
    (data : AggregatedData.t) (quarters : list string) : string :=
  let '(allEpics, epicKeyToName) := epicGanttEpics data in
  let epicMap := epicGanttMap rangeKeys data in
  writeAll (map (epicRows quarters epicKeyToName epicMap) allEpics).

Definition generateEpicGanttView
    (rangeKeys : RangeOrder) (now : Time)
    (content : string) (data : AggregatedData.t) (quarters : list string)
    (opts : Options.t) : string :=
  let quarters := viewQuarters now quarters in
  let content :=
    content
    +:+ lit "<h3>Epic Roadmap</h3>\n"
    +:+ lit "<p>This view shows work items organized by epics across time periods.</p>\n"
    +:+ lit "<table class=`confluenceTable` style=`width: 100%; border-collapse: collapse; margin-top: 20px;`>\n"
    +:+ lit "<thead>\n"
    +:+ lit "<tr>\n"
    +:+ lit "<th class=`confluenceTh` style=`padding: 10px; text-align: left; border: 1px solid #ddd; background-color: #f2f2f2; width: 25%;`>Epic</th>\n"
    +:+ writeAll
          (map (fun quarter =>
                  lit "<th class=`confluenceTh` style=`padding: 10px; text-align: center; border: 1px solid #ddd; background-color: #f2f2f2;`>"
                  +:+ quarter +:+ lit "</th>\n")
               quarters)
    +:+ lit "</tr>\n"
    +:+ lit "</thead>\n"
    +:+ lit "<tbody>\n"
    +:+ epicGanttBody rangeKeys data quarters
    +:+ lit "</tbody>\n"
    +:+ lit "</table>\n"
    +:+ viewLegend in
  if opts.(Options.IncludeDependencies)
  then addDependenciesVisualization content data
  else content.

(** [within sub s]: the text [sub] occurs in [s]. *)
Definition within (sub s : string) : Prop :=
  exists pre post, s = pre +:+ sub +:+ post.

(** The keys of a map in the order of [map_to_list], one of the orders a
    [range] may take. *)
Definition keysInOrder : RangeOrder := fun _ keys => keys.

(** An epic without any child issue, alone in the input. *)
Definition childlessEpic : JiraIssue.t :=
  ticket "PROJ-100" "Epic" "Checkout" "To Do" None None "".

Definition childlessEpicData : AggregatedData.t :=
  {| AggregatedData.JiraIssues := [childlessEpic];
     AggregatedData.GitHubIssues := [];
     AggregatedData.GitHubPRs := [];
     AggregatedData.Metadata := emptyMetadata |}.

Definition epicGanttOptions : Options.t :=
  {| Options.Format := RoadmapFormat; Options.GroupBy := "";
     Options.IncludeMetadata := false; Options.VersionLabel := "";
     Options.RoadmapTimeframe := "Q1-Q4 2025";
     Options.RoadmapGrouping := ""; Options.RoadmapView := EpicGanttView;
     Options.IncludeDependencies := false |}.

(** ** The timeline view *)

(** [statusCounts[item.Status]++] for the items of one group. *)
Definition countItems (statusCounts : gmap string Z)
    (items : list RoadmapItem.t) : gmap string Z :=
  foldl (fun counts (item : RoadmapItem.t) =>
           let status := item.(RoadmapItem.Status) in
           <[status := default 0 (counts !! status) + 1]> counts)
        statusCounts items.

(** The first range over [groupedItems]. *)
Definition countStatuses (rangeKeys : RangeOrder)
    (groupedItems : gmap string (list RoadmapItem.t)) : gmap string Z :=
  foldl (fun counts group =>
           countItems counts (default [] (groupedItems !! group)))
        ∅ (rangeKeys 0%nat (keysOf groupedItems)).

Definition statusCountRow (status : string) (count : Z) : string :=
  lit "<tr>\n<td class=`confluenceTd` style=`padding: 8px; border: 1px solid #ddd; background-color:"
  +:+ getRoadmapStatusColor status +:+ lit "; color:" +:+ statusTextColor status
  +:+ lit "; font-weight:bold;`>" +:+ status
  +:+ lit "</td>\n<td class=`confluenceTd` style=`padding: 8px; border: 1px solid #ddd; text-align: center;`>"
  +:+ itoa count +:+ lit "</td>\n</tr>\n".

(** The rows of one group: its header over all columns, then its items. *)
Definition groupRows (quarters : list string)
    (groupedItems : gmap string (list RoadmapItem.t)) (group : string)
  : string :=
  lit "<tr>\n"
  +:+ lit "<td class=`confluenceTd` colspan=`"
  +:+ itoa (Z.of_nat (length quarters) + 1)
  +:+ lit "` style=`padding: 10px; background-color:#e9f0f7; font-weight:bold; border: 1px solid #ddd; border-bottom: 2px solid #4a6785;`>"
  +:+ escapeHTML group +:+ lit "</td>\n"
  +:+ lit "</tr>\n"
  +:+ writeAll (map (itemRow timelineHostLink quarters)
                    (default [] (groupedItems !! group))).

Definition generateTimelineView (rangeKeys : RangeOrder) (now : Time)
    (content : string) (data : AggregatedData.t) (quarters : list string)
    (opts : Options.t) : string :=
  let quarters := viewQuarters now quarters in
  let groupedItems := groupRoadmapItems data opts.(Options.RoadmapGrouping) in
  let statusCounts := countStatuses rangeKeys groupedItems in
  let content :=
    content
    +:+ lit "<h2>Roadmap</h2>\n"
    +:+ (if negb (String.eqb opts.(Options.RoadmapTimeframe) "")
         then lit "<p>This roadmap shows planned work for the period <strong>"
              +:+ opts.(Options.RoadmapTimeframe) +:+ lit "</strong>.</p>\n"
         else lit "<p>This roadmap shows planned and in-progress work items.</p>\n")
    +:+ lit "<h3>Timeline View</h3>\n"
    +:+ lit "<p>This view shows work items arranged by their planned start and end dates.</p>\n"
    +:+ lit "<table class=`confluenceTable` style=`width: 100%; border-collapse: collapse; margin-top: 20px;`>\n"
    +:+ lit "<thead>\n"
    +:+ lit "<tr>\n"
    +:+ lit "<th class=`confluenceTh` style=`padding: 10px; text-align: left; border: 1px solid #ddd; background-color: #f2f2f2; width: 25%;`>Item</th>\n"
    +:+ writeAll
          (map (fun quarter =>
                  lit "<th class=`confluenceTh` style=`padding: 10px; text-align: center; border: 1px solid #ddd; background-color: #f2f2f2;`>"
                  +:+ quarter +:+ lit "</th>\n")
               quarters)
    +:+ lit "</tr>\n"
    +:+ lit "</thead>\n"
    +:+ lit "<tbody>\n"
    +:+ lit "<div style=`margin-bottom: 20px;`>\n"
    +:+ lit "<h4>Status Summary</h4>\n"
    +:+ lit "<table class=`confluenceTable` style=`width: 50%; border-collapse: collapse; margin-bottom: 15px;`>\n"
    +:+ lit "<thead>\n<tr>\n<th class=`confluenceTh` style=`padding: 8px; text-align: left; border: 1px solid #ddd; background-color: #f2f2f2;`>Status</th>\n<th class=`confluenceTh` style=`padding: 8px; text-align: center; border: 1px solid #ddd; background-color: #f2f2f2;`>Count</th>\n</tr>\n</thead>\n"
    +:+ lit "<tbody>\n"
    +:+ writeAll
          (map (fun status =>
                  statusCountRow status (default 0 (statusCounts !! status)))
               (rangeKeys 1%nat (keysOf statusCounts)))
    +:+ lit "</tbody>\n</table>\n</div>\n"
    +:+ writeAll
          (map (groupRows quarters groupedItems)
               (rangeKeys 2%nat (keysOf groupedItems)))
    +:+ lit "</tbody>\n"
    +:+ lit "</table>\n"
    +:+ viewLegend in
  if opts.(Options.IncludeDependencies)
  then addDependenciesVisualization content data
  else content.

(** ** Formatting of times

    The two layouts in use: "January 2006" and [time.RFC1123].  The one
    location of the model is UTC. *)
Definition longMonthNames : list string :=
  ["January"; "February"; "March"; "April"; "May"; "June"; "July"; "August";
   "September"; "October"; "November"; "December"].

Definition shortDayNames : list string :=
  ["Sun"; "Mon"; "Tue"; "Wed"; "Thu"; "Fri"; "Sat"].

Definition monthName (t : Time) : string :=
  nth (Z.to_nat (Month t - 1)) longMonthNames "".

(** 0001-01-01 is a Monday. *)
Definition Weekday (t : Time) : Z := (absDays t + 1) mod 7.

(** [appendInt]: at least [width] digits, after the sign. *)
Definition padInt (x : Z) (width : nat) : string :=
  let digits := itoa (Z.abs x) in
  (if x <? 0 then "-" else "")
  +:+ writeAll (replicate (width - String.length digits) "0") +:+ digits.

Definition formatMonthYear (t : Time) : string :=
  monthName t +:+ " " +:+ padInt (Year t) 4.

Definition formatRFC1123 (t : Time) : string :=
  nth (Z.to_nat (Weekday t)) shortDayNames "" +:+ ", "
  +:+ padInt (Day t) 2 +:+ " "
  +:+ String.substring 0 3 (monthName t) +:+ " "
  +:+ padInt (Year t) 4 +:+ " "
  +:+ padInt (Hour t) 2 +:+ ":" +:+ padInt (Minute t) 2 +:+ ":"
  +:+ padInt (Second t) 2 +:+ " UTC".

(** ** [Generate] and the roadmap format *)

Definition addHeader (now : Time) (content : string) (data : AggregatedData.t)
    (opts : Options.t) : string :=
  content
  +:+ lit "<h1>Project Status Dashboard</h1>\n\n"
  +:+ (if negb (String.eqb opts.(Options.VersionLabel) "")
       then lit "<p><strong>Version:</strong> "
            +:+ escapeHTML opts.(Options.VersionLabel) +:+ lit "</p>\n"
       else "")
  +:+ lit "<p><strong>Generated:</strong> " +:+ formatRFC1123 now
  +:+ lit "</p>\n\n"
  +:+ lit "<ac:structured-macro ac:name=`info`>\n"
  +:+ lit "<ac:rich-text-body>\n"
  +:+ lit "<p><strong>Summary</strong></p>\n"
  +:+ lit "<ul>\n"
  +:+ lit "<li>Jira Issues: "
  +:+ itoa (Z.of_nat (length data.(AggregatedData.JiraIssues)))
  +:+ lit "</li>\n"
  +:+ lit "<li>GitHub Issues: "
  +:+ itoa (Z.of_nat (length data.(AggregatedData.GitHubIssues)))
  +:+ lit "</li>\n"
  +:+ lit "<li>GitHub Pull Requests: "
  +:+ itoa (Z.of_nat (length data.(AggregatedData.GitHubPRs)))
  +:+ lit "</li>\n"
  +:+ lit "</ul>\n"
  +:+ lit "</ac:rich-text-body>\n"
  +:+ lit "</ac:structured-macro>\n\n".

Definition addFooter (content : string) (data : AggregatedData.t) : string :=
  let metadata := data.(AggregatedData.Metadata) in
  content
  +:+ lit "<h2>Metadata</h2>\n"
  +:+ lit "<ac:structured-macro ac:name=`expand`>\n"
  +:+ lit "<ac:parameter ac:name=`title`>Click to view metadata</ac:parameter>\n"
  +:+ lit "<ac:rich-text-body>\n"
  +:+ lit "<table class=`confluenceTable`>\n"
  +:+ lit "<tr>"
  +:+ lit "<th class=`confluenceTh` style=`background-color:#f4f5f7;text-align:center`>Property</th>"
  +:+ lit "<th class=`confluenceTh` style=`background-color:#f4f5f7;text-align:center`>Value</th>"
  +:+ lit "</tr>\n"
  +:+ lit "<tr><td class=`confluenceTd`>Fetch Time</td><td class=`confluenceTd`>"
  +:+ formatRFC1123 metadata.(Metadata.FetchTime) +:+ lit "</td></tr>\n"
  +:+ lit "<tr><td class=`confluenceTd`>Jira Projects</td><td class=`confluenceTd`>"
  +:+ escapeHTML (Join metadata.(Metadata.JiraProjects) ", ")
  +:+ lit "</td></tr>\n"
  +:+ lit "<tr><td class=`confluenceTd`>GitHub Repositories</td><td class=`confluenceTd`>"
  +:+ escapeHTML (Join metadata.(Metadata.GitHubRepos) ", ")
  +:+ lit "</td></tr>\n"
  +:+ (if negb (String.eqb metadata.(Metadata.JiraJQL) "")
       then lit "<tr><td class=`confluenceTd`>Jira JQL</td><td class=`confluenceTd`>"
            +:+ escapeHTML metadata.(Metadata.JiraJQL) +:+ lit "</td></tr>\n"
       else "")
  +:+ (if 0 <? Z.of_nat (length metadata.(Metadata.GitHubLabels))
       then lit "<tr><td class=`confluenceTd`>GitHub Labels</td><td class=`confluenceTd`>"
            +:+ escapeHTML (Join metadata.(Metadata.GitHubLabels) ", ")
            +:+ lit "</td></tr>\n"
       else "")
  +:+ lit "</table>\n"
  +:+ lit "</ac:rich-text-body>\n"
  +:+ lit "</ac:structured-macro>\n"
  +:+ lit "<hr style=`border-top: 1px solid #ddd; margin: 20px 0;` />\n"
  +:+ lit "<p><em>Generated by jiragitfluence - Automated Project Status Reporter</em></p>\n".

Definition addRoadmapLegend (content : string) : string :=
  content
  +:+ lit "<ac:structured-macro ac:name=`info`>\n"
  +:+ lit "<ac:rich-text-body>\n"
  +:+ lit "<p><strong>Legend</strong></p>\n"
  +:+ lit "<ul>\n"
  +:+ lit "<li><span style=`display:inline-block; width:20px; height:10px; background-color:#0052CC; margin-right:5px;`></span>Planned</li>\n"
  +:+ lit "<li><span style=`display:inline-block; width:20px; height:10px; background-color:#36B37E; margin-right:5px;`></span>In Progress</li>\n"
  +:+ lit "<li><span style=`display:inline-block; width:20px; height:10px; background-color:#FF8B00; margin-right:5px;`></span>At Risk</li>\n"
  +:+ lit "<li><span style=`display:inline-block; width:20px; height:10px; background-color:#FF5630; margin-right:5px;`></span>Blocked</li>\n"
  +:+ lit "<li><span style=`display:inline-block; width:20px; height:10px; background-color:#6554C0; margin-right:5px;`></span>Completed</li>\n"
  +:+ lit "</ul>\n"
  +:+ lit "<p><small>This roadmap shows planned work items with their expected timeframes.</small></p>\n"
  +:+ lit "</ac:rich-text-body>\n"
  +:+ lit "</ac:structured-macro>\n".

(** The range of a roadmap: the parsed timeframe, or twelve months from
    the first of the current month when the parse gives the zero time. *)
Definition roadmapRange (now : Time) (opts : Options.t) : Time * Time :=
  let '(startDate, endDate) := parseTimeframe now opts.(Options.RoadmapTimeframe) in
  if IsZero startDate then
    let startDate := firstOfMonth now in
    (startDate, AddDate startDate 1 0 0)
  else (startDate, endDate).

(** What [generateRoadmapFormat] has written when it reaches the switch
    on the view, and the axis it has generated; [None] if the loop of
    [generateQuarters] did not end. *)
Definition roadmapIntro (now : Time) (content : string) (opts : Options.t)
  : option (string * list string) :=
  let content := content +:+ lit "<h2>Roadmap</h2>\n" in
  let '(startDate, endDate) := roadmapRange now opts in
  match generateQuarters startDate endDate with
  | None => None
  | Some quarters =>
      Some (content
            +:+ "<p>This roadmap shows planned work for the period "
            +:+ "<strong>" +:+ formatMonthYear startDate
            +:+ "</strong> to <strong>" +:+ formatMonthYear endDate
            +:+ lit "</strong>.</p>\n",
            quarters)
  end.

(** A Go error: its message. *)
Definition error : Type := string.

(** The renderers of the strategic and release views and of the formats
    other than the roadmap are arguments of the embedding: each takes what
    the builder holds and returns what it holds after the call.
    [log/slog] calls are left out. *)
Section Generator.
Variable now : Time.
Variable rangeKeys : RangeOrder.
Variables generateTableFormat generateKanbanFormat generateCustomFormat
  generateGanttFormat : string -> AggregatedData.t -> Options.t -> string.
Variables generateStrategicView generateReleaseView
  : string -> AggregatedData.t -> list string -> Options.t -> string.

Definition generateRoadmapFormat (content : string)
    (data : AggregatedData.t) (opts : Options.t) : option string :=
  match roadmapIntro now content opts with
  | None => None
  | Some (content, quarters) =>
      let view := opts.(Options.RoadmapView) in
      let content :=
        if String.eqb view TimelineView
        then generateTimelineView rangeKeys now content data quarters opts
        else if String.eqb view StrategicView
        then generateStrategicView content data quarters opts
        else if String.eqb view ReleaseView
        then generateReleaseView content data quarters opts
        else if String.eqb view EpicGanttView
        then generateEpicGanttView rangeKeys now content data quarters opts
        else generateTimelineView rangeKeys now content data quarters opts in
      Some (addRoadmapLegend content)
  end.

(** [Generate] returns the content and the error, [None] for [nil]. *)
Definition Generate (data : AggregatedData.t) (opts : Options.t)
  : option (string * option error) :=
  let content := "" in
  let content := addHeader now content data opts in
  let format := opts.(Options.Format) in
  let finish (content : string) : option (string * option error) :=
    Some (if opts.(Options.IncludeMetadata) then addFooter content data
          else content, None) in
  if String.eqb format TableFormat
  then finish (generateTableFormat content data opts)
  else if String.eqb format KanbanFormat
  then finish (generateKanbanFormat content data opts)
  else if String.eqb format CustomFormat
  then finish (generateCustomFormat content data opts)
  else if String.eqb format GanttFormat
  then finish (generateGanttFormat content data opts)
  else if String.eqb format RoadmapFormat
  then match generateRoadmapFormat content data opts with
       | Some content => finish content
       | None => None
       end
  else Some ("", Some ("unsupported format: " +:+ format)).
End Generator.

(** The options with another view name. *)
Definition withView (opts : Options.t) (view : string) : Options.t :=
  {| Options.Format := opts.(Options.Format);
     Options.GroupBy := opts.(Options.GroupBy);
     Options.IncludeMetadata := opts.(Options.IncludeMetadata);
     Options.VersionLabel := opts.(Options.VersionLabel);
     Options.RoadmapTimeframe := opts.(Options.RoadmapTimeframe);
     Options.RoadmapGrouping := opts.(Options.RoadmapGrouping);
     Options.RoadmapView := view;
     Options.IncludeDependencies := opts.(Options.IncludeDependencies) |}.

(** A request for the roadmap format with a view name that is none of
    the four. *)
Definition unknownViewOptions : Options.t :=
  {| Options.Format := RoadmapFormat; Options.GroupBy := "";
     Options.IncludeMetadata := false; Options.VersionLabel := "";
     Options.RoadmapTimeframe := "Q1-Q4 2025";
     Options.RoadmapGrouping := "theme"; Options.RoadmapView := "calendar";
     Options.IncludeDependencies := false |}.

(** Renderers that write a tag of their own, to tell them apart. *)
Definition tagFormat (tag : string) (content : string)
    (_ : AggregatedData.t) (_ : Options.t) : string :=
  content +:+ tag.

Definition tagView (tag : string) (content : string)
    (_ : AggregatedData.t) (_ : list string) (_ : Options.t) : string :=
  content +:+ tag.

(** ** Vocabulary of the further statements *)

(** A roadmap item as the normaliser builds it: both dates set, a status,
    and the payload of its type alone. *)
Definition wellFormedItem (item : RoadmapItem.t) : Prop :=
  is_Some item.(RoadmapItem.StartDate)
  /\ is_Some item.(RoadmapItem.EndDate)
  /\ item.(RoadmapItem.Status) <> ""
  /\ ((item.(RoadmapItem.Type_) = "jira"
       /\ is_Some item.(RoadmapItem.JiraIssue)
       /\ item.(RoadmapItem.GitHubIssue) = None)
      \/ (item.(RoadmapItem.Type_) = "github-issue"
          /\ item.(RoadmapItem.JiraIssue) = None
          /\ is_Some item.(RoadmapItem.GitHubIssue))).

(** The cell of a quarter outside the range of an item. *)
Definition emptyCell : string :=
  lit "<td class=`confluenceTd` style=`border: 1px solid #ddd; padding: 10px;`></td>\n".

(** What every filled cell starts with. *)
Definition filledCellStart : string :=
  lit "<td class=`confluenceTd` style=`text-align: center; padding: 10px; background-color:".

(** The year of a label as [getItemQuarters] writes it, rune by rune;
    [generateQuarters] prints it with [%d]. *)
Definition yearRunes (year : Z) : string :=
  runeString (48 + year ÷ 1000)
  +:+ runeString (48 + Z.rem (year ÷ 100) 10)
  +:+ runeString (48 + Z.rem (year ÷ 10) 10)
  +:+ runeString (48 + Z.rem year 10).

Definition yearsAgree (year : Z) : bool :=
  String.eqb (yearRunes year) (itoa year).

Definition yearsDiffer (year : Z) : bool :=
  negb (String.eqb (yearRunes year) (itoa year)).

(** The item of a ticket planned within the third quarter of 2025. *)
Definition plannedTicket : JiraIssue.t :=
  ticket "PROJ-3" "Story" "Search" "In Progress"
    (Some (Date 2025 7 1 0 0 0 0)) (Some (Date 2025 9 15 0 0 0 0)) "".

(** A feed with one ticket and one host issue. *)
Definition exampleData : AggregatedData.t :=
  AggregatedData.mk [exampleTicket] [exampleHostIssue] [] emptyMetadata.

(** What an issue contributes to [extractMilestones]: the name of its
    milestone, its planned end and its item; nothing without a milestone
    or without a planned end. *)
Definition jiraMilestoneEntry (issue : JiraIssue.t)
  : option (string * Time * RoadmapItem.t) :=
  match issue.(JiraIssue.PlannedEndDate) with
  | Some plannedEnd =>
      if negb (String.eqb issue.(JiraIssue.Milestone) "")
      then Some (issue.(JiraIssue.Milestone), plannedEnd,
                 jiraMilestoneItem issue)
      else None
  | None => None
  end.

Definition githubMilestoneEntry (issue : GitHubIssue.t)
  : option (string * Time * RoadmapItem.t) :=
  match issue.(GitHubIssue.PlannedEndDate) with
  | Some plannedEnd =>
      if negb (String.eqb issue.(GitHubIssue.Milestone) "")
      then Some (issue.(GitHubIssue.Milestone), plannedEnd,
                 githubMilestoneItem issue)
      else None
  | None => None
  end.

(** The contributions of a feed in the order of the two loops: the
    tickets, then the host issues. *)
Definition milestoneEntries (data : AggregatedData.t)
  : list (string * Time * RoadmapItem.t) :=
  omap jiraMilestoneEntry data.(AggregatedData.JiraIssues)
  ++ omap githubMilestoneEntry data.(AggregatedData.GitHubIssues).

(** The milestone [name] of a list of contributions: dated by the first
    contribution of that name, holding the items of all of them. *)
Definition milestoneOf (name : string)
    (entries : list (string * Time * RoadmapItem.t)) : option Milestone.t :=
  match filter (fun e => e.1.1 = name) entries with
  | [] => None
  | e :: rest =>
      Some {| Milestone.Name := name;
              Milestone.TargetDate := e.1.2;
              Milestone.Status :=
                foldl aggregateStatus "Planned"
                  (RoadmapItem.Status <$> (e :: rest).*2);
              Milestone.Items := (e :: rest).*2 |}
  end.

(** A milestone that is in the map already, after further contributions. *)
Definition milestoneAfter (m : Milestone.t)
    (entries : list (string * Time * RoadmapItem.t)) : Milestone.t :=
  {| Milestone.Name := m.(Milestone.Name);
     Milestone.TargetDate := m.(Milestone.TargetDate);
     Milestone.Status :=
       foldl aggregateStatus m.(Milestone.Status)
         (RoadmapItem.Status <$> entries.*2);
     Milestone.Items := m.(Milestone.Items) ++ entries.*2 |}.

Definition addEntry (milestoneMap : gmap string Milestone.t)
    (e : string * Time * RoadmapItem.t) : gmap string Milestone.t :=
  addToMilestone milestoneMap e.1.1 e.1.2 e.2.

(** ** Themes and the strategic view *)

Module Initiative.
Record t : Type := mk {
  Name : string;
  Status : string;
  StartQuarter : Z;
  EndQuarter : Z
}.
End Initiative.

Module Theme.
Record t : Type := mk {
  Name : string;
  Initiatives : list Initiative.t
}.
End Theme.

(** [themeMap[theme][initiative] = Initiative{Name, Status}] after the
    inner map of [theme] has been made if it was missing.  The two
    quarter fields are not set: they hold 0. *)
Definition setInitiative (themeMap : gmap string (gmap string Initiative.t))
    (theme initiative status : string)
  : gmap string (gmap string Initiative.t) :=
  let themeMap :=
    match themeMap !! theme with
    | Some _ => themeMap
    | None => <[theme := ∅]> themeMap
    end in
  <[theme := <[initiative := {| Initiative.Name := initiative;
                                Initiative.Status := status;
                                Initiative.StartQuarter := 0;
                                Initiative.EndQuarter := 0 |}]>
               (default ∅ (themeMap !! theme))]> themeMap.

Definition themeJiraStep (themeMap : gmap string (gmap string Initiative.t))
    (issue : JiraIssue.t) : gmap string (gmap string Initiative.t) :=
  if negb (String.eqb issue.(JiraIssue.Theme) "")
     && negb (String.eqb issue.(JiraIssue.Initiative) "")
     && bool_decide (is_Some issue.(JiraIssue.PlannedStartDate))
     && bool_decide (is_Some issue.(JiraIssue.PlannedEndDate))
  then
    let status := issue.(JiraIssue.RoadmapStatus) in
    let status :=
      if String.eqb status "" then deriveRoadmapStatus issue.(JiraIssue.Status)
      else status in
    setInitiative themeMap issue.(JiraIssue.Theme)
      issue.(JiraIssue.Initiative) status
  else themeMap.

Definition themeGitHubStep (themeMap : gmap string (gmap string Initiative.t))
    (issue : GitHubIssue.t) : gmap string (gmap string Initiative.t) :=
  if negb (String.eqb issue.(GitHubIssue.Theme) "")
     && negb (String.eqb issue.(GitHubIssue.Initiative) "")
     && bool_decide (is_Some issue.(GitHubIssue.PlannedStartDate))
     && bool_decide (is_Some issue.(GitHubIssue.PlannedEndDate))
  then
    let status := issue.(GitHubIssue.RoadmapStatus) in
    let status :=
      if String.eqb status ""
      then deriveRoadmapStatusFromGitHub issue.(GitHubIssue.State)
      else status in
    setInitiative themeMap issue.(GitHubIssue.Theme)
      issue.(GitHubIssue.Initiative) status
  else themeMap.

(** The map built by the two loops of [extractThemes]. *)
Definition themeMapOf (data : AggregatedData.t)
  : gmap string (gmap string Initiative.t) :=
  foldl themeGitHubStep
    (foldl themeJiraStep ∅ data.(AggregatedData.JiraIssues))
    data.(AggregatedData.GitHubIssues).

(** The values of a map in the order in which a [range] yields its keys. *)
Definition valuesInOrder {V : Type} (keys : list string) (m : gmap string V)
  : list (string * V) :=
  omap (fun key => pair key <$> m !! key) keys.

(** [extractThemes]: range 0 is the one over the themes, range [i + 1]
    the one over the initiatives of the [i]-th theme. *)
Definition extractThemes (rangeKeys : RangeOrder) (data : AggregatedData.t)
  : list Theme.t :=
  let themeMap := themeMapOf data in
  imap (fun i '(themeName, initiatives) =>
          {| Theme.Name := themeName;
             Theme.Initiatives :=
               (valuesInOrder (rangeKeys (S i) (keysOf initiatives))
                  initiatives).*2 |})
       (valuesInOrder (rangeKeys 0%nat (keysOf themeMap)) themeMap).

Definition strategicEmptyCell : string :=
  lit "<td class=`confluenceTd`></td>\n".

Definition strategicFilledCell (status : string) : string :=
  lit "<td class=`confluenceTd` style=`background-color:"
  +:+ getRoadmapStatusColor status +:+ lit ";`>•</td>\n".

Definition strategicCell (initiative : Initiative.t) (i : Z) : string :=
  if (initiative.(Initiative.StartQuarter) <=? i)
     && (i <=? initiative.(Initiative.EndQuarter))
  then strategicFilledCell initiative.(Initiative.Status)
  else strategicEmptyCell.

Definition initiativeRow (quarters : list string)
    (initiative : Initiative.t) : string :=
  lit "<tr>\n"
  +:+ lit "<td class=`confluenceTd`>"
  +:+ escapeHTML initiative.(Initiative.Name) +:+ lit "</td>\n"
  +:+ writeAll (imap (fun i _ => strategicCell initiative (Z.of_nat i))
                     quarters)
  +:+ lit "</tr>\n".

Definition themeRows (quarters : list string) (theme : Theme.t) : string :=
  lit "<tr>\n"
  +:+ lit "<td class=`confluenceTd` colspan=`"
  +:+ itoa (Z.of_nat (length quarters) + 1)
  +:+ lit "` style=`background-color:#f4f5f7; font-weight:bold;`>"
  +:+ escapeHTML theme.(Theme.Name) +:+ lit "</td>\n"
  +:+ lit "</tr>\n"
  +:+ writeAll (map (initiativeRow quarters) theme.(Theme.Initiatives)).

Definition generateStrategicView (rangeKeys : RangeOrder) (content : string)
    (data : AggregatedData.t) (quarters : list string) (opts : Options.t)
  : string :=
  let themes := extractThemes rangeKeys data in
  content
  +:+ (if opts.(Options.IncludeDependencies)
       then lit "<p><em>Dependencies will be shown at the end of the view.</em></p>\n"
       else "")
  +:+ lit "<h3>Strategic View</h3>\n"
  +:+ lit "<p>This view shows work items grouped by strategic themes and initiatives.</p>\n"
  +:+ lit "<table class=`confluenceTable`>\n"
  +:+ lit "<thead>\n"
  +:+ lit "<tr>\n"
  +:+ lit "<th class=`confluenceTh`>Theme/Initiative</th>\n"
  +:+ writeAll (map (fun quarter =>
                       lit "<th class=`confluenceTh`>" +:+ quarter
                       +:+ lit "</th>\n")
                    quarters)
  +:+ lit "</tr>\n"
  +:+ lit "</thead>\n"
  +:+ lit "<tbody>\n"
  +:+ writeAll (map (themeRows quarters) themes)
  +:+ lit "</tbody>\n"
  +:+ lit "</table>\n".

(** What an issue contributes to [extractThemes]: theme, initiative and
    status; nothing unless it has a theme, an initiative and both planned
    dates. *)
Definition jiraThemeEntry (issue : JiraIssue.t)
  : option (string * string * string) :=
  if negb (String.eqb issue.(JiraIssue.Theme) "")
     && negb (String.eqb issue.(JiraIssue.Initiative) "")
     && bool_decide (is_Some issue.(JiraIssue.PlannedStartDate))
     && bool_decide (is_Some issue.(JiraIssue.PlannedEndDate))
  then Some (issue.(JiraIssue.Theme), issue.(JiraIssue.Initiative),
             (jiraMilestoneItem issue).(RoadmapItem.Status))
  else None.

Definition githubThemeEntry (issue : GitHubIssue.t)
  : option (string * string * string) :=
  if negb (String.eqb issue.(GitHubIssue.Theme) "")
     && negb (String.eqb issue.(GitHubIssue.Initiative) "")
     && bool_decide (is_Some issue.(GitHubIssue.PlannedStartDate))
     && bool_decide (is_Some issue.(GitHubIssue.PlannedEndDate))
  then Some (issue.(GitHubIssue.Theme), issue.(GitHubIssue.Initiative),
             (githubMilestoneItem issue).(RoadmapItem.Status))
  else None.

Definition themeEntries (data : AggregatedData.t)
  : list (string * string * string) :=
  omap jiraThemeEntry data.(AggregatedData.JiraIssues)
  ++ omap githubThemeEntry data.(AggregatedData.GitHubIssues).

Definition addThemeEntry (themeMap : gmap string (gmap string Initiative.t))
    (e : string * string * string) : gmap string (gmap string Initiative.t) :=
  setInitiative themeMap e.1.1 e.1.2 e.2.

(** The initiative [initiative] of theme [theme]: the status of the LAST
    contribution to it. *)
Definition initiativeOf (theme initiative : string)
    (entries : list (string * string * string)) : option Initiative.t :=
  (fun e : string * string * string =>
     {| Initiative.Name := initiative; Initiative.Status := e.2;
        Initiative.StartQuarter := 0; Initiative.EndQuarter := 0 |})
  <$> last (filter (fun e => e.1.1 = theme /\ e.1.2 = initiative) entries).

(** A ticket with a theme and an initiative. *)
Definition withTheme (issue : JiraIssue.t) (theme initiative : string)
  : JiraIssue.t :=
  {| JiraIssue.Key := issue.(JiraIssue.Key);
     JiraIssue.IssueType := issue.(JiraIssue.IssueType);
     JiraIssue.Summary := issue.(JiraIssue.Summary);
     JiraIssue.Status := issue.(JiraIssue.Status);
     JiraIssue.Priority := issue.(JiraIssue.Priority);
     JiraIssue.Assignee := issue.(JiraIssue.Assignee);
     JiraIssue.Reporter := issue.(JiraIssue.Reporter);
     JiraIssue.Team := issue.(JiraIssue.Team);
     JiraIssue.Labels := issue.(JiraIssue.Labels);
     JiraIssue.EpicLink := issue.(JiraIssue.EpicLink);
     JiraIssue.CreatedDate := issue.(JiraIssue.CreatedDate);
     JiraIssue.UpdatedDate := issue.(JiraIssue.UpdatedDate);
     JiraIssue.Description := issue.(JiraIssue.Description);
     JiraIssue.FixVersions := issue.(JiraIssue.FixVersions);
     JiraIssue.Watchers := issue.(JiraIssue.Watchers);
     JiraIssue.URL := issue.(JiraIssue.URL);
     JiraIssue.PlannedStartDate := issue.(JiraIssue.PlannedStartDate);
     JiraIssue.PlannedEndDate := issue.(JiraIssue.PlannedEndDate);
     JiraIssue.Theme := theme; JiraIssue.Initiative := initiative;
     JiraIssue.Dependencies := issue.(JiraIssue.Dependencies);
     JiraIssue.PriorityScore := issue.(JiraIssue.PriorityScore);
     JiraIssue.RoadmapStatus := issue.(JiraIssue.RoadmapStatus);
     JiraIssue.Milestone := issue.(JiraIssue.Milestone);
     JiraIssue.Quarter := issue.(JiraIssue.Quarter) |}.

(** A feed whose only ticket is planned for the third quarter of 2025 and
    belongs to the initiative "Search" of the theme "Growth". *)
Definition themedData : AggregatedData.t :=
  AggregatedData.mk [withTheme plannedTicket "Growth" "Search"] [] []
    emptyMetadata.

Definition searchInitiative : Initiative.t :=
  {| Initiative.Name := "Search"; Initiative.Status := "In Progress";
     Initiative.StartQuarter := 0; Initiative.EndQuarter := 0 |}.

(** ** The generate command

    [GenerateCommand] up to the write of the output file.  The flags of
    the [cli.Context] are a record; [load path] is what
    [loadAggregatedData(path)] returns for the files as they are on disk:
    the error of the read or of the unmarshal, or the data.  [log/slog]
    calls are left out. *)

Module Flags.
Record t : Type := mk {
  input : string;
  jira_input : string;
  github_input : string;
  format : string;
  output : string;
  group_by : string;
  include_metadata : bool;
  version_label : string;
  roadmap_timeframe : string;
  roadmap_grouping : string;
  roadmap_view : string;
  roadmap_include_dependencies : bool
}.
End Flags.

(** [t.After(u)]. *)
Definition After (t u : Time) : bool := Before u t.

(** The assignments to [data.Metadata] of the two branches of the Jira
    block, and of the GitHub block, with the fetch time to store. *)
Definition copyJiraMetadata (metadata from : Metadata.t) (fetchTime : Time)
  : Metadata.t :=
  {| Metadata.FetchTime := fetchTime;
     Metadata.JiraProjects := from.(Metadata.JiraProjects);
     Metadata.GitHubRepos := metadata.(Metadata.GitHubRepos);
     Metadata.JiraJQL := from.(Metadata.JiraJQL);
     Metadata.GitHubLabels := metadata.(Metadata.GitHubLabels);
     Metadata.GitHubContentFilter := metadata.(Metadata.GitHubContentFilter);
     Metadata.GitHubCreator := metadata.(Metadata.GitHubCreator);
     Metadata.VersionLabel := metadata.(Metadata.VersionLabel);
     Metadata.RoadmapTimeframe := metadata.(Metadata.RoadmapTimeframe);
     Metadata.RoadmapGrouping := metadata.(Metadata.RoadmapGrouping);
     Metadata.RoadmapView := metadata.(Metadata.RoadmapView);
     Metadata.RoadmapThemes := metadata.(Metadata.RoadmapThemes);
     Metadata.RoadmapQuarters := metadata.(Metadata.RoadmapQuarters) |}.

Definition copyGitHubMetadata (metadata from : Metadata.t) (fetchTime : Time)
  : Metadata.t :=
  {| Metadata.FetchTime := fetchTime;
     Metadata.JiraProjects := metadata.(Metadata.JiraProjects);
     Metadata.GitHubRepos := from.(Metadata.GitHubRepos);
     Metadata.JiraJQL := metadata.(Metadata.JiraJQL);
     Metadata.GitHubLabels := from.(Metadata.GitHubLabels);
     Metadata.GitHubContentFilter := from.(Metadata.GitHubContentFilter);
     Metadata.GitHubCreator := from.(Metadata.GitHubCreator);
     Metadata.VersionLabel := metadata.(Metadata.VersionLabel);
     Metadata.RoadmapTimeframe := metadata.(Metadata.RoadmapTimeframe);
     Metadata.RoadmapGrouping := metadata.(Metadata.RoadmapGrouping);
     Metadata.RoadmapView := metadata.(Metadata.RoadmapView);
     Metadata.RoadmapThemes := metadata.(Metadata.RoadmapThemes);
     Metadata.RoadmapQuarters := metadata.(Metadata.RoadmapQuarters) |}.

(** "Only update fetch time if it's newer or not set". *)
Definition mergedFetchTime (current new : Time) : Time :=
  if IsZero current || After new current then new else current.

Section Command.
Variable load : string -> error + AggregatedData.t.
Variable generate : AggregatedData.t -> Options.t -> string * option error.

(** The three blocks that load the inputs; the state is [data] and
    [dataLoaded]. *)
Definition loadCombined (inputPath : string)
  : error + (AggregatedData.t * bool) :=
  let data := AggregatedData.mk [] [] [] emptyMetadata in
  if negb (String.eqb inputPath "") then
    match load inputPath with
    | inl err =>
        inl ("failed to load aggregated data from " +:+ inputPath +:+ ": "
             +:+ err)
    | inr loadedData => inr (loadedData, true)
    end
  else inr (data, false).

Definition loadJira (inputPath jiraInputPath : string)
    (state : AggregatedData.t * bool) : error + (AggregatedData.t * bool) :=
  let '(data, dataLoaded) := state in
  if negb (String.eqb jiraInputPath "") then
    match load jiraInputPath with
    | inl err =>
        inl ("failed to load Jira data from " +:+ jiraInputPath +:+ ": "
             +:+ err)
    | inr jiraData =>
        let metadata := data.(AggregatedData.Metadata) in
        let from := jiraData.(AggregatedData.Metadata) in
        let metadata :=
          if negb dataLoaded then
            copyJiraMetadata metadata from from.(Metadata.FetchTime)
          else if String.eqb inputPath "" then
            copyJiraMetadata metadata from
              (mergedFetchTime metadata.(Metadata.FetchTime)
                 from.(Metadata.FetchTime))
          else metadata in
        inr (AggregatedData.mk jiraData.(AggregatedData.JiraIssues)
               data.(AggregatedData.GitHubIssues)
               data.(AggregatedData.GitHubPRs) metadata, true)
    end
  else inr state.

Definition loadGitHub (inputPath githubInputPath : string)
    (state : AggregatedData.t * bool) : error + (AggregatedData.t * bool) :=
  let '(data, dataLoaded) := state in
  if negb (String.eqb githubInputPath "") then
    match load githubInputPath with
    | inl err =>
        inl ("failed to load GitHub data from " +:+ githubInputPath +:+ ": "
             +:+ err)
    | inr githubData =>
        let metadata := data.(AggregatedData.Metadata) in
        let from := githubData.(AggregatedData.Metadata) in
        let metadata :=
          if negb dataLoaded then
            copyGitHubMetadata metadata from from.(Metadata.FetchTime)
          else if String.eqb inputPath "" then
            copyGitHubMetadata metadata from
              (mergedFetchTime metadata.(Metadata.FetchTime)
                 from.(Metadata.FetchTime))
          else metadata in
        inr (AggregatedData.mk data.(AggregatedData.JiraIssues)
               githubData.(AggregatedData.GitHubIssues)
               githubData.(AggregatedData.GitHubPRs) metadata, true)
    end
  else inr state.

(** The data that the command hands to the generator. *)
Definition commandData (flags : Flags.t) : error + AggregatedData.t :=
  let inputPath := flags.(Flags.input) in
  match loadCombined inputPath with
  | inl err => inl err
  | inr state =>
  match loadJira inputPath flags.(Flags.jira_input) state with
  | inl err => inl err
  | inr state =>
  match loadGitHub inputPath flags.(Flags.github_input) state with
  | inl err => inl err
  | inr (data, dataLoaded) =>
      if negb dataLoaded then
        inl "no input files specified, please provide either --input, --jira-input, or --github-input"
      else inr data
  end end end.

Definition commandOptions (flags : Flags.t) : Options.t :=
  {| Options.Format := flags.(Flags.format);
     Options.GroupBy := flags.(Flags.group_by);
     Options.IncludeMetadata := flags.(Flags.include_metadata);
     Options.VersionLabel := flags.(Flags.version_label);
     Options.RoadmapTimeframe := flags.(Flags.roadmap_timeframe);
     Options.RoadmapGrouping := flags.(Flags.roadmap_grouping);
     Options.RoadmapView := flags.(Flags.roadmap_view);
     Options.IncludeDependencies :=
       flags.(Flags.roadmap_include_dependencies) |}.

(** [GenerateCommand]: the error, or the path and the content that it
    hands to [os.WriteFile]. *)
Definition GenerateCommand (flags : Flags.t) : error + (string * string) :=
  match commandData flags with
  | inl err => inl err
  | inr data =>
      match generate data (commandOptions flags) with
      | (_, Some err) => inl ("failed to generate content: " +:+ err)
      | (content, None) => inr (flags.(Flags.output), content)
      end
  end.
End Command.

(** Two loaded files: a Jira file fetched on 2025-01-10 and a GitHub file
    fetched on 2025-01-20; no other path can be read. *)
Definition jiraFile : AggregatedData.t :=
  AggregatedData.mk [exampleTicket] [] []
    (copyJiraMetadata emptyMetadata emptyMetadata (Date 2025 1 10 0 0 0 0)).

Definition githubFile : AggregatedData.t :=
  AggregatedData.mk [] [exampleHostIssue] []
    (copyGitHubMetadata emptyMetadata emptyMetadata (Date 2025 1 20 0 0 0 0)).

Definition exampleLoad (path : string) : error + AggregatedData.t :=
  if String.eqb path "jira.json" then inr jiraFile
  else if String.eqb path "github.json" then inr githubFile
  else if String.eqb path "all.json" then inr exampleData
  else inl "failed to read file: open: no such file or directory".

Definition exampleFlags (input jira_input github_input : string) : Flags.t :=
  {| Flags.input := input; Flags.jira_input := jira_input;
     Flags.github_input := github_input; Flags.format := "roadmap";
     Flags.output := "out.html"; Flags.group_by := "status";
     Flags.include_metadata := false; Flags.version_label := "";
     Flags.roadmap_timeframe := ""; Flags.roadmap_grouping := "epic";
     Flags.roadmap_view := "timeline";
     Flags.roadmap_include_dependencies := false |}.

(** ** Vocabulary of the statements on timeframes *)

(** A string of decimal digits, and the number it reads as after [acc]. *)
Fixpoint allDigits (s : string) : bool :=
  match s with
  | "" => true
  | String c rest => isDigit c && allDigits rest
  end.

Fixpoint digitsValue (s : string) (acc : Z) : Z :=
  match s with
  | "" => acc
  | String c rest => digitsValue rest (10 * acc + (ord c - 48))
  end.

(** A text at which the scan of a number stops. *)
Definition stopsNumber (rest : string) : bool :=
  match rest with
  | "" => true
  | String c _ => negb (isDigit c) && negb (c =? "_")%char
  end.

Fixpoint lastByte (s : string) : option ascii :=
  match s with
  | "" => None
  | String c "" => Some c
  | String _ rest => lastByte rest
  end.

(** Options with another timeframe. *)
Definition withTimeframe (opts : Options.t) (timeframe : string) : Options.t :=
  {| Options.Format := opts.(Options.Format);
     Options.GroupBy := opts.(Options.GroupBy);
     Options.IncludeMetadata := opts.(Options.IncludeMetadata);
     Options.VersionLabel := opts.(Options.VersionLabel);
     Options.RoadmapTimeframe := timeframe;
     Options.RoadmapGrouping := opts.(Options.RoadmapGrouping);
     Options.RoadmapView := opts.(Options.RoadmapView);
     Options.IncludeDependencies := opts.(Options.IncludeDependencies) |}.

(** The first instant of month [month] of [year]; as in [time.Date] the
    month may lie outside 1..12 and then counts on into the other years. *)
Definition monthStart (year month : Z) : Time := Date year month 1 0 0 0 0.

(** The check of one 400-year cycle for the first days of the months. *)
Definition firstDayOk (year : Z) : bool :=
  forallb (fun month =>
             let d := dateToDays year month 1 in
             (0 <=? d) && (d <? 146097)
             && (let '(y, m, dd) := civil d in
                 (y =? year) && (m =? month) && (dd =? 1)))
          [1; 2; 3; 4; 5; 6; 7; 8; 9; 10; 11; 12].

(** [fmt.Sprintf("Q%d %d", quarter, year)], and the label of the month
    that is [month - 1] months after January of [year]. *)
Definition quarterName (quarter year : Z) : string :=
  "Q" +:+ itoa quarter +:+ " " +:+ itoa year.

Definition monthLabel (year month : Z) : string :=
  quarterName (((month - 1) mod 12) ÷ 3 + 1) (year + (month - 1) / 12).

(** The labels of [n] months in a row from month [month] of [year] on. *)
Definition monthLabels (year month : Z) (n : nat) : list string :=
  map (fun i => monthLabel year (month + Z.of_nat i)) (seq 0 n).

(** A ticket planned for the first quarter of 2020. *)
Definition oldTicket : JiraIssue.t :=
  ticket "PROJ-2" "Story" "Archive" "Done"
    (Some (Date 2020 2 1 0 0 0 0)) (Some (Date 2020 3 1 0 0 0 0)) "".

(** ** The Jira client *)

(** [buildJQLQuery]. *)
Definition buildJQLQuery (projects : list string) (additionalJQL : string)
  : string :=
  let projectQuery :=
    match projects with
    | [project] => lit "project = `" +:+ project +:+ lit "`"
    | _ =>
        foldl (fun projectQuery '(i, project) =>
                 (if (0 <? Z.of_nat i) then projectQuery +:+ ", "
                  else projectQuery)
                 +:+ lit "`" +:+ project +:+ lit "`")
              "project IN (" (imap pair projects)
        +:+ ")"
    end in
  if negb (String.eqb additionalJQL "")
  then projectQuery +:+ " AND " +:+ additionalJQL
  else projectQuery.

(** The [URL] that [convertJiraIssue] gives an issue with the address
    [self] and the key [key]:
    [self[:len(self)-len(key)-len("/rest/api/2/issue/")] + "/browse/" + key].
    [None] stands for the panic of a slice bound below zero. *)
Definition convertJiraIssue_URL (self key : string) : option string :=
  let bound :=
    Z.of_nat (String.length self) - Z.of_nat (String.length key)
    - Z.of_nat (String.length "/rest/api/2/issue/") in
  if bound <? 0 then None
  else Some (String.substring 0 (Z.to_nat bound) self +:+ "/browse/" +:+ key).

(** A project name between double quotes. *)
Definition quoted (project : string) : string :=
  lit "`" +:+ project +:+ lit "`".

(** ** The kanban board *)

(** Go's [int] is taken to have 64 bits: the result of an [int] operation
    wraps into [-2^63, 2^63). *)
Definition wrapInt (n : Z) : Z := (n + 2 ^ 63) mod 2 ^ 64 - 2 ^ 63.

(** [utf8.DecodeRuneInString] at a string whose first byte is [b0] and
    whose other bytes are [rest]: the rune and its width.  What is no
    valid encoding gives U+FFFD and the width 1. *)
Definition byteIn (lo hi : Z) (s : string) (i : nat) : option Z :=
  match String.get i s with
  | Some c => if (lo <=? ord c) && (ord c <=? hi) then Some (ord c) else None
  | None => None
  end.

Definition decodeRune (b0 : Z) (rest : string) : Z * nat :=
  let invalid := (65533, 1%nat) in
  if b0 <? 128 then (b0, 1%nat)
  else if (194 <=? b0) && (b0 <=? 223) then
    match byteIn 128 191 rest 0 with
    | Some b1 =>
        (Z.lor (Z.shiftl (Z.land b0 31) 6) (Z.land b1 63), 2%nat)
    | None => invalid
    end
  else if (224 <=? b0) && (b0 <=? 239) then
    let lo := if b0 =? 224 then 160 else 128 in
    let hi := if b0 =? 237 then 159 else 191 in
    match byteIn lo hi rest 0, byteIn 128 191 rest 1 with
    | Some b1, Some b2 =>
        (Z.lor (Z.lor (Z.shiftl (Z.land b0 15) 12)
                      (Z.shiftl (Z.land b1 63) 6))
               (Z.land b2 63), 3%nat)
    | _, _ => invalid
    end
  else if (240 <=? b0) && (b0 <=? 244) then
    let lo := if b0 =? 240 then 144 else 128 in
    let hi := if b0 =? 244 then 143 else 191 in
    match byteIn lo hi rest 0, byteIn 128 191 rest 1,
          byteIn 128 191 rest 2 with
    | Some b1, Some b2, Some b3 =>
        (Z.lor (Z.lor (Z.lor (Z.shiftl (Z.land b0 7) 18)
                             (Z.shiftl (Z.land b1 63) 12))
                      (Z.shiftl (Z.land b2 63) 6))
               (Z.land b3 63), 4%nat)
    | _, _, _ => invalid
    end
  else invalid.

(** [for _, c := range s]: the runes of a string; [skip] counts the bytes
    of the current rune still to be passed. *)
Fixpoint runesGo (s : string) (skip : nat) : list Z :=
  match s with
  | "" => []
  | String c rest =>
      match skip with
      | S k => runesGo rest k
      | O =>
          let '(r, width) := decodeRune (ord c) rest in
          r :: runesGo rest (width - 1)
      end
  end.

Definition runes (s : string) : list Z := runesGo s 0.

(** The hash of a key: [hash = 31*hash + int(c)] over its runes. *)
Definition keyHash (key : string) : Z :=
  foldl (fun hash c => wrapInt (31 * hash + c)) 0 (runes key).

Definition colors : list string :=
  ["#0052CC"; "#6554C0"; "#00875A"; "#FF5630"; "#FF8B00"; "#36B37E";
   "#00B8D9"; "#4C9AFF"; "#172B4D"; "#403294"].

Definition lightColors : list string :=
  ["#DEEBFF"; "#EAE6FF"; "#E3FCEF"; "#FFEBE6"; "#FFF0B3"; "#ABF5D1";
   "#E6FCFF"; "#B3D4FF"; "#F4F5F7"; "#EAE6FF"].

(** [hash % len(colors)]: the remainder has the sign of the hash. *)
Definition colorIndexOf (hash : Z) : Z :=
  Z.rem hash (Z.of_nat (length colors)).

(** [l[i]]; [None] stands for the panic of an index out of range. *)
Definition index (l : list string) (i : Z) : option string :=
  if i <? 0 then None else l !! Z.to_nat i.

(** The panel of a card, from its colours on. *)
Definition panel (hash : Z) (body : string) : option string :=
  let colorIndex := colorIndexOf hash in
  match index colors colorIndex, index lightColors colorIndex with
  | Some borderColor, Some backgroundColor =>
      Some (lit "<ac:structured-macro ac:name=`panel`>\n"
            +:+ lit "<ac:parameter ac:name=`borderStyle`>solid</ac:parameter>\n"
            +:+ lit "<ac:parameter ac:name=`borderColor`>" +:+ borderColor
            +:+ lit "</ac:parameter>\n"
            +:+ lit "<ac:parameter ac:name=`borderWidth`>1</ac:parameter>\n"
            +:+ lit "<ac:parameter ac:name=`backgroundColor`>"
            +:+ backgroundColor +:+ lit "</ac:parameter>\n"
            +:+ lit "<ac:rich-text-body>\n"
            +:+ body
            +:+ lit "</ac:rich-text-body>\n"
            +:+ lit "</ac:structured-macro>\n")
  | _, _ => None
  end.

Definition jiraCard (issue : JiraIssue.t) : option string :=
  panel (keyHash issue.(JiraIssue.Key))
    (lit "<p><strong><a href=`" +:+ issue.(JiraIssue.URL) +:+ lit "`>"
     +:+ escapeHTML issue.(JiraIssue.Key) +:+ lit "</a></strong></p>\n"
     +:+ lit "<p>" +:+ escapeHTML issue.(JiraIssue.Summary) +:+ lit "</p>\n"
     +:+ (if negb (String.eqb issue.(JiraIssue.Assignee) "")
          then lit "<p><em>Assignee: "
               +:+ escapeHTML issue.(JiraIssue.Assignee)
               +:+ lit "</em></p>\n"
          else "")).

Definition githubIssueCard (issue : GitHubIssue.t) : option string :=
  panel (wrapInt (keyHash issue.(GitHubIssue.Repository)
                  + issue.(GitHubIssue.Number)))
    (lit "<p><strong><a href=`" +:+ issue.(GitHubIssue.URL) +:+ lit "`>"
     +:+ escapeHTML issue.(GitHubIssue.Repository) +:+ " #"
     +:+ itoa issue.(GitHubIssue.Number) +:+ lit "</a></strong></p>\n"
     +:+ lit "<p>" +:+ escapeHTML issue.(GitHubIssue.Title) +:+ lit "</p>\n"
     +:+ (if 0 <? Z.of_nat (length issue.(GitHubIssue.Assignees))
          then lit "<p><em>Assignee: "
               +:+ escapeHTML (Join issue.(GitHubIssue.Assignees) ", ")
               +:+ lit "</em></p>\n"
          else "")).

Definition githubPRCard (pr : GitHubPR.t) : option string :=
  panel (wrapInt (keyHash pr.(GitHubPR.Repository) + pr.(GitHubPR.Number)))
    (lit "<p><strong><a href=`" +:+ pr.(GitHubPR.URL) +:+ lit "`>"
     +:+ escapeHTML pr.(GitHubPR.Repository) +:+ " #"
     +:+ itoa pr.(GitHubPR.Number) +:+ lit "</a></strong></p>\n"
     +:+ lit "<p>" +:+ escapeHTML pr.(GitHubPR.Title) +:+ lit "</p>\n"
     +:+ (if 0 <? Z.of_nat (length pr.(GitHubPR.Assignees))
          then lit "<p><em>Assignee: "
               +:+ escapeHTML (Join pr.(GitHubPR.Assignees) ", ")
               +:+ lit "</em></p>\n"
          else "")
     +:+ (if pr.(GitHubPR.IsDraft) then lit "<p><em>Draft</em></p>\n"
          else "")).

Definition mapGitHubStateToColumn (state : string) : string :=
  if String.eqb state "open" then "To Do" else "Done".

Definition mapGitHubPRStateToColumn (state mergeStatus : string) : string :=
  if String.eqb state "open" then
    if String.eqb mergeStatus "clean" || String.eqb mergeStatus "unstable"
    then "Review" else "In Progress"
  else if String.eqb state "closed" then "Done"
  else "In Progress".

(** The cards that a loop writes: those of the elements that belong to the
    column, one after the other; a card that panics ends the run. *)
Fixpoint writeCards {A : Type} (inColumn : A -> bool)
    (card : A -> option string) (content : string) (l : list A)
  : option string :=
  match l with
  | [] => Some content
  | x :: rest =>
      if inColumn x then
        match card x with
        | Some text => writeCards inColumn card (content +:+ text) rest
        | None => None
        end
      else writeCards inColumn card content rest
  end.

Definition columns : list string := ["To Do"; "In Progress"; "Review"; "Done"].

Section Kanban.
(** [unicode.ToLower]: the case tables of the Unicode standard are an
    argument. *)
Variable unicodeToLower : Z -> Z.

(** [strings.Map]: a rune that is mapped below zero is dropped. *)
Definition Map (mapping : Z -> Z) (s : string) : string :=
  writeAll (map (fun c => let r := mapping c in
                          if r <? 0 then "" else encodeRune r)
                (runes s)).

Fixpoint isASCII (s : string) : bool :=
  match s with
  | "" => true
  | String c rest => (ord c <? 128) && isASCII rest
  end.

Fixpoint lowerASCII (s : string) : string :=
  match s with
  | "" => ""
  | String c rest =>
      String (if (65 <=? ord c) && (ord c <=? 90) then chr (ord c + 32)
              else c)
             (lowerASCII rest)
  end.

(** [strings.ToLower]. *)
Definition ToLower (s : string) : string :=
  if isASCII s then lowerASCII s else Map unicodeToLower s.

Definition mapStatusToColumn (status : string) : string :=
  let status := ToLower status in
  if Contains status "to do" || Contains status "backlog"
     || Contains status "open" then "To Do"
  else if Contains status "in progress" || Contains status "doing"
  then "In Progress"
  else if Contains status "review" || Contains status "testing"
          || Contains status "qa" then "Review"
  else if Contains status "done" || Contains status "closed"
          || Contains status "resolved" then "Done"
  else "To Do".

(** One column of the board. *)
Definition kanbanColumn (data : AggregatedData.t) (content : string)
    (column : string) : option string :=
  let content :=
    content
    +:+ lit "<ac:layout-cell>\n"
    +:+ lit "<h3 style=`text-align:center;background-color:#f4f5f7;padding:8px;margin-bottom:10px;border-radius:3px;`>"
    +:+ column +:+ lit "</h3>\n" in
  match writeCards
          (fun issue =>
             String.eqb (mapStatusToColumn issue.(JiraIssue.Status)) column)
          jiraCard content data.(AggregatedData.JiraIssues) with
  | None => None
  | Some content =>
  match writeCards
          (fun issue =>
             String.eqb (mapGitHubStateToColumn issue.(GitHubIssue.State))
                        column)
          githubIssueCard content data.(AggregatedData.GitHubIssues) with
  | None => None
  | Some content =>
  match writeCards
          (fun pr =>
             String.eqb (mapGitHubPRStateToColumn pr.(GitHubPR.State)
                           pr.(GitHubPR.MergeStatus)) column)
          githubPRCard content data.(AggregatedData.GitHubPRs) with
  | None => None
  | Some content => Some (content +:+ lit "</ac:layout-cell>\n")
  end end end.

Fixpoint kanbanColumns (data : AggregatedData.t) (content : string)
    (cols : list string) : option string :=
  match cols with
  | [] => Some content
  | column :: rest =>
      match kanbanColumn data content column with
      | Some content => kanbanColumns data content rest
      | None => None
      end
  end.

(** [generateKanbanFormat]; [None] when a card panics. *)
Definition generateKanbanFormat (content : string) (data : AggregatedData.t)
    (opts : Options.t) : option string :=
  let content :=
    content
    +:+ lit "<h2>Kanban Board</h2>\n"
    +:+ lit "<ac:layout>\n"
    +:+ lit "<ac:layout-section ac:type=`four_equal`>\n" in
  match kanbanColumns data content columns with
  | Some content =>
      Some (content +:+ lit "</ac:layout-section>\n"
            +:+ lit "</ac:layout>\n\n")
  | None => None
  end.
End Kanban.

(** A card that lands in a column and panics. *)
Definition panics (unicodeToLower : Z -> Z) (data : AggregatedData.t)
    (column : string) : Prop :=
  (exists issue, issue ∈ data.(AggregatedData.JiraIssues)
     /\ mapStatusToColumn unicodeToLower issue.(JiraIssue.Status) = column
     /\ jiraCard issue = None)
  \/ (exists issue, issue ∈ data.(AggregatedData.GitHubIssues)
        /\ mapGitHubStateToColumn issue.(GitHubIssue.State) = column
        /\ githubIssueCard issue = None)
  \/ (exists pr, pr ∈ data.(AggregatedData.GitHubPRs)
        /\ mapGitHubPRStateToColumn pr.(GitHubPR.State)
             pr.(GitHubPR.MergeStatus) = column
        /\ githubPRCard pr = None).

(** Whether every rune of a key is an ASCII character. *)
Definition asciiKey (key : string) : bool :=
  forallb (fun c => (0 <=? c) && (c <? 128)) (runes key).

(** A feed whose only host issue is number 1 of a repository with a name
    of twenty characters. *)
Definition longRepository : GitHubIssue.t :=
  {| GitHubIssue.Title := "Crash on start"; GitHubIssue.Number := 1;
     GitHubIssue.State := "open"; GitHubIssue.Labels := [];
     GitHubIssue.Assignees := [];
     GitHubIssue.CreatedDate := Date 2025 1 10 0 0 0 0;
     GitHubIssue.UpdatedDate := Date 2025 1 20 0 0 0 0;
     GitHubIssue.URL := ""; GitHubIssue.Repository := "krzko/jiragitfluence";
     GitHubIssue.PlannedStartDate := None;
     GitHubIssue.PlannedEndDate := None;
     GitHubIssue.Theme := ""; GitHubIssue.Initiative := "";
     GitHubIssue.Dependencies := []; GitHubIssue.PriorityScore := 0;
     GitHubIssue.RoadmapStatus := ""; GitHubIssue.Milestone := "";
     GitHubIssue.Quarter := "" |}.

Definition longRepositoryData : AggregatedData.t :=
  AggregatedData.mk [] [longRepository] [] emptyMetadata.

(** The timeframe "Q[a]-Q[b] [year]" with the quarter digits [qa] and
    [qb] and the year as it is printed. *)
Definition quarterRangeText (qa qb : ascii) (year : string) : string :=
  String "Q" (String qa (String "-" (String "Q" (String qb
    (String " " year))))).

(** How many items of a list have the roadmap status [status]. *)
Definition countOf (status : string) (items : list RoadmapItem.t) : Z :=
  Z.of_nat (length (filter (fun it => it.(RoadmapItem.Status) = status) items)).

(** The first key of a range order that a title names. *)
Definition firstNamed (keys : list string) (title : string) : option string :=
  snd <$> list_find (fun key => key <> "No Epic" /\ Contains title key = true)
            keys.


(** * Properties *)

(** ** Status aggregation *)

Ltac canonical_cases :=
  repeat match goal with
         | H : canonical _ |- _ =>
             destruct H as [-> | [-> | [-> | [-> | ->]]]]
         end.

Lemma aggregateStatus_canonical a b :
  canonical a -> canonical b -> canonical (aggregateStatus a b).
Proof.
  intros Ha Hb. canonical_cases; vm_compute; tauto.
Qed.

Lemma aggregateStatus_comm a b :
  canonical a -> canonical b -> aggregateStatus a b = aggregateStatus b a.
Proof. intros Ha Hb. canonical_cases; reflexivity. Qed.

Lemma aggregateStatus_assoc a b c :
  canonical a -> canonical b -> canonical c ->
  aggregateStatus (aggregateStatus a b) c
  = aggregateStatus a (aggregateStatus b c).
Proof. intros Ha Hb Hc. canonical_cases; reflexivity. Qed.

Lemma aggregateStatus_max a b :
  canonical a -> canonical b ->
  priorityOf (aggregateStatus a b) = Z.max (priorityOf a) (priorityOf b).
Proof. intros Ha Hb. canonical_cases; reflexivity. Qed.

Lemma aggregateStatus_fold_canonical init l :
  canonical init -> Forall canonical l ->
  canonical (foldl aggregateStatus init l).
Proof.
  intros Hi Hl. revert init Hi.
  induction Hl as [|x l Hx Hl IH]; intros init Hi; simpl; [done|].
  apply IH. by apply aggregateStatus_canonical.
Qed.

Lemma aggregateStatus_fold_perm l1 l2 :
  l1 ≡ₚ l2 -> Forall canonical l1 ->
  forall init, canonical init ->
  foldl aggregateStatus init l1 = foldl aggregateStatus init l2.
Proof.
  induction 1 as [|x l l' Hp IH|x y l|l l' l'' Hp1 IH1 Hp2 IH2];
    intros Hall init Hi; simpl.
  - done.
  - inversion_clear Hall. apply IH; [done|].
    by apply aggregateStatus_canonical.
  - inversion_clear Hall as [|? ? Hy Hall']. inversion_clear Hall' as [|? ? Hx _].
    f_equal.
    rewrite !aggregateStatus_assoc by done.
    f_equal. by apply aggregateStatus_comm.
  - rewrite IH1 by done. apply IH2; [|done].
    by rewrite <- Hp1.
Qed.

(** C6.  On the five canonical statuses [aggregateStatus] keeps the
    argument of higher priority (Blocked 5, At Risk 4, In Progress 3,
    Planned 2, Completed 1), it is commutative and associative, and a fold
    of it over a permutation of the same statuses gives the same
    aggregate. *)
Theorem aggregateStatus_order_independent (a b c : string)
    (l1 l2 : list string) :
  canonical a -> canonical b -> canonical c ->
  Forall canonical l1 -> l1 ≡ₚ l2 ->
  map priorityOf ["Blocked"; "At Risk"; "In Progress"; "Planned"; "Completed"]
    = [5; 4; 3; 2; 1]
  /\ priorityOf (aggregateStatus a b) = Z.max (priorityOf a) (priorityOf b)
  /\ (aggregateStatus a b = a \/ aggregateStatus a b = b)
  /\ aggregateStatus a b = aggregateStatus b a
  /\ aggregateStatus (aggregateStatus a b) c
     = aggregateStatus a (aggregateStatus b c)
  /\ foldl aggregateStatus a l1 = foldl aggregateStatus a l2.
Proof.
  intros Ha Hb Hc Hl Hp. split; [reflexivity|].
  split; [by apply aggregateStatus_max|].
  split; [unfold aggregateStatus; case (_ <? _); auto|].
  split; [by apply aggregateStatus_comm|].
  split; [by apply aggregateStatus_assoc|].
  by apply aggregateStatus_fold_perm.
Qed.

Lemma aggregateStatus_order_independent_witness :
  let l1 := ["Completed"; "Blocked"; "Planned"] in
  let l2 := ["Planned"; "Completed"; "Blocked"] in
  (canonical "Planned" /\ canonical "At Risk" /\ canonical "Completed"
   /\ Forall canonical l1 /\ l1 ≡ₚ l2)
  /\ foldl aggregateStatus "Planned" l1 = foldl aggregateStatus "Planned" l2.
Proof.
  intros l1 l2.
  assert (H1 : canonical "Planned") by (unfold canonical; tauto).
  assert (H2 : canonical "At Risk") by (unfold canonical; tauto).
  assert (H3 : canonical "Completed") by (unfold canonical; tauto).
  assert (H4 : Forall canonical l1)
    by (repeat constructor; unfold canonical; tauto).
  assert (H5 : l1 ≡ₚ l2).
  { unfold l1, l2.
    apply (Permutation_cons_app ["Planned"] ["Blocked"]). apply perm_swap. }
  split; [tauto|].
  apply (aggregateStatus_order_independent "Planned" "At Risk" "Completed"
           l1 l2 H1 H2 H3 H4 H5).
Defined.

(** ** Quarter placement *)

Lemma findQuarters_fst quarters : forall i s e sq eq_,
  0 <= i ->
  (findQuarters quarters i s e sq eq_).1
  = if sq =? -1
    then from_option (fun k => i + Z.of_nat k) (-1) (firstIndex s quarters)
    else sq.
Proof.
  unfold firstIndex.
  induction quarters as [|q rest IH]; intros i s e sq eq_ Hi; simpl.
  - by destruct (sq =? -1) eqn:E; [apply Z.eqb_eq in E|].
  - rewrite IH by lia. clear IH.
    destruct (decide (s = q)) as [->|Hne].
    + rewrite String.eqb_refl. simpl.
      destruct (sq =? -1) eqn:E; simpl; [|by rewrite E].
      destruct (i =? -1) eqn:E'; [lia|]. lia.
    + assert (String.eqb q s = false) as ->
        by (apply String.eqb_neq; congruence).
      simpl. destruct (sq =? -1); [|done].
      destruct (list_find (eq s) rest) as [[k x]|]; simpl; lia.
Qed.

Lemma findQuarters_snd quarters : forall i s e sq eq_,
  0 <= i ->
  (findQuarters quarters i s e sq eq_).2
  = if eq_ =? -1
    then from_option (fun k => i + Z.of_nat k) (-1) (firstIndex e quarters)
    else eq_.
Proof.
  unfold firstIndex.
  induction quarters as [|q rest IH]; intros i s e sq eq_ Hi; simpl.
  - by destruct (eq_ =? -1) eqn:E; [apply Z.eqb_eq in E|].
  - rewrite IH by lia. clear IH.
    destruct (decide (e = q)) as [->|Hne].
    + rewrite String.eqb_refl. simpl.
      destruct (eq_ =? -1) eqn:E; simpl; [|by rewrite E].
      destruct (i =? -1) eqn:E'; [lia|]. lia.
    + assert (String.eqb q e = false) as ->
        by (apply String.eqb_neq; congruence).
      simpl. destruct (eq_ =? -1); [|done].
      destruct (list_find (eq e) rest) as [[k x]|]; simpl; lia.
Qed.

Lemma firstIndex_lt label quarters k :
  firstIndex label quarters = Some k -> (k < length quarters)%nat.
Proof.
  unfold firstIndex. intros H.
  destruct (list_find (eq label) quarters) as [[k' x]|] eqn:E; [|done].
  simpl in H. injection H as <-.
  apply list_find_Some in E as (Hk & _). by eapply lookup_lt_Some.
Qed.

(** C1, as the code has it.  For an item with both dates and a non-empty
    axis, [getItemQuarters] returns the first index of the start label (0
    when the axis lacks it) and the first index of the end label (the last
    index when the axis lacks it).  Both lie within the axis.  The start
    index is not clamped: it exceeds the end index exactly when both labels
    occur and the start label occurs first at a later index. *)
Theorem getItemQuarters_placement (item : RoadmapItem.t)
    (quarters : list string) (startDate endDate : Time) :
  item.(RoadmapItem.StartDate) = Some startDate ->
  item.(RoadmapItem.EndDate) = Some endDate ->
  quarters <> [] ->
  let last := Z.of_nat (length quarters) - 1 in
  let si := firstIndex (itemQuarterStr startDate) quarters in
  let ei := firstIndex (itemQuarterStr endDate) quarters in
  let startIndex := (getItemQuarters item quarters).1 in
  let endIndex := (getItemQuarters item quarters).2 in
  startIndex = from_option Z.of_nat 0 si
  /\ endIndex = from_option Z.of_nat last ei
  /\ 0 <= startIndex <= last
  /\ 0 <= endIndex <= last
  /\ (endIndex < startIndex
      <-> exists i j, si = Some i /\ ei = Some j /\ (j < i)%nat).
Proof.
  intros Hs He Hne last si ei startIndex endIndex.
  assert (Hlen : 0 <= last).
  { unfold last. destruct quarters; [done|]. simpl length. lia. }
  assert (Hstart : startIndex = from_option Z.of_nat 0 si).
  { unfold startIndex, getItemQuarters. rewrite Hs, He.
    pose proof (findQuarters_fst quarters 0 (itemQuarterStr startDate)
                  (itemQuarterStr endDate) (-1) (-1) (Z.le_refl 0)) as H.
    destruct (findQuarters _ _ _ _ _ _) as [a b]. simpl in *. subst a.
    fold si. destruct si as [k|]; simpl; [|done].
    destruct (0 + Z.of_nat k =? -1) eqn:E; lia. }
  assert (Hend : endIndex = from_option Z.of_nat last ei).
  { unfold endIndex, getItemQuarters. rewrite Hs, He.
    pose proof (findQuarters_snd quarters 0 (itemQuarterStr startDate)
                  (itemQuarterStr endDate) (-1) (-1) (Z.le_refl 0)) as H.
    destruct (findQuarters _ _ _ _ _ _) as [a b]. simpl in *. subst b.
    fold ei. destruct ei as [k|]; simpl; [|done].
    destruct (0 + Z.of_nat k =? -1) eqn:E; lia. }
  assert (Hsi : forall k, si = Some k -> (k < length quarters)%nat)
    by (intros k; apply firstIndex_lt).
  assert (Hei : forall k, ei = Some k -> (k < length quarters)%nat)
    by (intros k; apply firstIndex_lt).
  rewrite Hstart, Hend. clear Hstart Hend.
  destruct si as [i|], ei as [j|]; simpl.
  - specialize (Hsi i eq_refl). specialize (Hei j eq_refl).
    repeat split; try (unfold last; lia).
    + intros H. exists i, j. repeat split. lia.
    + intros (i' & j' & [= <-] & [= <-] & H). lia.
  - specialize (Hsi i eq_refl).
    repeat split; try (unfold last; lia).
    intros (i' & j' & _ & [=] & _).
  - specialize (Hei j eq_refl).
    repeat split; try (unfold last; lia).
    intros (i' & j' & [=] & _).
  - repeat split; try lia.
    intros (i' & j' & [=] & _).
Qed.

Lemma getItemQuarters_placement_witness :
  let item := invertedItem in
  (item.(RoadmapItem.StartDate) = Some (Date 2025 10 1 0 0 0 0)
   /\ item.(RoadmapItem.EndDate) = Some (Date 2025 1 15 0 0 0 0)
   /\ axis2025 <> [])
  /\ 0 <= (getItemQuarters item axis2025).1 <= 3
  /\ 0 <= (getItemQuarters item axis2025).2 <= 3.
Proof.
  intros item.
  assert (H1 : item.(RoadmapItem.StartDate) = Some (Date 2025 10 1 0 0 0 0))
    by reflexivity.
  assert (H2 : item.(RoadmapItem.EndDate) = Some (Date 2025 1 15 0 0 0 0))
    by reflexivity.
  assert (H3 : axis2025 <> []) by discriminate.
  split; [tauto|].
  destruct (getItemQuarters_placement item axis2025 _ _ H1 H2 H3)
    as (_ & _ & Hs & He & _).
  exact (conj Hs He).
Defined.

(** The claim C1 fails on an inverted range: the item starts in Q4 2025 and
    ends in Q1 2025, and the start index 3 is returned above the end index
    0. *)
Lemma getItemQuarters_inverted_not_clamped :
  invertedItem.(RoadmapItem.StartDate) <> None
  /\ invertedItem.(RoadmapItem.EndDate) <> None
  /\ axis2025 <> []
  /\ getItemQuarters invertedItem axis2025 = (3, 0)
  /\ ~ (let '(startIndex, endIndex) := getItemQuarters invertedItem axis2025 in
        0 <= startIndex <= endIndex
        /\ endIndex <= Z.of_nat (length axis2025) - 1).
Proof.
  repeat split; try discriminate.
  vm_compute. intros [[_ H] _]. by apply H.
Qed.

(** C10.  An item without a start date or without an end date is placed
    at (0, 0) whatever the axis is. *)
Theorem getItemQuarters_nil_date (item : RoadmapItem.t)
    (quarters : list string) :
  item.(RoadmapItem.StartDate) = None \/ item.(RoadmapItem.EndDate) = None ->
  getItemQuarters item quarters = (0, 0).
Proof.
  unfold getItemQuarters. intros [-> | ->]; [done|].
  by destruct (RoadmapItem.StartDate item).
Qed.

Lemma getItemQuarters_nil_date_witness :
  let item := jiraMilestoneItem doneTicket in
  (item.(RoadmapItem.StartDate) = None \/ item.(RoadmapItem.EndDate) = None)
  /\ getItemQuarters item axis2025 = (0, 0).
Proof.
  intros item.
  assert (H : item.(RoadmapItem.StartDate) = None
              \/ item.(RoadmapItem.EndDate) = None) by (left; reflexivity).
  split; [exact H|].
  apply (getItemQuarters_nil_date item axis2025 H).
Defined.

(** ** The calendar *)

Lemma forallRange_spec P n : forall lo z,
  forallRange n lo P = true -> lo <= z < lo + Z.of_nat n -> P z = true.
Proof.
  induction n as [|n IH]; intros lo z H Hz; [lia|].
  simpl in H. apply andb_true_iff in H as [H0 H].
  destruct (decide (z = lo)) as [->|Hne]; [done|].
  apply (IH (lo + 1)); [done|lia].
Qed.

Lemma civil_cycle_ok : forallRange (Z.to_nat 146097) 0 civilOk = true.
Proof. vm_compute. reflexivity. Qed.

Lemma isLeap_shift y n : isLeap (y + 400 * n) = isLeap y.
Proof.
  unfold isLeap.
  replace (y + 400 * n) with (y + (100 * n) * 4) at 1 by lia.
  replace (y + 400 * n) with (y + (4 * n) * 100) at 1 by lia.
  replace (y + 400 * n) with (y + n * 400) by lia.
  by rewrite !Z_mod_plus_full.
Qed.

Lemma daysSinceEpoch_shift y n :
  daysSinceEpoch (y + 400 * n) = daysSinceEpoch y + 146097 * n.
Proof.
  unfold daysSinceEpoch. cbv zeta.
  replace (y + 400 * n - 1) with (y - 1 + (100 * n) * 4) at 2 by lia.
  replace (y + 400 * n - 1) with (y - 1 + (4 * n) * 100) at 2 by lia.
  replace (y + 400 * n - 1) with (y - 1 + n * 400) at 2 by lia.
  rewrite !Z_div_plus_full by lia. lia.
Qed.

Lemma dateToDays_shift y m d n :
  dateToDays (y + 400 * n) m d = dateToDays y m d + 146097 * n.
Proof.
  unfold dateToDays. rewrite isLeap_shift, daysSinceEpoch_shift. lia.
Qed.

Lemma monthDay_shift y n yday : monthDay (y + 400 * n) yday = monthDay y yday.
Proof. unfold monthDay. by rewrite isLeap_shift. Qed.

Lemma civil_shift d :
  civil d
  = let '(y, m, dd) := civil (d mod 146097) in (y + 400 * (d / 146097), m, dd).
Proof.
  assert (Hr : 0 <= d mod 146097 < 146097) by (apply Z.mod_pos_bound; lia).
  unfold civil, absDate. cbv zeta.
  change daysPer400Years with 146097.
  rewrite (Z.div_small (d mod 146097)) by lia.
  replace (d mod 146097 - 146097 * 0) with (d mod 146097) by lia.
  replace (d - 146097 * (d / 146097)) with (d mod 146097)
    by (rewrite Z.mod_eq; lia).
  set (r := d mod 146097). set (n := d / 146097).
  set (n1 := r / daysPer100Years - Z.shiftr (r / daysPer100Years) 2).
  set (r1 := r - daysPer100Years * n1).
  set (n2 := r1 / daysPer4Years).
  set (r2 := r1 - daysPer4Years * n2).
  set (n3 := r2 / 365 - Z.shiftr (r2 / 365) 2).
  set (r3 := r2 - 365 * n3).
  replace (400 * n + 100 * n1 + 4 * n2 + n3 + 1)
    with (400 * 0 + 100 * n1 + 4 * n2 + n3 + 1 + 400 * n) by lia.
  rewrite monthDay_shift.
  by destruct (monthDay _ r3).
Qed.

Lemma civil_spec d :
  let '(y, m, dd) := civil d in
  1 <= m <= 12 /\ 1 <= dd <= 31 /\ dateToDays y m dd = d.
Proof.
  assert (Hr : 0 <= d mod 146097 < 146097) by (apply Z.mod_pos_bound; lia).
  pose proof (forallRange_spec civilOk _ 0 (d mod 146097) civil_cycle_ok) as H.
  rewrite Z2Nat.id in H by lia. specialize (H Hr).
  rewrite civil_shift. unfold civilOk in H.
  destruct (civil (d mod 146097)) as [[y m] dd].
  rewrite !andb_true_iff in H.
  destruct H as ((((H1 & H2) & H3) & H4) & H5).
  rewrite dateToDays_shift.
  apply Z.eqb_eq in H5. rewrite H5.
  repeat split; try lia.
  rewrite (Z.div_mod d 146097) at 3 by lia. lia.
Qed.

Lemma civil_fields t :
  1 <= Month t <= 12 /\ 1 <= Day t <= 31
  /\ dateToDays (Year t) (Month t) (Day t) = absDays t.
Proof.
  unfold Year, Month, Day. pose proof (civil_spec (absDays t)) as H.
  by destruct (civil (absDays t)) as [[y m] dd].
Qed.

Ltac unfold_ns :=
  unfold nsPerDay, nsPerHour, nsPerMinute, nsPerSecond in *.

Lemma clock_sum t :
  Hour t * nsPerHour + Minute t * nsPerMinute + Second t * nsPerSecond
  + Nanosecond t = timeOfDay t.
Proof.
  unfold Hour, Minute, Second, Nanosecond.
  generalize (timeOfDay t). intros x. unfold_ns.
  Z.div_mod_to_equations. lia.
Qed.

Lemma nanos_split t : nanos t = absDays t * nsPerDay + timeOfDay t.
Proof.
  unfold absDays, timeOfDay. unfold_ns. Z.div_mod_to_equations. lia.
Qed.

Lemma Date_nanos y m d t :
  1 <= m <= 12 ->
  nanos (Date y m d (Hour t) (Minute t) (Second t) (Nanosecond t))
  = dateToDays y m d * nsPerDay + timeOfDay t.
Proof.
  intros Hm. unfold Date. cbv zeta. simpl nanos.
  rewrite (Z.div_small (m - 1) 12) by lia.
  rewrite (Z.mod_small (m - 1) 12) by lia.
  replace (y + 0) with y by lia. replace (m - 1 + 1) with m by lia.
  pose proof (clock_sum t). lia.
Qed.

(** Adding days moves the instant by whole days. *)
Lemma AddDate_days t d : nanos (AddDate t 0 0 d) = nanos t + d * nsPerDay.
Proof.
  destruct (civil_fields t) as (Hm & Hd & Hdays).
  unfold AddDate. rewrite !Z.add_0_r.
  rewrite Date_nanos by done.
  rewrite (nanos_split t), <- Hdays. unfold dateToDays. lia.
Qed.

Lemma Date_nanos_norm y m d t :
  nanos (Date y m d (Hour t) (Minute t) (Second t) (Nanosecond t))
  = dateToDays (y + (m - 1) / 12) ((m - 1) mod 12 + 1) d * nsPerDay
    + timeOfDay t.
Proof.
  unfold Date. cbv zeta. simpl nanos. pose proof (clock_sum t). lia.
Qed.

Lemma daysSinceEpoch_succ y :
  daysSinceEpoch (y + 1)
  = daysSinceEpoch y + 365 + (if isLeap y then 1 else 0).
Proof.
  unfold daysSinceEpoch, isLeap. cbv zeta.
  replace (y + 1 - 1) with y by lia.
  destruct (Z.eqb_spec (y mod 4) 0), (Z.eqb_spec (y mod 100) 0),
    (Z.eqb_spec (y mod 400) 0); simpl;
    Z.div_mod_to_equations; lia.
Qed.

(** A month step moves a time forward by 28 to 31 days. *)
Lemma AddDate_month t :
  nanos t + 28 * nsPerDay <= nanos (AddDate t 0 1 0) <= nanos t + 31 * nsPerDay.
Proof.
  destruct (civil_fields t) as (Hm & Hd & Hdays).
  unfold AddDate. rewrite !Z.add_0_r, Date_nanos_norm.
  rewrite (nanos_split t), <- Hdays.
  replace (Month t + 1 - 1) with (Month t) by lia.
  assert (Hcase : Month t = 12 \/ 1 <= Month t <= 11) by lia.
  assert (Hns : 0 < nsPerDay) by (by vm_compute).
  cut (dateToDays (Year t) (Month t) (Day t) + 28
       <= dateToDays (Year t + Month t / 12) (Month t mod 12 + 1) (Day t)
       <= dateToDays (Year t) (Month t) (Day t) + 31); [nia|].
  destruct Hcase as [-> | Hm'].
  - change (12 / 12) with 1. change (12 mod 12 + 1) with 1.
    unfold dateToDays. rewrite daysSinceEpoch_succ.
    rewrite andb_false_r. change (daysBefore (1 - 1)) with 0.
    change (daysBefore (12 - 1)) with 334.
    generalize (daysSinceEpoch (Year t)) (Day t) (isLeap (Year t)).
    intros e d leap. destruct leap; cbn; clear; lia.
  - rewrite (Z.div_small (Month t) 12) by lia.
    rewrite (Z.mod_small (Month t) 12) by lia.
    rewrite Z.add_0_r. unfold dateToDays.
    assert (Hmm : Month t = 1 \/ Month t = 2 \/ Month t = 3 \/ Month t = 4
                  \/ Month t = 5 \/ Month t = 6 \/ Month t = 7 \/ Month t = 8
                  \/ Month t = 9 \/ Month t = 10 \/ Month t = 11) by lia.
    generalize (daysSinceEpoch (Year t)) (Day t) (isLeap (Year t)).
    intros e d leap.
    destruct leap;
      destruct Hmm as [-> | [-> | [-> | [-> | [-> | [-> | [-> | [-> | [-> |
                      [-> | ->]]]]]]]]]];
      repeat match goal with
             | |- context [daysBefore ?x] =>
                 let v := eval vm_compute in (daysBefore x) in
                 change (daysBefore x) with v
             | |- context [3 <=? ?x] =>
                 let v := eval vm_compute in (3 <=? x) in
                 change (3 <=? x) with v
             end;
      cbn; clear; lia.
Qed.

(** ** The quarter axis *)

Lemma existsb_eqb_true q qs : existsb (String.eqb q) qs = true <-> q ∈ qs.
Proof.
  rewrite existsb_exists. split.
  - intros (x & Hx & Heq). apply String.eqb_eq in Heq as ->.
    by apply list_elem_of_In.
  - intros H. exists q. split; [by apply list_elem_of_In|].
    apply String.eqb_refl.
Qed.

Lemma filter_same {A} (P Q : A -> Prop) `{forall x, Decision (P x)}
    `{forall x, Decision (Q x)} (l : list A) :
  (forall x, x ∈ l -> (P x <-> Q x)) -> filter P l = filter Q l.
Proof.
  induction l as [|x l IH]; intros Hpq; [done|].
  assert (Hx : P x <-> Q x) by (apply Hpq; left).
  assert (Hl : filter P l = filter Q l).
  { apply IH. intros y Hy. apply Hpq. by right. }
  destruct (decide (P x)).
  - rewrite !filter_cons_True by tauto. by f_equal.
  - rewrite !filter_cons_False by tauto. done.
Qed.

Lemma filter_all {A} (P : A -> Prop) `{forall x, Decision (P x)} (l : list A) :
  (forall x, x ∈ l -> P x) -> filter P l = l.
Proof.
  induction l as [|x l IH]; intros Hp; [done|].
  rewrite filter_cons_True by (apply Hp; left).
  f_equal. apply IH. intros y Hy. apply Hp. by right.
Qed.

Lemma firstSeen_filter (P : string -> Prop) `{forall x, Decision (P x)} l :
  firstSeen (filter P l) = filter P (firstSeen l).
Proof.
  induction l as [|x l IH]; [done|]. simpl firstSeen.
  destruct (decide (P x)) as [Hx|Hx].
  - rewrite filter_cons_True by done. simpl. rewrite filter_cons_True by done.
    f_equal. rewrite IH. rewrite !list_filter_filter.
    apply filter_same. tauto.
  - rewrite !filter_cons_False by done. rewrite IH.
    rewrite list_filter_filter. apply filter_same.
    intros y _. split; [|tauto]. intros Hy. split; [done|]. congruence.
Qed.

Lemma firstSeen_elem x l : x ∈ firstSeen l <-> x ∈ l.
Proof.
  induction l as [|y l IH]; [done|]. simpl.
  rewrite !elem_of_cons, list_elem_of_filter, IH.
  destruct (decide (x = y)); tauto.
Qed.

Lemma firstSeen_NoDup l : NoDup (firstSeen l).
Proof.
  induction l as [|x l IH]; simpl; [constructor|].
  constructor.
  - rewrite list_elem_of_filter. tauto.
  - by apply NoDup_filter.
Qed.

Lemma appendQuarter_fold l : forall acc,
  foldl appendQuarter acc l
  = acc ++ firstSeen (filter (fun y => y ∉ acc) l).
Proof.
  induction l as [|x l IH]; intros acc; simpl.
  - by rewrite app_nil_r.
  - rewrite IH. unfold appendQuarter.
    destruct (existsb (String.eqb x) acc) eqn:E.
    + apply existsb_eqb_true in E.
      by rewrite filter_cons_False by tauto.
    + assert (Hx : x ∉ acc).
      { intros Hin. apply existsb_eqb_true in Hin. congruence. }
      rewrite filter_cons_True by done. simpl.
      rewrite <- app_assoc. simpl. do 2 f_equal.
      rewrite <- firstSeen_filter. f_equal.
      rewrite list_filter_filter. apply filter_same.
      intros y _. rewrite elem_of_app, list_elem_of_singleton. tauto.
Qed.

Lemma firstSeen_fold l : foldl appendQuarter [] l = firstSeen l.
Proof.
  rewrite appendQuarter_fold. simpl. f_equal.
  apply filter_all. intros x _. apply not_elem_of_nil.
Qed.

Lemma generateQuartersLoop_total fuel : forall current end_ quarters,
  nanos end_ - nanos current < Z.of_nat fuel * (28 * nsPerDay) ->
  is_Some (generateQuartersLoop fuel current end_ quarters).
Proof.
  assert (Hns : 0 < nsPerDay) by (by vm_compute).
  induction fuel as [|fuel IH]; intros current end_ quarters Hlt.
  - simpl. unfold Before.
    destruct (Z.ltb_spec (nanos current) (nanos end_)); [lia|by eexists].
  - simpl. destruct (Before current end_); [|by eexists].
    apply IH. pose proof (AddDate_month current). nia.
Qed.

Lemma generateQuartersLoop_steps fuel : forall current end_ quarters result,
  generateQuartersLoop fuel current end_ quarters = Some result ->
  exists n : nat,
    Forall (fun t => Before t end_ = true) (monthSteps n current)
    /\ Before (afterMonths n current) end_ = false
    /\ result = foldl appendQuarter quarters
                  (map quarterLabel (monthSteps n current)).
Proof.
  induction fuel as [|fuel IH]; intros current end_ quarters result H;
    simpl in H; destruct (Before current end_) eqn:E; try done.
  - injection H as <-. by exists 0%nat.
  - apply IH in H as (n & Hall & Hlast & ->).
    exists (S n). simpl. repeat split; [by constructor|done].
  - injection H as <-. by exists 0%nat.
Qed.

Lemma quartersFuel_enough start end_ :
  nanos end_ - nanos start
  < Z.of_nat (quartersFuel start end_) * (28 * nsPerDay).
Proof.
  unfold quartersFuel. unfold_ns.
  set (x := nanos end_ - nanos start).
  set (k := 28 * (24 * (60 * (60 * 1000000000)))).
  assert (Hk : k = 2419200000000000) by reflexivity.
  assert (Hx : x < (x / k + 1) * k)
    by (rewrite Hk; Z.div_mod_to_equations; lia).
  generalize dependent (x / k + 1). intros y Hy. rewrite Hk in *. lia.
Qed.

(** C9.  For a range whose start is before its end, [generateQuarters]
    returns: the loop makes [n >= 1] month steps from the start, each of
    them before the end and the next one not, and the axis holds the
    quarter labels of the visited months in the order of their first
    occurrence, so it has at least one label and no label twice. *)
Theorem generateQuarters_axis (start end_ : Time) :
  Before start end_ = true ->
  exists (n : nat) (quarters : list string),
    generateQuarters start end_ = Some quarters
    /\ (1 <= n)%nat
    /\ Forall (fun t => Before t end_ = true) (monthSteps n start)
    /\ Before (afterMonths n start) end_ = false
    /\ quarters = firstSeen (map quarterLabel (monthSteps n start))
    /\ (1 <= length quarters)%nat
    /\ NoDup quarters.
Proof.
  intros Hlt. unfold generateQuarters.
  destruct (generateQuartersLoop_total (quartersFuel start end_) start end_ []
              (quartersFuel_enough start end_)) as [quarters Hq].
  destruct (generateQuartersLoop_steps _ _ _ _ _ Hq) as (n & Hall & Hlast & ->).
  exists n, (firstSeen (map quarterLabel (monthSteps n start))).
  rewrite firstSeen_fold in Hq.
  assert (Hn : (1 <= n)%nat).
  { destruct n; [|lia]. simpl in Hlast. congruence. }
  repeat split; try done.
  - destruct n; [lia|]. simpl. lia.
  - apply firstSeen_NoDup.
Qed.

Lemma generateQuarters_axis_witness :
  let start := Date 2025 1 1 0 0 0 0 in
  let end_ := Date 2025 7 1 0 0 0 0 in
  Before start end_ = true
  /\ exists (n : nat) (quarters : list string),
       generateQuarters start end_ = Some quarters
       /\ (1 <= n)%nat
       /\ Forall (fun t => Before t end_ = true) (monthSteps n start)
       /\ Before (afterMonths n start) end_ = false
       /\ quarters = firstSeen (map quarterLabel (monthSteps n start))
       /\ (1 <= length quarters)%nat
       /\ NoDup quarters.
Proof.
  intros start end_.
  assert (H : Before start end_ = true) by (vm_compute; reflexivity).
  split; [exact H|].
  apply (generateQuarters_axis start end_ H).
Defined.

(** ** Timeframe resolver *)

(** C8.  The timeframe "Q1-Q4 2025" resolves to the range from 2025-01-01
    to 2026-01-01, whatever the current time is, and the axis over that
    range is the four quarters of 2025 in order. *)
Theorem parseTimeframe_Q1_Q4_2025 (now : Time) :
  parseTimeframe now "Q1-Q4 2025"
  = (Date 2025 1 1 0 0 0 0, Date 2026 1 1 0 0 0 0)
  /\ generateQuarters (parseTimeframe now "Q1-Q4 2025").1
       (parseTimeframe now "Q1-Q4 2025").2
     = Some ["Q1 2025"; "Q2 2025"; "Q3 2025"; "Q4 2025"].
Proof.
  assert (H : parseTimeframe now "Q1-Q4 2025"
              = (Date 2025 1 1 0 0 0 0, Date 2026 1 1 0 0 0 0)).
  { unfold parseTimeframe.
    assert (parseMonths now "Q1-Q4 2025" = None) as -> by reflexivity.
    assert (parseYears now "Q1-Q4 2025" = None) as -> by reflexivity.
    vm_compute. reflexivity. }
  split; [exact H|]. rewrite H. vm_compute. reflexivity.
Qed.

(** ** Item normaliser *)

Lemma oneOf_completed status :
  oneOf status ["Done"; "Closed"; "Resolved"] = true
  <-> status = "Done" \/ status = "Closed" \/ status = "Resolved".
Proof.
  unfold oneOf. simpl. rewrite !orb_true_iff, !String.eqb_eq.
  intuition discriminate.
Qed.

Lemma jiraRoadmapItem_dates issue :
  (jiraRoadmapItem issue).(RoadmapItem.StartDate) = Some (jiraStart issue)
  /\ (jiraRoadmapItem issue).(RoadmapItem.EndDate)
     = Some match issue.(JiraIssue.PlannedEndDate) with
            | Some d => d
            | None =>
                if oneOf issue.(JiraIssue.Status) ["Done"; "Closed"; "Resolved"]
                then issue.(JiraIssue.UpdatedDate)
                else AddDate (jiraStart issue) 0 0 14
            end.
Proof.
  unfold jiraRoadmapItem, jiraStart.
  cbn [RoadmapItem.StartDate RoadmapItem.EndDate].
  by destruct (JiraIssue.PlannedStartDate issue).
Qed.

Lemma githubRoadmapItem_dates issue :
  (githubRoadmapItem issue).(RoadmapItem.StartDate) = Some (githubStart issue)
  /\ (githubRoadmapItem issue).(RoadmapItem.EndDate)
     = Some match issue.(GitHubIssue.PlannedEndDate) with
            | Some d => d
            | None =>
                if String.eqb issue.(GitHubIssue.State) "closed"
                then issue.(GitHubIssue.UpdatedDate)
                else AddDate (githubStart issue) 0 0 14
            end.
Proof.
  unfold githubRoadmapItem, githubStart.
  cbn [RoadmapItem.StartDate RoadmapItem.EndDate].
  by destruct (GitHubIssue.PlannedStartDate issue).
Qed.

(** C7.  Without a planned end date, a ticket whose status is Done, Closed
    or Resolved and a host issue whose state is "closed" end at their
    last update; any other issue ends 14 days after its inferred start.
    The open host issue created on 2025-01-10 runs from 2025-01-10 to
    2025-01-24. *)
Theorem inferred_end_date (ticket : JiraIssue.t) (host : GitHubIssue.t) :
  ticket.(JiraIssue.PlannedEndDate) = None ->
  host.(GitHubIssue.PlannedEndDate) = None ->
  let status := ticket.(JiraIssue.Status) in
  let state := host.(GitHubIssue.State) in
  (jiraRoadmapItem ticket).(RoadmapItem.StartDate) = Some (jiraStart ticket)
  /\ (githubRoadmapItem host).(RoadmapItem.StartDate) = Some (githubStart host)
  /\ (status = "Done" \/ status = "Closed" \/ status = "Resolved" ->
      (jiraRoadmapItem ticket).(RoadmapItem.EndDate)
      = Some ticket.(JiraIssue.UpdatedDate))
  /\ (state = "closed" ->
      (githubRoadmapItem host).(RoadmapItem.EndDate)
      = Some host.(GitHubIssue.UpdatedDate))
  /\ (~ (status = "Done" \/ status = "Closed" \/ status = "Resolved") ->
      exists endDate,
        (jiraRoadmapItem ticket).(RoadmapItem.EndDate) = Some endDate
        /\ endDate = AddDate (jiraStart ticket) 0 0 14
        /\ nanos endDate = nanos (jiraStart ticket) + 14 * nsPerDay)
  /\ (state <> "closed" ->
      exists endDate,
        (githubRoadmapItem host).(RoadmapItem.EndDate) = Some endDate
        /\ endDate = AddDate (githubStart host) 0 0 14
        /\ nanos endDate = nanos (githubStart host) + 14 * nsPerDay)
  /\ ((githubRoadmapItem exampleHostIssue).(RoadmapItem.StartDate)
      = Some (Date 2025 1 10 0 0 0 0)
      /\ (githubRoadmapItem exampleHostIssue).(RoadmapItem.EndDate)
         = Some (Date 2025 1 24 0 0 0 0)).
Proof.
  intros Ht Hh status state.
  destruct (jiraRoadmapItem_dates ticket) as [Hjs Hje].
  destruct (githubRoadmapItem_dates host) as [Hgs Hge].
  rewrite Ht in Hje. rewrite Hh in Hge. fold status in Hje. fold state in Hge.
  rewrite Hje, Hge.
  split; [done|]. split; [done|]. split.
  { intros Hdone. apply oneOf_completed in Hdone. by rewrite Hdone. }
  split.
  { intros ->. by rewrite String.eqb_refl. }
  split.
  { intros Hopen.
    destruct (oneOf status ["Done"; "Closed"; "Resolved"]) eqn:E.
    - by apply oneOf_completed in E.
    - eexists. split; [done|]. split; [done|]. apply AddDate_days. }
  split.
  { intros Hopen.
    destruct (String.eqb_spec state "closed") as [|_]; [done|].
    eexists. split; [done|]. split; [done|]. apply AddDate_days. }
  split; vm_compute; reflexivity.
Qed.

Lemma inferred_end_date_witness :
  (exampleTicket.(JiraIssue.PlannedEndDate) = None
   /\ exampleHostIssue.(GitHubIssue.PlannedEndDate) = None)
  /\ (exists endDate,
        (jiraRoadmapItem exampleTicket).(RoadmapItem.EndDate) = Some endDate
        /\ nanos endDate = nanos (jiraStart exampleTicket) + 14 * nsPerDay)
  /\ (githubRoadmapItem exampleHostIssue).(RoadmapItem.StartDate)
     = Some (Date 2025 1 10 0 0 0 0)
  /\ (githubRoadmapItem exampleHostIssue).(RoadmapItem.EndDate)
     = Some (Date 2025 1 24 0 0 0 0).
Proof.
  assert (H1 : exampleTicket.(JiraIssue.PlannedEndDate) = None) by reflexivity.
  assert (H2 : exampleHostIssue.(GitHubIssue.PlannedEndDate) = None)
    by reflexivity.
  split; [tauto|].
  destruct (inferred_end_date exampleTicket exampleHostIssue H1 H2)
    as (_ & _ & _ & _ & Hopen & _ & Hex).
  split; [|exact Hex].
  destruct Hopen as (endDate & Hend & _ & Hnanos).
  { intros [H|[H|H]]; discriminate H. }
  exists endDate. split; [exact Hend|exact Hnanos].
Defined.

(** ** Grouping engine *)

Section grouping.
Variable key : RoadmapItem.t -> string.

Lemma appendItem_lookup result k item k' :
  appendItem result k item !! k'
  = if decide (k = k') then Some (default [] (result !! k) ++ [item])
    else result !! k'.
Proof. unfold appendItem. apply lookup_insert. Qed.

Lemma groupBy_lookup items : forall result k,
  groupBy key items result !! k
  = match result !! k, filter (fun it => key it = k) items with
    | Some old, new => Some (old ++ new)
    | None, [] => None
    | None, new => Some new
    end.
Proof.
  induction items as [|x items IH]; intros result k.
  - simpl. destruct (result !! k); by rewrite ?app_nil_r.
  - change (groupBy key (x :: items) result)
      with (groupBy key items (appendItem result (key x) x)).
    rewrite IH, appendItem_lookup.
    destruct (decide (key x = k)) as [<-|Hne].
    + rewrite filter_cons_True by done.
      destruct (result !! key x); simpl; by rewrite <- ?app_assoc.
    + by rewrite filter_cons_False by done.
Qed.

Lemma groupedItems_insert (m : gmap string (list RoadmapItem.t)) k l :
  groupedItems (<[k := l]> m) ≡ₚ l ++ groupedItems (delete k m).
Proof.
  unfold groupedItems.
  rewrite <- insert_delete_eq.
  rewrite map_to_list_insert by apply lookup_delete_eq.
  by rewrite fmap_cons.
Qed.

Lemma groupedItems_appendItem result k item :
  groupedItems (appendItem result k item) ≡ₚ groupedItems result ++ [item].
Proof.
  unfold appendItem. rewrite groupedItems_insert.
  destruct (result !! k) as [old|] eqn:E; simpl.
  - rewrite <- (insert_id result k old) at 2 by done.
    rewrite groupedItems_insert.
    rewrite <- !app_assoc. apply Permutation_app_head, Permutation_app_comm.
  - rewrite delete_id by done.
    apply (Permutation_app_comm [item]).
Qed.

Lemma groupedItems_groupBy items : forall result,
  groupedItems (groupBy key items result) ≡ₚ groupedItems result ++ items.
Proof.
  induction items as [|x items IH]; intros result.
  - simpl. by rewrite app_nil_r.
  - change (groupBy key (x :: items) result)
      with (groupBy key items (appendItem result (key x) x)).
    rewrite IH, groupedItems_appendItem.
    by rewrite <- app_assoc.
Qed.
End grouping.

Lemma groupRoadmapItems_groupBy data grouping :
  oneOf grouping ["epic"; "theme"; "team"; "quarter"] = true ->
  groupRoadmapItems data grouping
  = groupBy (groupKey grouping) (allItems data) ∅.
Proof.
  unfold groupRoadmapItems, groupKey, oneOf. simpl. cbv zeta.
  destruct (String.eqb grouping "epic"); [done|].
  destruct (String.eqb grouping "theme"); [done|].
  destruct (String.eqb grouping "team"); [done|].
  by destruct (String.eqb grouping "quarter").
Qed.

Lemma groupRoadmapItems_default data grouping :
  oneOf grouping ["epic"; "theme"; "team"; "quarter"] = false ->
  groupRoadmapItems data grouping = {["All Items" := allItems data]}
  /\ groupKey grouping = fun _ => "All Items".
Proof.
  unfold groupRoadmapItems, groupKey, oneOf. simpl. cbv zeta.
  destruct (String.eqb grouping "epic"); [done|].
  destruct (String.eqb grouping "theme"); [done|].
  destruct (String.eqb grouping "team"); [done|].
  by destruct (String.eqb grouping "quarter").
Qed.

Lemma groupRoadmapItems_lookup data grouping k l :
  groupRoadmapItems data grouping !! k = Some l ->
  l = filter (fun it => groupKey grouping it = k) (allItems data).
Proof.
  destruct (oneOf grouping ["epic"; "theme"; "team"; "quarter"]) eqn:E.
  - rewrite groupRoadmapItems_groupBy by done.
    rewrite groupBy_lookup, lookup_empty.
    destruct (filter _ _); by intros [= <-].
  - destruct (groupRoadmapItems_default data grouping E) as [-> ->].
    intros [<- <-]%lookup_singleton_Some.
    symmetry. by apply filter_all.
Qed.

(** C5.  For every input and every grouping key, recognised or not, the
    groups partition the normalised items: the items of all the groups
    together are a rearrangement of the normalised items (each occurrence
    once), every group holds exactly the items that carry its label, in
    their input order, and every item lies in the group of its own label
    and in no other. *)
Theorem groupRoadmapItems_partition (data : AggregatedData.t)
    (grouping : string) :
  let groups := groupRoadmapItems data grouping in
  groupedItems groups ≡ₚ allItems data
  /\ (forall k l, groups !! k = Some l ->
        l = filter (fun it => groupKey grouping it = k) (allItems data))
  /\ (forall item, item ∈ allItems data ->
        exists l, groups !! groupKey grouping item = Some l /\ item ∈ l)
  /\ (forall item k l, groups !! k = Some l -> item ∈ l ->
        k = groupKey grouping item).
Proof.
  intros groups.
  assert (Hfilter : forall k l, groups !! k = Some l ->
            l = filter (fun it => groupKey grouping it = k) (allItems data))
    by apply groupRoadmapItems_lookup.
  split; [|split; [exact Hfilter|split]].
  - unfold groups.
    destruct (oneOf grouping ["epic"; "theme"; "team"; "quarter"]) eqn:E.
    + rewrite groupRoadmapItems_groupBy by done.
      rewrite groupedItems_groupBy.
      unfold groupedItems. by rewrite map_to_list_empty.
    + destruct (groupRoadmapItems_default data grouping E) as [-> _].
      unfold groupedItems. rewrite map_to_list_singleton. simpl.
      by rewrite app_nil_r.
  - intros item Hin. unfold groups.
    destruct (oneOf grouping ["epic"; "theme"; "team"; "quarter"]) eqn:E.
    + rewrite groupRoadmapItems_groupBy by done.
      rewrite groupBy_lookup, lookup_empty.
      assert (Hmem : item ∈ filter
                (fun it => groupKey grouping it = groupKey grouping item)
                (allItems data)) by (by apply list_elem_of_filter).
      destruct (filter _ _) as [|y l'] eqn:Ef; [by apply elem_of_nil in Hmem|].
      by eexists.
    + destruct (groupRoadmapItems_default data grouping E) as [-> ->].
      exists (allItems data). by rewrite lookup_singleton_eq.
  - intros item k l Hk Hin. apply Hfilter in Hk. subst l.
    apply list_elem_of_filter in Hin. by destruct Hin.
Qed.

(** ** Milestones *)

Lemma addToMilestone_ok milestoneMap name plannedEnd item :
  map_Forall milestoneOk milestoneMap ->
  itemPlannedEnd item = Some plannedEnd ->
  map_Forall milestoneOk (addToMilestone milestoneMap name plannedEnd item).
Proof.
  intros Hok Hend. unfold addToMilestone.
  destruct (milestoneMap !! name) as [m|] eqn:E.
  - rewrite E. apply map_Forall_insert_2; [|done].
    destruct (Hok name m E) as (Hname & Hstatus & Htarget).
    unfold milestoneOk. simpl. repeat split; [done| |].
    + by rewrite fmap_app, foldl_app, <- Hstatus.
    + destruct (Milestone.Items m); [done|]. exact Htarget.
  - rewrite lookup_insert_eq. rewrite insert_insert_eq.
    apply map_Forall_insert_2; [|done].
    unfold milestoneOk. simpl. by rewrite Hend.
Qed.

(** Every milestone carries the end date of the item that created it, and
    its status is the fold of [aggregateStatus] over its items that starts
    from "Planned". *)
Lemma milestoneMapOf_ok data : map_Forall milestoneOk (milestoneMapOf data).
Proof.
  unfold milestoneMapOf.
  assert (Hj : forall issues m, map_Forall milestoneOk m ->
            map_Forall milestoneOk (foldl milestoneJiraStep m issues)).
  { induction issues as [|issue issues IH]; intros m Hm; [done|].
    simpl. apply IH. unfold milestoneJiraStep.
    destruct (JiraIssue.PlannedEndDate issue) as [d|] eqn:E; [|done].
    destruct (negb _); [|done].
    apply addToMilestone_ok; [done|]. by unfold itemPlannedEnd; simpl. }
  assert (Hg : forall issues m, map_Forall milestoneOk m ->
            map_Forall milestoneOk (foldl milestoneGitHubStep m issues)).
  { induction issues as [|issue issues IH]; intros m Hm; [done|].
    simpl. apply IH. unfold milestoneGitHubStep.
    destruct (GitHubIssue.PlannedEndDate issue) as [d|] eqn:E; [|done].
    destruct (negb _); [|done].
    apply addToMilestone_ok; [done|]. by unfold itemPlannedEnd; simpl. }
  apply Hg, Hj. apply map_Forall_empty.
Qed.

Lemma aggregateStatus_fold_priority l : forall init,
  priorityOf init <= priorityOf (foldl aggregateStatus init l).
Proof.
  induction l as [|x l IH]; intros init; simpl; [lia|].
  etrans; [|apply IH]. unfold aggregateStatus.
  destruct (Z.ltb_spec (priorityOf init) (priorityOf x)); lia.
Qed.

(** No milestone is ever reported as "Completed", whatever its items
    are. *)
Lemma extractMilestones_never_completed data m :
  m ∈ extractMilestones data -> m.(Milestone.Status) <> "Completed".
Proof.
  unfold extractMilestones. intros Hin.
  apply list_elem_of_fmap in Hin as ([name m'] & -> & Hin).
  apply elem_of_map_to_list in Hin.
  destruct (milestoneMapOf_ok data name m' Hin) as (_ & Hstatus & _).
  simpl. intros Hc.
  pose proof (aggregateStatus_fold_priority
                (RoadmapItem.Status <$> Milestone.Items m') "Planned") as Hp.
  rewrite <- Hstatus, Hc in Hp. vm_compute in Hp. by apply Hp.
Qed.

(** C3 at a release whose only ticket is done.  The ticket is the single
    member of milestone "v1.0" and its status is "Completed", but the
    milestone is reported as "Planned": the fold starts from "Planned",
    which outranks "Completed".  The target date is the planned end of the
    ticket. *)
Theorem extractMilestones_done_release :
  extractMilestones doneRelease
  = [ {| Milestone.Name := "v1.0";
         Milestone.TargetDate := Date 2025 3 31 0 0 0 0;
         Milestone.Status := "Planned";
         Milestone.Items := [jiraMilestoneItem doneTicket] |} ]
  /\ (jiraMilestoneItem doneTicket).(RoadmapItem.Status) = "Completed"
  /\ foldl aggregateStatus "Completed" ["Completed"] = "Completed".
Proof. repeat split; vm_compute; reflexivity. Qed.

(** ** The epic-Gantt view *)

Lemma append_assoc (a b c : string) : (a +:+ b) +:+ c = a +:+ b +:+ c.
Proof.
  induction a as [|x a IH]; [done|].
  change (String x ((a +:+ b) +:+ c) = String x (a +:+ b +:+ c)).
  by rewrite IH.
Qed.

Lemma append_nil_r (a : string) : a +:+ "" = a.
Proof.
  induction a as [|x a IH]; [done|].
  change (String x (a +:+ "") = String x a). by rewrite IH.
Qed.

Lemma within_refl s : within s s.
Proof. exists "", "". by rewrite append_nil_r. Qed.

Lemma within_app_l sub s t : within sub s -> within sub (s +:+ t).
Proof.
  intros (pre & post & ->). exists pre, (post +:+ t).
  by rewrite !append_assoc.
Qed.

Lemma within_app_r sub s t : within sub t -> within sub (s +:+ t).
Proof.
  intros (pre & post & ->). exists (s +:+ pre), post.
  by rewrite !append_assoc.
Qed.

Lemma prefix_app sub post : String.prefix sub (sub +:+ post) = true.
Proof.
  induction sub as [|x sub IH]; simpl; [by destruct post|].
  destruct (ascii_dec x x); [done|congruence].
Qed.

Lemma Contains_unfold s sub :
  Contains s sub
  = String.prefix sub s
    || match s with
       | "" => false
       | String _ rest => Contains rest sub
       end.
Proof. by destruct s. Qed.

Lemma within_Contains sub s : within sub s -> Contains s sub = true.
Proof.
  intros (pre & post & ->).
  induction pre as [|x pre IH].
  - change ("" +:+ sub +:+ post) with (sub +:+ post).
    by rewrite Contains_unfold, prefix_app.
  - change (String x pre +:+ sub +:+ post)
      with (String x (pre +:+ sub +:+ post)).
    rewrite Contains_unfold, IH. apply orb_true_r.
Qed.

Lemma within_writeAll sub (chunks : list string) chunk :
  chunk ∈ chunks -> within sub chunk -> within sub (writeAll chunks).
Proof.
  induction chunks as [|c chunks IH]; intros Hin Hsub.
  - by apply elem_of_nil in Hin.
  - simpl. apply elem_of_cons in Hin as [<- | Hin].
    + by apply within_app_l.
    + apply within_app_r. by apply IH.
Qed.

Lemma within_epicRows quarters names epicMap epicKey :
  default [] (epicMap !! epicKey) <> [] \/ epicKey = "No Epic" ->
  within (epicHeaderRow quarters (default "" (names !! epicKey)))
         (epicRows quarters names epicMap epicKey).
Proof.
  intros Hshown. unfold epicRows. cbv zeta.
  destruct ((Z.of_nat (length (default [] (epicMap !! epicKey))) =? 0)
            && negb (String.eqb epicKey "No Epic")) eqn:E.
  - apply andb_true_iff in E as [Hlen Hkey].
    apply Z.eqb_eq in Hlen. apply negb_true_iff, String.eqb_neq in Hkey.
    destruct Hshown as [Hne | ->]; [|done].
    destruct (default [] (epicMap !! epicKey)); [done|]. simpl in Hlen. lia.
  - apply within_app_l, within_refl.
Qed.

Lemma epicRows_skipped quarters names epicMap epicKey :
  default [] (epicMap !! epicKey) = [] -> epicKey <> "No Epic" ->
  epicRows quarters names epicMap epicKey = "".
Proof.
  intros Hnil Hkey. unfold epicRows. rewrite Hnil. simpl.
  apply String.eqb_neq in Hkey. by rewrite Hkey.
Qed.

(** The first pass registers the key of every epic, in [allEpics] and in
    [epicKeyToName]. *)
Lemma collectEpic_inv acc issue :
  (forall k, k ∈ acc.1 <-> is_Some (acc.2 !! k)) ->
  forall k, k ∈ (collectEpic acc issue).1
            <-> is_Some ((collectEpic acc issue).2 !! k).
Proof.
  destruct acc as [allEpics names]. simpl. intros Hinv k.
  unfold collectEpic. destruct (String.eqb _ _); [|by apply Hinv].
  destruct (names !! JiraIssue.Key issue) eqn:E; simpl; [by apply Hinv|].
  rewrite elem_of_app, list_elem_of_singleton, Hinv.
  destruct (decide (JiraIssue.Key issue = k)) as [->|Hne].
  - rewrite lookup_insert_eq. split; [by eexists|by right].
  - rewrite lookup_insert_ne by done. split; [|by left].
    intros [H|H]; [done|congruence].
Qed.

Lemma collectEpic_mono acc issue k :
  k ∈ acc.1 -> k ∈ (collectEpic acc issue).1.
Proof.
  destruct acc as [allEpics names]. simpl. intros Hk.
  unfold collectEpic. destruct (String.eqb _ _); [|done].
  destruct (names !! JiraIssue.Key issue); simpl; [done|].
  apply elem_of_app. by left.
Qed.

Lemma collectEpic_adds acc issue :
  (forall k, k ∈ acc.1 <-> is_Some (acc.2 !! k)) ->
  issue.(JiraIssue.IssueType) = "Epic" ->
  issue.(JiraIssue.Key) ∈ (collectEpic acc issue).1.
Proof.
  destruct acc as [allEpics names]. simpl. intros Hinv Hepic.
  unfold collectEpic. rewrite Hepic. simpl.
  destruct (names !! JiraIssue.Key issue) eqn:E; simpl.
  - apply Hinv. by eexists.
  - apply elem_of_app. right. by left.
Qed.

Lemma collectEpic_fold issues : forall acc,
  (forall k, k ∈ acc.1 <-> is_Some (acc.2 !! k)) ->
  (forall k, k ∈ acc.1 -> k ∈ (foldl collectEpic acc issues).1)
  /\ (forall k, k ∈ (foldl collectEpic acc issues).1
                <-> is_Some ((foldl collectEpic acc issues).2 !! k))
  /\ (forall issue, issue ∈ issues ->
        issue.(JiraIssue.IssueType) = "Epic" ->
        issue.(JiraIssue.Key) ∈ (foldl collectEpic acc issues).1).
Proof.
  induction issues as [|x issues IH]; intros acc Hinv.
  - simpl. split; [done|]. split; [done|].
    intros issue Hin. by apply elem_of_nil in Hin.
  - simpl foldl.
    destruct (IH (collectEpic acc x) (collectEpic_inv acc x Hinv))
      as (Hmono & Hinv' & Hepics).
    split; [|split; [done|]].
    + intros k Hk. by apply Hmono, collectEpic_mono.
    + intros issue Hin Hepic.
      apply elem_of_cons in Hin as [->|Hin]; [|by apply Hepics].
      by apply Hmono, collectEpic_adds.
Qed.

Lemma collectEpic_names (all : list JiraIssue.t) issues : forall acc,
  (forall x, x ∈ issues -> x ∈ all) ->
  (forall k name, acc.2 !! k = Some name ->
     exists e, e ∈ all /\ e.(JiraIssue.IssueType) = "Epic"
               /\ e.(JiraIssue.Key) = k /\ e.(JiraIssue.Summary) = name) ->
  forall k name, (foldl collectEpic acc issues).2 !! k = Some name ->
    exists e, e ∈ all /\ e.(JiraIssue.IssueType) = "Epic"
              /\ e.(JiraIssue.Key) = k /\ e.(JiraIssue.Summary) = name.
Proof.
  induction issues as [|x issues IH]; intros [allEpics names] Hsub Hinv;
    [done|].
  simpl foldl. apply IH; [intros y Hy; apply Hsub; by right|].
  unfold collectEpic.
  destruct (String.eqb_spec (JiraIssue.IssueType x) "Epic") as [Hepic|_];
    [|done].
  destruct (names !! JiraIssue.Key x) eqn:E; [done|]. simpl.
  intros k name Hk.
  destruct (decide (JiraIssue.Key x = k)) as [<-|Hne].
  - rewrite lookup_insert_eq in Hk. injection Hk as <-.
    exists x. split; [apply Hsub; by left|done].
  - rewrite lookup_insert_ne in Hk by done. by apply Hinv.
Qed.

Lemma epicGanttEpics_names data k name :
  k <> "No Epic" ->
  (epicGanttEpics data).2 !! k = Some name ->
  exists e, e ∈ data.(AggregatedData.JiraIssues)
            /\ e.(JiraIssue.IssueType) = "Epic"
            /\ e.(JiraIssue.Key) = k /\ e.(JiraIssue.Summary) = name.
Proof.
  intros Hk. unfold epicGanttEpics.
  pose proof (collectEpic_names data.(AggregatedData.JiraIssues)
                data.(AggregatedData.JiraIssues) ([], ∅)) as H.
  destruct (foldl collectEpic _ _) as [allEpics names]. simpl in *.
  rewrite lookup_insert_ne by done. apply H; [done|].
  intros k' name'. by rewrite lookup_empty.
Qed.

Lemma epicGanttEpics_registered data :
  "No Epic" ∈ (epicGanttEpics data).1
  /\ (epicGanttEpics data).2 !! "No Epic" = Some "Issues without Epic"
  /\ (forall issue, issue ∈ data.(AggregatedData.JiraIssues) ->
        issue.(JiraIssue.IssueType) = "Epic" ->
        issue.(JiraIssue.Key) ∈ (epicGanttEpics data).1
        /\ is_Some ((epicGanttEpics data).2 !! issue.(JiraIssue.Key))).
Proof.
  unfold epicGanttEpics.
  destruct (collectEpic_fold data.(AggregatedData.JiraIssues) ([], ∅))
    as (_ & Hinv & Hepics).
  { intros k. simpl. rewrite lookup_empty. split.
    - intros H. by apply elem_of_nil in H.
    - by intros [? ?]. }
  destruct (foldl collectEpic _ _) as [allEpics names]. simpl in *.
  split; [apply elem_of_app; right; by left|].
  split; [by rewrite lookup_insert_eq|].
  intros issue Hin Hepic. specialize (Hepics issue Hin Hepic).
  split; [apply elem_of_app; by left|].
  destruct (decide ("No Epic" = JiraIssue.Key issue)) as [<-|Hne].
  - rewrite lookup_insert_eq. by eexists.
  - rewrite lookup_insert_ne by done. by apply Hinv.
Qed.

Lemma within_epicGanttBody rangeKeys data quarters epicKey :
  epicKey ∈ (epicGanttEpics data).1 ->
  default [] (epicGanttMap rangeKeys data !! epicKey) <> []
  \/ epicKey = "No Epic" ->
  within (epicHeaderRow quarters
            (default "" ((epicGanttEpics data).2 !! epicKey)))
         (epicGanttBody rangeKeys data quarters).
Proof.
  intros Hin Hshown. unfold epicGanttBody.
  destruct (epicGanttEpics data) as [allEpics names]. simpl in *.
  eapply within_writeAll.
  - apply list_elem_of_fmap. exists epicKey. split; [reflexivity|done].
  - by apply within_epicRows.
Qed.

Lemma within_generateEpicGanttView rangeKeys now content data quarters opts sub :
  within sub (epicGanttBody rangeKeys data (viewQuarters now quarters)) ->
  within sub (generateEpicGanttView rangeKeys now content data quarters opts).
Proof.
  intros H. unfold generateEpicGanttView. cbv zeta.
  destruct (Options.IncludeDependencies opts).
  - unfold addDependenciesVisualization. apply within_app_l.
    repeat first [by apply within_app_l | apply within_app_r].
  - repeat first [by apply within_app_l | apply within_app_r].
Qed.



(** ** View dispatch *)

Lemma generateQuarters_total start end_ : is_Some (generateQuarters start end_).
Proof.
  unfold generateQuarters.
  apply generateQuartersLoop_total, quartersFuel_enough.
Qed.

Lemma roadmapIntro_total now content opts :
  is_Some (roadmapIntro now content opts).
Proof.
  unfold roadmapIntro. cbv zeta.
  destruct (roadmapRange now opts) as [startDate endDate].
  destruct (generateQuarters_total startDate endDate) as [quarters ->].
  by eexists.
Qed.

Lemma eqb_view_false (view name : string) (names : list string) :
  view ∉ names -> name ∈ names -> String.eqb view name = false.
Proof. intros Hno Hin. apply String.eqb_neq. by intros ->. Qed.

(** Neither the header, nor the introduction of the roadmap, nor the
    timeline view reads the view name. *)
Lemma addHeader_withView now content data opts view :
  addHeader now content data (withView opts view)
  = addHeader now content data opts.
Proof. unfold addHeader. cbn [withView Options.VersionLabel]. reflexivity. Qed.

Lemma roadmapIntro_withView now content opts view :
  roadmapIntro now content (withView opts view) = roadmapIntro now content opts.
Proof.
  unfold roadmapIntro, roadmapRange.
  cbn [withView Options.RoadmapTimeframe]. reflexivity.
Qed.

Lemma generateTimelineView_withView rangeKeys now content data quarters opts
    view :
  generateTimelineView rangeKeys now content data quarters (withView opts view)
  = generateTimelineView rangeKeys now content data quarters opts.
Proof.
  unfold generateTimelineView.
  cbn [withView Options.RoadmapTimeframe Options.RoadmapGrouping
       Options.IncludeDependencies].
  reflexivity.
Qed.




(** * Further properties of the roadmap engine *)

(** ** The normaliser *)

Lemma jiraRoadmapItem_wellFormed issue : wellFormedItem (jiraRoadmapItem issue).
Proof.
  unfold wellFormedItem.
  destruct (jiraRoadmapItem_dates issue) as [-> ->].
  split; [by eexists|]. split; [by eexists|]. split.
  - unfold jiraRoadmapItem. cbn [RoadmapItem.Status].
    destruct (String.eqb_spec (JiraIssue.RoadmapStatus issue) "") as [_|Hne];
      [|done].
    unfold deriveRoadmapStatus. by repeat case (oneOf _ _).
  - left. unfold jiraRoadmapItem.
    cbn [RoadmapItem.Type_ RoadmapItem.JiraIssue RoadmapItem.GitHubIssue].
    split; [done|]. split; [by eexists|done].
Qed.

Lemma githubRoadmapItem_wellFormed issue :
  wellFormedItem (githubRoadmapItem issue).
Proof.
  unfold wellFormedItem.
  destruct (githubRoadmapItem_dates issue) as [-> ->].
  split; [by eexists|]. split; [by eexists|]. split.
  - unfold githubRoadmapItem. cbn [RoadmapItem.Status].
    destruct (String.eqb_spec (GitHubIssue.RoadmapStatus issue) "") as [_|Hne];
      [|done].
    unfold deriveRoadmapStatusFromGitHub. by repeat case (String.eqb _ _).
  - right. unfold githubRoadmapItem.
    cbn [RoadmapItem.Type_ RoadmapItem.JiraIssue RoadmapItem.GitHubIssue].
    split; [done|]. split; [done|by eexists].
Qed.

(** X1.  The normaliser drops nothing and adds nothing: there is one item
    per ticket and per host issue (pull requests are left out), in the
    order of the input, tickets first; and every item has a start date, an
    end date, a non-empty status and the payload of its own type. *)
Theorem allItems_normalised (data : AggregatedData.t) :
  let tickets := data.(AggregatedData.JiraIssues) in
  let hostIssues := data.(AggregatedData.GitHubIssues) in
  length (allItems data) = (length tickets + length hostIssues)%nat
  /\ (forall i issue, tickets !! i = Some issue ->
        allItems data !! i = Some (jiraRoadmapItem issue))
  /\ (forall i issue, hostIssues !! i = Some issue ->
        allItems data !! (length tickets + i)%nat
        = Some (githubRoadmapItem issue))
  /\ Forall wellFormedItem (allItems data).
Proof.
  intros tickets hostIssues. unfold allItems. fold tickets hostIssues.
  split; [by rewrite length_app, !length_map|].
  split; [|split].
  - intros i issue Hi. rewrite lookup_app_l.
    + by rewrite list_lookup_fmap, Hi.
    + rewrite length_map. by eapply lookup_lt_Some.
  - intros i issue Hi.
    rewrite lookup_app_r by (rewrite length_map; lia).
    rewrite length_map.
    replace (length tickets + i - length tickets)%nat with i by lia.
    by rewrite list_lookup_fmap, Hi.
  - apply Forall_app. split; apply Forall_fmap, Forall_forall; intros x _.
    + apply jiraRoadmapItem_wellFormed.
    + apply githubRoadmapItem_wellFormed.
Qed.

(** X2.  A derived status is one of the canonical statuses, and never
    "At Risk": a ticket derives Planned, In Progress, Blocked or
    Completed, a host issue Planned, In Progress or Completed.  A status
    set explicitly on the issue is taken as it is, canonical or not. *)
Theorem derived_status_range (ticket : JiraIssue.t) (host : GitHubIssue.t) :
  deriveRoadmapStatus ticket.(JiraIssue.Status)
    ∈ ["Planned"; "In Progress"; "Blocked"; "Completed"]
  /\ deriveRoadmapStatusFromGitHub host.(GitHubIssue.State)
       ∈ ["Planned"; "In Progress"; "Completed"]
  /\ (ticket.(JiraIssue.RoadmapStatus) = "" ->
      (jiraRoadmapItem ticket).(RoadmapItem.Status)
      = deriveRoadmapStatus ticket.(JiraIssue.Status))
  /\ (host.(GitHubIssue.RoadmapStatus) = "" ->
      (githubRoadmapItem host).(RoadmapItem.Status)
      = deriveRoadmapStatusFromGitHub host.(GitHubIssue.State))
  /\ (ticket.(JiraIssue.RoadmapStatus) <> "" ->
      (jiraRoadmapItem ticket).(RoadmapItem.Status)
      = ticket.(JiraIssue.RoadmapStatus))
  /\ (host.(GitHubIssue.RoadmapStatus) <> "" ->
      (githubRoadmapItem host).(RoadmapItem.Status)
      = host.(GitHubIssue.RoadmapStatus)).
Proof.
  split; [|split; [|split; [|split; [|split]]]].
  - unfold deriveRoadmapStatus. repeat case (oneOf _ _); set_solver.
  - unfold deriveRoadmapStatusFromGitHub. repeat case (String.eqb _ _);
      set_solver.
  - intros H. unfold jiraRoadmapItem. cbn [RoadmapItem.Status]. by rewrite H.
  - intros H. unfold githubRoadmapItem. cbn [RoadmapItem.Status]. by rewrite H.
  - intros H. unfold jiraRoadmapItem. cbn [RoadmapItem.Status].
    by apply String.eqb_neq in H as ->.
  - intros H. unfold githubRoadmapItem. cbn [RoadmapItem.Status].
    by apply String.eqb_neq in H as ->.
Qed.

(** ** Labels and cells *)

Lemma years_agree_check :
  forallRange (Z.to_nat 9000) 1000 yearsAgree = true.
Proof. vm_compute. reflexivity. Qed.

Lemma years_differ_check :
  forallRange (Z.to_nat 1000) 0 yearsDiffer = true.
Proof. vm_compute. reflexivity. Qed.

Lemma append_inj_r (a x y : string) : a +:+ x = a +:+ y -> x = y.
Proof.
  induction a as [|c a IH]; [done|].
  change (String c a +:+ x) with (String c (a +:+ x)).
  change (String c a +:+ y) with (String c (a +:+ y)).
  intros [= H]. by apply IH.
Qed.

Lemma quarter_digit m :
  1 <= m <= 12 ->
  runeString (48 + ((m - 1) ÷ 3 + 1)) = itoa ((m - 1) ÷ 3 + 1).
Proof.
  intros H.
  assert (m = 1 \/ m = 2 \/ m = 3 \/ m = 4 \/ m = 5 \/ m = 6 \/ m = 7 \/ m = 8
          \/ m = 9 \/ m = 10 \/ m = 11 \/ m = 12) as Hm by lia.
  repeat destruct Hm as [-> | Hm]; try subst m; reflexivity.
Qed.

Lemma labels_of_year (y : Z) (q : string) :
  (1000 <= y <= 9999 ->
   "Q" +:+ q +:+ " "
   +:+ runeString (48 + y ÷ 1000)
   +:+ runeString (48 + Z.rem (y ÷ 100) 10)
   +:+ runeString (48 + Z.rem (y ÷ 10) 10)
   +:+ runeString (48 + Z.rem y 10)
   = "Q" +:+ q +:+ " " +:+ itoa y)
  /\ (0 <= y <= 999 ->
      "Q" +:+ q +:+ " "
      +:+ runeString (48 + y ÷ 1000)
      +:+ runeString (48 + Z.rem (y ÷ 100) 10)
      +:+ runeString (48 + Z.rem (y ÷ 10) 10)
      +:+ runeString (48 + Z.rem y 10)
      <> "Q" +:+ q +:+ " " +:+ itoa y).
Proof.
  fold (yearRunes y). split; intros Hy.
  - pose proof (forallRange_spec yearsAgree _ 1000 y
                  years_agree_check) as H.
    rewrite Z2Nat.id in H by lia. specialize (H ltac:(lia)).
    apply String.eqb_eq in H. by rewrite H.
  - pose proof (forallRange_spec yearsDiffer _ 0 y
                  years_differ_check) as H.
    rewrite Z2Nat.id in H by lia. specialize (H ltac:(lia)).
    apply negb_true_iff, String.eqb_neq in H.
    intros Heq. apply H.
    by do 3 apply append_inj_r in Heq.
Qed.


Lemma timelineCell_filled status startQuarter endQuarter i :
  (startQuarter <=? i) && (i <=? endQuarter) = true ->
  exists rest,
    timelineCell status startQuarter endQuarter i = filledCellStart +:+ rest.
Proof.
  intros H. unfold timelineCell. rewrite H. cbv zeta.
  destruct ((i =? startQuarter) && (i =? endQuarter));
    [|destruct (i =? startQuarter); [|destruct (i =? endQuarter)]];
    eexists; unfold filledCellStart; reflexivity.
Qed.

Lemma timelineCell_empty_iff status startQuarter endQuarter i :
  timelineCell status startQuarter endQuarter i = emptyCell
  <-> ~ (startQuarter <= i <= endQuarter).
Proof.
  destruct ((startQuarter <=? i) && (i <=? endQuarter)) eqn:E.
  - destruct (timelineCell_filled status _ _ _ E) as [rest Hrest].
    apply andb_true_iff in E as [H1%Z.leb_le H2%Z.leb_le].
    split; [|intros Hn; exfalso; apply Hn; split; assumption].
    intros Heq. exfalso.
    pose proof (prefix_app filledCellStart rest) as Hp.
    rewrite <- Hrest, Heq in Hp. vm_compute in Hp. discriminate.
  - split; [|intros _; unfold timelineCell, emptyCell; rewrite E; reflexivity].
    intros _ [H1%Z.leb_le H2%Z.leb_le]. rewrite H1, H2 in E. discriminate.
Qed.

(** X4.  In the row of an item the cell of quarter [i] is the empty cell
    exactly when [i] lies outside the placement of the item.  So an item
    whose start index lies after its end index is drawn without any
    marker: its row holds the description and one empty cell per
    quarter. *)
Theorem timeline_cells (hostLink : GitHubIssue.t -> string)
    (quarters : list string) (item : RoadmapItem.t) :
  let startIndex := (getItemQuarters item quarters).1 in
  let endIndex := (getItemQuarters item quarters).2 in
  (forall i status,
     timelineCell status startIndex endIndex i = emptyCell
     <-> ~ (startIndex <= i <= endIndex))
  /\ (endIndex < startIndex ->
      itemRow hostLink quarters item
      = lit "<tr>\n"
        +:+ lit "<td class=`confluenceTd` style=`vertical-align:top; padding: 10px; border: 1px solid #ddd;`>\n"
        +:+ itemDetails hostLink item
        +:+ lit "</td>\n"
        +:+ writeAll (replicate (length quarters) emptyCell)
        +:+ lit "</tr>\n").
Proof.
  intros startIndex endIndex. split.
  - intros i status. apply timelineCell_empty_iff.
  - intros Hinv. unfold itemRow. unfold startIndex, endIndex in Hinv.
    destruct (getItemQuarters item quarters) as [s e]. simpl in Hinv.
    do 4 f_equal.
    assert (Hcells : forall (l : list string) (n : nat),
              imap (fun i _ => timelineCell item.(RoadmapItem.Status) s e
                                 (Z.of_nat (n + i))) l
              = replicate (length l) emptyCell).
    { induction l as [|q l IH]; intros n; [done|].
      rewrite imap_cons. simpl. f_equal.
      - apply timelineCell_empty_iff. lia.
      - rewrite <- (IH (S n)). apply imap_ext. intros i x _. simpl.
        do 2 f_equal. lia. }
    by rewrite <- (Hcells quarters 0%nat).
Qed.

(** ** Groups *)

Lemma group_of_item data grouping item :
  item ∈ allItems data ->
  exists l, groupRoadmapItems data grouping !! groupKey grouping item = Some l
            /\ item ∈ l.
Proof.
  intros Hin.
  destruct (oneOf grouping ["epic"; "theme"; "team"; "quarter"]) eqn:E.
  - rewrite groupRoadmapItems_groupBy by done.
    rewrite groupBy_lookup, lookup_empty.
    assert (Hmem : item ∈ filter
              (fun it => groupKey grouping it = groupKey grouping item)
              (allItems data)) by (by apply list_elem_of_filter).
    destruct (filter _ _) as [|y l'] eqn:Ef; [by apply elem_of_nil in Hmem|].
    by eexists.
  - destruct (groupRoadmapItems_default data grouping E) as [-> ->].
    exists (allItems data). by rewrite lookup_singleton_eq.
Qed.

(** X5.  A recognised grouping key gives no empty group, and no group at
    all for an input without issues; an unrecognised key gives exactly one
    group, "All Items", with all the items, even when there are none. *)
Theorem groupRoadmapItems_shape (data : AggregatedData.t) (grouping : string) :
  let groups := groupRoadmapItems data grouping in
  (grouping ∈ ["epic"; "theme"; "team"; "quarter"] ->
     (forall k l, groups !! k = Some l -> l <> [])
     /\ (allItems data = [] -> groups = ∅))
  /\ (grouping ∉ ["epic"; "theme"; "team"; "quarter"] ->
      groups = {["All Items" := allItems data]}).
Proof.
  intros groups.
  assert (Hone : oneOf grouping ["epic"; "theme"; "team"; "quarter"] = true
                 <-> grouping ∈ ["epic"; "theme"; "team"; "quarter"]).
  { unfold oneOf. rewrite existsb_exists. split.
    - intros (x & Hx%list_elem_of_In & ->%String.eqb_eq). done.
    - intros H. exists grouping. split; [by apply list_elem_of_In|].
      apply String.eqb_refl. }
  split.
  - intros Hin%Hone. unfold groups.
    rewrite groupRoadmapItems_groupBy by done. split.
    + intros k l. rewrite groupBy_lookup, lookup_empty.
      destruct (filter _ _); by intros [= <-].
    + by intros ->.
  - intros Hno. unfold groups.
    apply groupRoadmapItems_default.
    apply not_true_is_false. by intros E%Hone.
Qed.

(** X6.  Where a normalised item goes.  Grouped by epic or by team, every
    host issue lies in the fallback group ("No Epic", "No Team") and a
    ticket lies in the group of its epic link or team when it has one.
    Grouped by quarter, an item lies in the group of its own quarter
    attribute, or else of the quarter of its inferred start date; it is
    never sent to "No Quarter" for want of a date. *)
Theorem groupRoadmapItems_labels (data : AggregatedData.t)
    (ticket : JiraIssue.t) (host : GitHubIssue.t) :
  ticket ∈ data.(AggregatedData.JiraIssues) ->
  host ∈ data.(AggregatedData.GitHubIssues) ->
  let inGroup grouping label (item : RoadmapItem.t) :=
    exists l, groupRoadmapItems data grouping !! label = Some l /\ item ∈ l in
  inGroup "epic" "No Epic" (githubRoadmapItem host)
  /\ inGroup "team" "No Team" (githubRoadmapItem host)
  /\ inGroup "epic"
       (if String.eqb ticket.(JiraIssue.EpicLink) "" then "No Epic"
        else ticket.(JiraIssue.EpicLink))
       (jiraRoadmapItem ticket)
  /\ inGroup "team"
       (if String.eqb ticket.(JiraIssue.Team) "" then "No Team"
        else ticket.(JiraIssue.Team))
       (jiraRoadmapItem ticket)
  /\ inGroup "quarter"
       (if String.eqb ticket.(JiraIssue.Quarter) ""
        then quarterLabel (jiraStart ticket) else ticket.(JiraIssue.Quarter))
       (jiraRoadmapItem ticket)
  /\ inGroup "quarter"
       (if String.eqb host.(GitHubIssue.Quarter) ""
        then quarterLabel (githubStart host) else host.(GitHubIssue.Quarter))
       (githubRoadmapItem host).
Proof.
  intros Ht Hh inGroup.
  assert (Hti : jiraRoadmapItem ticket ∈ allItems data).
  { apply elem_of_app. left. by apply list_elem_of_fmap_2. }
  assert (Hhi : githubRoadmapItem host ∈ allItems data).
  { apply elem_of_app. right. by apply list_elem_of_fmap_2. }
  assert (Hq1 : quarterOf (jiraRoadmapItem ticket)
                = if String.eqb ticket.(JiraIssue.Quarter) ""
                  then quarterLabel (jiraStart ticket)
                  else ticket.(JiraIssue.Quarter)).
  { unfold quarterOf. destruct (jiraRoadmapItem_dates ticket) as [-> _].
    unfold jiraRoadmapItem. cbn [RoadmapItem.Type_ RoadmapItem.JiraIssue].
    change (String.eqb "jira" "jira") with true.
    cbv iota. by destruct (String.eqb (JiraIssue.Quarter ticket) ""). }
  assert (Hq2 : quarterOf (githubRoadmapItem host)
                = if String.eqb host.(GitHubIssue.Quarter) ""
                  then quarterLabel (githubStart host)
                  else host.(GitHubIssue.Quarter)).
  { unfold quarterOf. destruct (githubRoadmapItem_dates host) as [-> _].
    unfold githubRoadmapItem.
    cbn [RoadmapItem.Type_ RoadmapItem.GitHubIssue].
    change (String.eqb "github-issue" "jira") with false.
    change (String.eqb "github-issue" "github-issue") with true.
    cbv iota. by destruct (String.eqb (GitHubIssue.Quarter host) ""). }
  repeat split.
  - apply (group_of_item data "epic" _ Hhi).
  - apply (group_of_item data "team" _ Hhi).
  - pose proof (group_of_item data "epic" _ Hti) as H.
    change (groupKey "epic") with epicKeyOf in H.
    unfold epicKeyOf, jiraRoadmapItem in H.
    cbn [RoadmapItem.Type_ RoadmapItem.JiraIssue] in H.
    by destruct (String.eqb (JiraIssue.EpicLink ticket) "").
  - pose proof (group_of_item data "team" _ Hti) as H.
    change (groupKey "team") with teamOf in H.
    unfold teamOf, jiraRoadmapItem in H.
    cbn [RoadmapItem.Type_ RoadmapItem.JiraIssue] in H.
    by destruct (String.eqb (JiraIssue.Team ticket) "").
  - pose proof (group_of_item data "quarter" _ Hti) as H.
    change (groupKey "quarter") with quarterOf in H. by rewrite Hq1 in H.
  - pose proof (group_of_item data "quarter" _ Hhi) as H.
    change (groupKey "quarter") with quarterOf in H. by rewrite Hq2 in H.
Qed.

Lemma groupRoadmapItems_labels_witness :
  exampleTicket ∈ exampleData.(AggregatedData.JiraIssues)
  /\ exampleHostIssue ∈ exampleData.(AggregatedData.GitHubIssues)
  /\ exists l, groupRoadmapItems exampleData "epic" !! "No Epic" = Some l
               /\ githubRoadmapItem exampleHostIssue ∈ l.
Proof.
  assert (H1 : exampleTicket ∈ exampleData.(AggregatedData.JiraIssues))
    by apply list_elem_of_here.
  assert (H2 : exampleHostIssue ∈ exampleData.(AggregatedData.GitHubIssues))
    by apply list_elem_of_here.
  split; [exact H1|]. split; [exact H2|].
  exact (proj1 (groupRoadmapItems_labels exampleData exampleTicket
                  exampleHostIssue H1 H2)).
Defined.

(** ** Milestones *)

Lemma milestoneJiraStep_entries issues : forall m,
  foldl milestoneJiraStep m issues
  = foldl addEntry m (omap jiraMilestoneEntry issues).
Proof.
  induction issues as [|issue issues IH]; intros m; [done|].
  simpl. rewrite IH. unfold milestoneJiraStep, jiraMilestoneEntry.
  destruct (JiraIssue.PlannedEndDate issue); [|done].
  by destruct (negb _).
Qed.

Lemma milestoneGitHubStep_entries issues : forall m,
  foldl milestoneGitHubStep m issues
  = foldl addEntry m (omap githubMilestoneEntry issues).
Proof.
  induction issues as [|issue issues IH]; intros m; [done|].
  simpl. rewrite IH. unfold milestoneGitHubStep, githubMilestoneEntry.
  destruct (GitHubIssue.PlannedEndDate issue); [|done].
  by destruct (negb _).
Qed.

Lemma addEntry_lookup m e name :
  addEntry m e !! name
  = if decide (e.1.1 = name)
    then Some (milestoneAfter
                 (default {| Milestone.Name := e.1.1;
                             Milestone.TargetDate := e.1.2;
                             Milestone.Status := "Planned";
                             Milestone.Items := [] |} (m !! e.1.1)) [e])
    else m !! name.
Proof.
  unfold addEntry, addToMilestone.
  destruct (m !! e.1.1) as [ms|] eqn:E.
  - rewrite E. destruct (decide (e.1.1 = name)) as [<-|Hne].
    + by rewrite lookup_insert_eq.
    + by rewrite lookup_insert_ne.
  - rewrite lookup_insert_eq. destruct (decide (e.1.1 = name)) as [<-|Hne].
    + by rewrite lookup_insert_eq.
    + by rewrite !lookup_insert_ne.
Qed.

Lemma milestoneAfter_app m l1 l2 :
  milestoneAfter (milestoneAfter m l1) l2 = milestoneAfter m (l1 ++ l2).
Proof.
  unfold milestoneAfter. simpl.
  by rewrite !fmap_app, foldl_app, app_assoc.
Qed.

Lemma milestoneAfter_nil m : milestoneAfter m [] = m.
Proof. destruct m. unfold milestoneAfter. simpl. by rewrite app_nil_r. Qed.

Lemma foldl_addEntry_lookup entries name : forall m,
  foldl addEntry m entries !! name
  = match m !! name with
    | Some ms =>
        Some (milestoneAfter ms (filter (fun e => e.1.1 = name) entries))
    | None => milestoneOf name entries
    end.
Proof.
  induction entries as [|e entries IH]; intros m.
  - simpl. destruct (m !! name) as [ms|]; [|done].
    by rewrite filter_nil, milestoneAfter_nil.
  - simpl. rewrite IH, addEntry_lookup. unfold milestoneOf.
    rewrite filter_cons.
    destruct (decide (e.1.1 = name)) as [Heq|Hne].
    + rewrite Heq. destruct (m !! name) as [ms|]; simpl;
        by rewrite milestoneAfter_app.
    + done.
Qed.

(** X7.  [extractMilestones] milestone by milestone.  The milestone called
    [name] exists exactly when some ticket or host issue names it and has
    a planned end; it is dated by the FIRST such issue (tickets come
    before host issues), whatever the planned ends of the later ones are;
    it holds the items of all of them in that order, and its status is
    the fold of their statuses from "Planned".  No milestone has an empty
    name, and the result holds every milestone of the map once. *)
Theorem extractMilestones_by_name (data : AggregatedData.t) :
  (forall name,
     milestoneMapOf data !! name = milestoneOf name (milestoneEntries data))
  /\ milestoneMapOf data !! "" = None
  /\ (forall m, m ∈ extractMilestones data
              <-> milestoneOf m.(Milestone.Name) (milestoneEntries data)
                  = Some m)
  /\ NoDup (Milestone.Name <$> extractMilestones data).
Proof.
  assert (Hlookup : forall name,
            milestoneMapOf data !! name
            = milestoneOf name (milestoneEntries data)).
  { intros name. unfold milestoneMapOf, milestoneEntries.
    by rewrite milestoneJiraStep_entries, milestoneGitHubStep_entries,
         <- foldl_app, foldl_addEntry_lookup, lookup_empty. }
  assert (Hname : forall name m,
            milestoneOf name (milestoneEntries data) = Some m ->
            m.(Milestone.Name) = name).
  { intros name m. unfold milestoneOf.
    destruct (filter _ _); [done|]. by intros [= <-]. }
  split; [exact Hlookup|]. split; [|split].
  - rewrite Hlookup. unfold milestoneOf.
    destruct (filter _ _) as [|e rest] eqn:E; [done|]. exfalso.
    assert (He : e ∈ filter (fun e => e.1.1 = "") (milestoneEntries data))
      by (rewrite E; apply list_elem_of_here).
    apply list_elem_of_filter in He as [Hempty He].
    unfold milestoneEntries in He. apply elem_of_app in He as [He|He];
      apply list_elem_of_omap in He as (issue & _ & He).
    + unfold jiraMilestoneEntry in He.
      destruct (JiraIssue.PlannedEndDate issue); [|done].
      destruct (String.eqb_spec (JiraIssue.Milestone issue) ""); [done|].
      simpl in He. injection He as <-. done.
    + unfold githubMilestoneEntry in He.
      destruct (GitHubIssue.PlannedEndDate issue); [|done].
      destruct (String.eqb_spec (GitHubIssue.Milestone issue) ""); [done|].
      simpl in He. injection He as <-. done.
  - intros m. unfold extractMilestones. split.
    + intros ([name m'] & -> & Hin)%list_elem_of_fmap.
      apply elem_of_map_to_list in Hin. rewrite Hlookup in Hin.
      simpl. by rewrite (Hname _ _ Hin).
    + intros Hm. apply list_elem_of_fmap.
      exists (m.(Milestone.Name), m). split; [done|].
      apply elem_of_map_to_list. by rewrite Hlookup.
  - unfold extractMilestones.
    assert (Heq : Milestone.Name <$> (map_to_list (milestoneMapOf data)).*2
                  = (map_to_list (milestoneMapOf data)).*1).
    { rewrite <- list_fmap_compose. apply list_fmap_ext.
      intros i [name m] Hi%list_elem_of_lookup_2.
      apply elem_of_map_to_list in Hi. rewrite Hlookup in Hi.
      simpl. by apply Hname. }
    rewrite Heq. apply NoDup_fst_map_to_list.
Qed.

(** ** Themes and the strategic view *)

Lemma themeJiraStep_entries issues : forall m,
  foldl themeJiraStep m issues
  = foldl addThemeEntry m (omap jiraThemeEntry issues).
Proof.
  induction issues as [|issue issues IH]; intros m; [done|].
  simpl. rewrite IH. unfold themeJiraStep, jiraThemeEntry.
  by destruct (_ && _).
Qed.

Lemma themeGitHubStep_entries issues : forall m,
  foldl themeGitHubStep m issues
  = foldl addThemeEntry m (omap githubThemeEntry issues).
Proof.
  induction issues as [|issue issues IH]; intros m; [done|].
  simpl. rewrite IH. unfold themeGitHubStep, githubThemeEntry.
  by destruct (_ && _).
Qed.

Lemma setInitiative_lookup m theme initiative status theme' initiative' :
  (setInitiative m theme initiative status !! theme') ≫= (.!! initiative')
  = if decide (theme = theme' /\ initiative = initiative')
    then Some {| Initiative.Name := initiative; Initiative.Status := status;
                 Initiative.StartQuarter := 0; Initiative.EndQuarter := 0 |}
    else (m !! theme') ≫= (.!! initiative').
Proof.
  unfold setInitiative.
  destruct (decide (theme = theme')) as [<-|Hne].
  - rewrite lookup_insert_eq. simpl.
    destruct (decide (initiative = initiative')) as [<-|Hne'].
    + rewrite lookup_insert_eq. by rewrite decide_True.
    + rewrite lookup_insert_ne by done. rewrite decide_False by tauto.
      destruct (m !! theme) as [inner|] eqn:E; [by rewrite E|].
      by rewrite lookup_insert_eq.
  - rewrite lookup_insert_ne by done. rewrite decide_False by tauto.
    destruct (m !! theme); [done|]. by rewrite lookup_insert_ne.
Qed.

Lemma foldl_addThemeEntry_lookup entries theme initiative : forall m,
  (foldl addThemeEntry m entries !! theme) ≫= (.!! initiative)
  = match initiativeOf theme initiative entries with
    | Some i => Some i
    | None => (m !! theme) ≫= (.!! initiative)
    end.
Proof.
  induction entries as [|e entries IH]; intros m; [done|].
  simpl. rewrite IH. unfold addThemeEntry. rewrite setInitiative_lookup.
  unfold initiativeOf. rewrite filter_cons.
  destruct (decide (e.1.1 = theme /\ e.1.2 = initiative)) as [[H1 H2]|Hne].
  - rewrite last_cons.
    destruct (last (filter _ entries)); simpl; [done|]. by rewrite H2.
  - done.
Qed.

Lemma themeMapOf_lookup data theme initiative :
  (themeMapOf data !! theme) ≫= (.!! initiative)
  = initiativeOf theme initiative (themeEntries data).
Proof.
  unfold themeMapOf, themeEntries.
  rewrite themeJiraStep_entries, themeGitHubStep_entries, <- foldl_app.
  rewrite foldl_addThemeEntry_lookup, lookup_empty. simpl.
  by destruct (initiativeOf _ _ _).
Qed.

Lemma valuesInOrder_elem {V : Type} keys (m : gmap string V) k v :
  (k, v) ∈ valuesInOrder keys m -> m !! k = Some v.
Proof.
  unfold valuesInOrder.
  intros (key & _ & H)%list_elem_of_omap.
  destruct (m !! key) as [v'|] eqn:E; [|done].
  simpl in H. by injection H as <- <-.
Qed.

Lemma extractThemes_elem rangeKeys data theme initiative :
  theme ∈ extractThemes rangeKeys data ->
  initiative ∈ theme.(Theme.Initiatives) ->
  initiativeOf theme.(Theme.Name) initiative.(Initiative.Name)
    (themeEntries data) = Some initiative.
Proof.
  unfold extractThemes. cbv zeta.
  intros (i & Hx)%list_elem_of_lookup_1 Hin.
  rewrite list_lookup_imap in Hx.
  destruct (valuesInOrder _ _ !! i) as [[themeName initiatives]|] eqn:E;
    [|done].
  simpl in Hx. injection Hx as <-. simpl in *.
  apply list_elem_of_lookup_2, valuesInOrder_elem in E.
  apply list_elem_of_fmap in Hin as ([name init] & -> & Hin).
  apply valuesInOrder_elem in Hin. simpl.
  pose proof (themeMapOf_lookup data themeName name) as H.
  rewrite E in H. simpl in H. rewrite Hin in H.
  assert (Hname : Initiative.Name init = name).
  { unfold initiativeOf in H. destruct (last _); [|done].
    simpl in H. by injection H as ->. }
  by rewrite Hname.
Qed.


(** X9.  In the strategic view the row of an initiative marks the first
    quarter of the axis and no other, whatever the planned dates of its
    issues are. *)
Theorem strategic_row_first_quarter (rangeKeys : RangeOrder)
    (data : AggregatedData.t) (quarters : list string)
    (theme : Theme.t) (initiative : Initiative.t) :
  theme ∈ extractThemes rangeKeys data ->
  initiative ∈ theme.(Theme.Initiatives) ->
  initiativeRow quarters initiative
  = lit "<tr>\n"
    +:+ lit "<td class=`confluenceTd`>"
    +:+ escapeHTML initiative.(Initiative.Name) +:+ lit "</td>\n"
    +:+ writeAll
          (imap (fun i _ =>
                   match i with
                   | O => strategicFilledCell initiative.(Initiative.Status)
                   | S _ => strategicEmptyCell
                   end) quarters)
    +:+ lit "</tr>\n".
Proof.
  intros Ht Hi.
  pose proof (extractThemes_elem _ _ _ _ Ht Hi) as H.
  unfold initiativeOf in H. destruct (last _) as [e|]; [|done].
  simpl in H. injection H as <-.
  unfold initiativeRow. do 3 f_equal. f_equal. do 2 f_equal.
  apply imap_ext. intros i q _. unfold strategicCell. simpl.
  destruct i as [|i]; [done|].
  replace (Z.of_nat (S i) <=? 0) with false by (symmetry; apply Z.leb_gt; lia).
  by rewrite andb_false_r.
Qed.

Lemma strategic_row_first_quarter_witness :
  {| Theme.Name := "Growth"; Theme.Initiatives := [searchInitiative] |}
    ∈ extractThemes keysInOrder themedData
  /\ initiativeRow axis2025 searchInitiative
     = lit "<tr>\n"
       +:+ lit "<td class=`confluenceTd`>Search</td>\n"
       +:+ strategicFilledCell "In Progress"
       +:+ strategicEmptyCell +:+ strategicEmptyCell +:+ strategicEmptyCell
       +:+ lit "</tr>\n".
Proof.
  assert (Ht : {| Theme.Name := "Growth";
                  Theme.Initiatives := [searchInitiative] |}
               ∈ extractThemes keysInOrder themedData).
  { vm_compute. apply list_elem_of_here. }
  split; [exact Ht|].
  rewrite (strategic_row_first_quarter keysInOrder themedData axis2025 _
             searchInitiative Ht (list_elem_of_here _ _)).
  vm_compute. reflexivity.
Defined.

(** ** The generate command *)

Ltac command_cases load flags :=
  unfold commandData, loadCombined, loadJira, loadGitHub; cbv zeta;
  destruct (String.eqb_spec flags.(Flags.input) "");
  destruct (String.eqb_spec flags.(Flags.jira_input) "");
  destruct (String.eqb_spec flags.(Flags.github_input) "");
  cbn [negb];
  repeat match goal with
         | |- context [load ?p] => destruct (load p) eqn:?
         end;
  cbn [negb AggregatedData.JiraIssues AggregatedData.GitHubIssues
       AggregatedData.GitHubPRs AggregatedData.Metadata].

(** X10.  With a combined input file the two other input files replace
    the lists of issues only: the tickets come from the Jira file when
    there is one, the host issues and pull requests from the GitHub file
    when there is one, and the metadata are those of the combined file,
    whatever the metadata of the other files are. *)
Theorem commandData_combined (load : string -> error + AggregatedData.t)
    (flags : Flags.t) (combined data : AggregatedData.t) :
  flags.(Flags.input) <> "" ->
  load flags.(Flags.input) = inr combined ->
  commandData load flags = inr data ->
  data.(AggregatedData.Metadata) = combined.(AggregatedData.Metadata)
  /\ (flags.(Flags.jira_input) = "" ->
      data.(AggregatedData.JiraIssues) = combined.(AggregatedData.JiraIssues))
  /\ (forall jiraData,
        flags.(Flags.jira_input) <> "" ->
        load flags.(Flags.jira_input) = inr jiraData ->
        data.(AggregatedData.JiraIssues)
        = jiraData.(AggregatedData.JiraIssues))
  /\ (flags.(Flags.github_input) = "" ->
      data.(AggregatedData.GitHubIssues)
      = combined.(AggregatedData.GitHubIssues)
      /\ data.(AggregatedData.GitHubPRs)
         = combined.(AggregatedData.GitHubPRs))
  /\ (forall githubData,
        flags.(Flags.github_input) <> "" ->
        load flags.(Flags.github_input) = inr githubData ->
        data.(AggregatedData.GitHubIssues)
        = githubData.(AggregatedData.GitHubIssues)
        /\ data.(AggregatedData.GitHubPRs)
           = githubData.(AggregatedData.GitHubPRs)).
Proof.
  intros Hin Hload. revert Hload. command_cases load flags;
    intros Hload H; simplify_eq; simpl; naive_solver.
Qed.

Lemma commandData_combined_witness :
  (exampleFlags "all.json" "jira.json" "").(Flags.input) <> ""
  /\ jiraFile.(AggregatedData.Metadata) <> exampleData.(AggregatedData.Metadata)
  /\ exists data,
       commandData exampleLoad (exampleFlags "all.json" "jira.json" "")
       = inr data
       /\ data.(AggregatedData.Metadata)
          = exampleData.(AggregatedData.Metadata).
Proof.
  assert (Hin : (exampleFlags "all.json" "jira.json" "").(Flags.input) <> "")
    by discriminate.
  split; [exact Hin|]. split; [by vm_compute|].
  eexists. split; [reflexivity|].
  exact (proj1 (commandData_combined exampleLoad
                  (exampleFlags "all.json" "jira.json" "") exampleData _
                  Hin eq_refl eq_refl)).
Defined.

(** X11.  Without a combined input file the data are put together from
    the two other files.  The tickets and the Jira metadata come from the
    Jira file, the host issues, pull requests and GitHub metadata from the
    GitHub file, and what a missing file would give is empty.  The fetch
    time is that of the only file; with both files it is that of the Jira
    file unless that one is zero or the GitHub file was fetched later. *)
Theorem commandData_separate (load : string -> error + AggregatedData.t)
    (flags : Flags.t) (data : AggregatedData.t) :
  flags.(Flags.input) = "" ->
  commandData load flags = inr data ->
  let metadata := data.(AggregatedData.Metadata) in
  (flags.(Flags.jira_input) <> "" \/ flags.(Flags.github_input) <> "")
  /\ (flags.(Flags.jira_input) = "" ->
      data.(AggregatedData.JiraIssues) = []
      /\ metadata.(Metadata.JiraProjects) = []
      /\ metadata.(Metadata.JiraJQL) = "")
  /\ (flags.(Flags.github_input) = "" ->
      data.(AggregatedData.GitHubIssues) = []
      /\ data.(AggregatedData.GitHubPRs) = []
      /\ metadata.(Metadata.GitHubRepos) = []
      /\ metadata.(Metadata.GitHubLabels) = [])
  /\ (forall jiraData,
        flags.(Flags.jira_input) <> "" ->
        load flags.(Flags.jira_input) = inr jiraData ->
        let from := jiraData.(AggregatedData.Metadata) in
        data.(AggregatedData.JiraIssues)
        = jiraData.(AggregatedData.JiraIssues)
        /\ metadata.(Metadata.JiraProjects) = from.(Metadata.JiraProjects)
        /\ metadata.(Metadata.JiraJQL) = from.(Metadata.JiraJQL)
        /\ (flags.(Flags.github_input) = "" ->
            metadata.(Metadata.FetchTime) = from.(Metadata.FetchTime)))
  /\ (forall githubData,
        flags.(Flags.github_input) <> "" ->
        load flags.(Flags.github_input) = inr githubData ->
        let from := githubData.(AggregatedData.Metadata) in
        data.(AggregatedData.GitHubIssues)
        = githubData.(AggregatedData.GitHubIssues)
        /\ data.(AggregatedData.GitHubPRs)
           = githubData.(AggregatedData.GitHubPRs)
        /\ metadata.(Metadata.GitHubRepos) = from.(Metadata.GitHubRepos)
        /\ metadata.(Metadata.GitHubLabels) = from.(Metadata.GitHubLabels)
        /\ metadata.(Metadata.GitHubContentFilter)
           = from.(Metadata.GitHubContentFilter)
        /\ metadata.(Metadata.GitHubCreator) = from.(Metadata.GitHubCreator)
        /\ (flags.(Flags.jira_input) = "" ->
            metadata.(Metadata.FetchTime) = from.(Metadata.FetchTime)))
  /\ (forall jiraData githubData,
        flags.(Flags.jira_input) <> "" ->
        flags.(Flags.github_input) <> "" ->
        load flags.(Flags.jira_input) = inr jiraData ->
        load flags.(Flags.github_input) = inr githubData ->
        metadata.(Metadata.FetchTime)
        = mergedFetchTime
            jiraData.(AggregatedData.Metadata).(Metadata.FetchTime)
            githubData.(AggregatedData.Metadata).(Metadata.FetchTime)).
Proof.
  intros Hin. cbv zeta. command_cases load flags;
    intros H; simplify_eq; simpl; try done; naive_solver.
Qed.

Lemma commandData_separate_witness :
  (exampleFlags "" "jira.json" "github.json").(Flags.input) = ""
  /\ exists data,
       commandData exampleLoad (exampleFlags "" "jira.json" "github.json")
       = inr data
       /\ data.(AggregatedData.Metadata).(Metadata.FetchTime)
          = Date 2025 1 20 0 0 0 0.
Proof.
  split; [reflexivity|]. eexists. split; [reflexivity|].
  destruct (commandData_separate exampleLoad
              (exampleFlags "" "jira.json" "github.json") _ eq_refl eq_refl)
    as (_ & _ & _ & _ & _ & H).
  rewrite (H jiraFile githubFile); [by vm_compute|discriminate|discriminate
                                   |reflexivity|reflexivity].
Defined.

(** X12.  When the command fails before it generates anything.  The
    files are read in the order combined, Jira, GitHub, and the first one
    that cannot be loaded gives the error, which names its path; the later
    files are not looked at.  With all named files loaded the only error
    left is that no file was named at all. *)
Theorem commandData_error (load : string -> error + AggregatedData.t)
    (flags : Flags.t) (err : error) :
  let input := flags.(Flags.input) in
  let jira_input := flags.(Flags.jira_input) in
  let github_input := flags.(Flags.github_input) in
  let loads path := path = "" \/ exists data, load path = inr data in
  commandData load flags = inl err
  <-> (input <> ""
       /\ exists e, load input = inl e
          /\ err = "failed to load aggregated data from " +:+ input +:+ ": "
                   +:+ e)
      \/ (loads input /\ jira_input <> ""
          /\ exists e, load jira_input = inl e
             /\ err = "failed to load Jira data from " +:+ jira_input +:+ ": "
                      +:+ e)
      \/ (loads input /\ loads jira_input /\ github_input <> ""
          /\ exists e, load github_input = inl e
             /\ err = "failed to load GitHub data from " +:+ github_input
                      +:+ ": " +:+ e)
      \/ (input = "" /\ jira_input = "" /\ github_input = ""
          /\ err = "no input files specified, please provide either --input, --jira-input, or --github-input").
Proof.
  cbv zeta. command_cases load flags; split; intros H; simplify_eq;
    try (destruct H as [H|[H|[H|H]]]; destruct_and?; try done;
         repeat match goal with
                | H : exists _, _ |- _ => destruct H as [? H]; destruct_and?
                | H : _ \/ _ |- _ => destruct H
                end; simplify_eq; done);
    naive_solver.
Qed.

(** ** Timeframes *)

Lemma isDigit_cases c :
  isDigit c = true ->
  c ∈ ["0"; "1"; "2"; "3"; "4"; "5"; "6"; "7"; "8"; "9"]%char.
Proof.
  intros H. destruct c as [[] [] [] [] [] [] [] []];
    try (vm_compute in H; discriminate H); rewrite !elem_of_cons; tauto.
Qed.

Ltac digit_cases c H :=
  apply isDigit_cases in H; rewrite !elem_of_cons, elem_of_nil in H;
  repeat destruct H as [H | H]; try subst c; try done.

Lemma string_of_uint_digits d : allDigits (NilEmpty.string_of_uint d) = true.
Proof. induction d; simpl; try done. Qed.

Lemma digitsValue_acc d : forall p,
  digitsValue (NilEmpty.string_of_uint d) (Z.pos p)
  = Z.pos (Pos.of_uint_acc d p).
Proof.
  induction d; intros p; simpl; try done;
    match goal with
    | |- digitsValue _ ?z = _ =>
        match goal with
        | |- _ = Z.pos (Pos.of_uint_acc _ ?q) =>
            replace z with (Z.pos q) by (vm_compute ord; lia)
        end
    end; apply IHd.
Qed.

Lemma digitsValue_uint d :
  digitsValue (NilEmpty.string_of_uint d) 0 = Z.of_uint d.
Proof.
  unfold Z.of_uint.
  induction d; simpl; try done;
    match goal with
    | |- digitsValue _ ?z = Z.pos (Pos.of_uint_acc _ ?q) =>
        change z with (Z.pos q)
    end; apply digitsValue_acc.
Qed.

Lemma itoa_nonneg n :
  0 <= n ->
  exists c s, itoa n = String c s /\ isDigit c = true /\ allDigits s = true
              /\ digitsValue (itoa n) 0 = n.
Proof.
  intros Hn. unfold itoa.
  destruct n as [|p|p]; [by exists "0"%char, ""| |lia].
  change (NilEmpty.string_of_int (Z.to_int (Z.pos p)))
    with (NilEmpty.string_of_uint (Pos.to_uint p)).
  assert (Hv : digitsValue (NilEmpty.string_of_uint (Pos.to_uint p)) 0
               = Z.pos p).
  { rewrite digitsValue_uint. unfold Z.of_uint.
    by rewrite DecimalPos.Unsigned.of_to. }
  pose proof (string_of_uint_digits (Pos.to_uint p)) as Hd.
  pose proof (DecimalPos.Unsigned.to_uint_nonnil p) as Hnil.
  revert Hv Hd. destruct (Pos.to_uint p); [done|..]; intros Hv Hd;
    eexists _, _; (split; [reflexivity|]); (split; [reflexivity|]);
    (split; [exact Hd|exact Hv]).
Qed.

Lemma scanNumber_digits s rest : forall acc ok,
  allDigits s = true -> stopsNumber rest = true ->
  scanNumber (s +:+ rest) acc ok true = (Some (digitsValue s acc, ok), rest).
Proof.
  induction s as [|c s IH]; intros acc ok Hd Hr.
  - change ("" +:+ rest) with rest. destruct rest as [|c rest]; [done|].
    simpl in *. apply andb_true_iff in Hr as [H1 H2].
    apply negb_true_iff in H1, H2. by rewrite H1, H2.
  - simpl in Hd. apply andb_true_iff in Hd as [Hc Hs].
    change (String c s +:+ rest) with (String c (s +:+ rest)).
    simpl. rewrite Hc. by apply IH.
Qed.

(** [%d] reads back what [%d] has printed, up to the text that follows
    the number. *)
Lemma scanInt_itoa n rest :
  0 <= n < 2 ^ 63 -> stopsNumber rest = true ->
  scanInt (itoa n +:+ rest) = Some n.
Proof.
  intros Hn Hr.
  destruct (itoa_nonneg n) as (c & s & Heq & Hc & Hs & Hv); [lia|].
  rewrite Heq in *. unfold scanInt.
  change (String c s +:+ rest) with (String c (s +:+ rest)).
  assert (Hskip : skipSpace (String c (s +:+ rest))
                  = Some (String c (s +:+ rest))) by (digit_cases c Hc).
  rewrite Hskip.
  assert (Hsign : (c =? "-")%char = false /\ (c =? "+")%char = false)
    by (digit_cases c Hc).
  destruct Hsign as [-> ->].
  change (scanNumber (String c (s +:+ rest)) 0 true false)
    with (if isDigit c
          then scanNumber (s +:+ rest) (10 * 0 + (ord c - 48)) true true
          else if (c =? "_")%char
               then scanNumber (s +:+ rest) 0 false true
               else (None, String c (s +:+ rest))).
  rewrite Hc, scanNumber_digits by done.
  simpl in Hv. rewrite Hv.
  destruct (Z.leb_spec (- 2 ^ 63) n); [|lia].
  destruct (Z.ltb_spec n (2 ^ 63)); [done|lia].
Qed.

Lemma string_length_app (a b : string) :
  String.length (a +:+ b) = (String.length a + String.length b)%nat.
Proof.
  induction a as [|c a IH]; [done|].
  change (String c a +:+ b) with (String c (a +:+ b)). simpl. by rewrite IH.
Qed.

Lemma substring_full s : String.substring 0 (String.length s) s = s.
Proof. induction s as [|c s IH]; [done|]. simpl. by rewrite IH. Qed.

Lemma substring_app_r (a b : string) :
  String.substring (String.length a) (String.length b) (a +:+ b) = b.
Proof.
  induction a as [|c a IH]; [apply substring_full|].
  change (String c a +:+ b) with (String c (a +:+ b)). simpl. exact IH.
Qed.

Lemma substring_split s : forall k,
  (k <= String.length s)%nat ->
  s = String.substring 0 k s +:+ String.substring k (String.length s - k) s.
Proof.
  induction s as [|c s IH]; intros k Hk.
  - simpl in Hk. by replace k with 0%nat by lia.
  - destruct k as [|k].
    + simpl. by rewrite substring_full.
    + simpl in *.
      change (String c (String.substring 0 k s) +:+ ?x)
        with (String c (String.substring 0 k s +:+ x)).
      f_equal. apply IH. lia.
Qed.

Lemma HasSuffix_app (a suffix : string) : HasSuffix (a +:+ suffix) suffix = true.
Proof.
  unfold HasSuffix. cbv zeta. rewrite string_length_app.
  replace (String.length a + String.length suffix - String.length suffix)%nat
    with (String.length a) by lia.
  rewrite substring_app_r, String.eqb_refl, andb_true_r.
  apply Nat.leb_le. lia.
Qed.

Lemma HasSuffix_inv (s suffix : string) :
  HasSuffix s suffix = true -> exists a, s = a +:+ suffix.
Proof.
  unfold HasSuffix. cbv zeta.
  intros [Hle%Nat.leb_le Heq%String.eqb_eq]%andb_true_iff.
  exists (String.substring 0 (String.length s - String.length suffix) s).
  pose proof (substring_split s (String.length s - String.length suffix)
                ltac:(lia)) as H.
  replace (String.length s - (String.length s - String.length suffix))%nat
    with (String.length suffix) in H by lia.
  by rewrite Heq in H.
Qed.

Lemma lastByte_app (a b : string) :
  b <> "" -> lastByte (a +:+ b) = lastByte b.
Proof.
  intros Hb. induction a as [|c a IH]; [done|].
  change (String c a +:+ b) with (String c (a +:+ b)).
  simpl. rewrite IH. destruct (a +:+ b) eqn:E; [|done].
  destruct a; [|done]. by destruct b.
Qed.

Lemma HasSuffix_lastByte (a tail suffix : string) :
  tail <> "" -> suffix <> "" -> lastByte tail <> lastByte suffix ->
  HasSuffix (a +:+ tail) suffix = false.
Proof.
  intros Ht Hs Hne. apply not_true_is_false.
  intros [a' Heq]%HasSuffix_inv.
  apply (f_equal lastByte) in Heq. by rewrite !lastByte_app in Heq.
Qed.

Lemma append_last_inj (x y : string) (c : ascii) :
  x +:+ String c "" = y +:+ String c "" -> x = y.
Proof.
  revert y. induction x as [|a x IH]; intros [|b y] H; [done| | |].
  - change (String c "" = String b (y +:+ String c "")) in H.
    injection H as _ H. by destruct y.
  - change (String a (x +:+ String c "") = String c "") in H.
    injection H as _ H. by destruct x.
  - change (String a (x +:+ String c "") = String b (y +:+ String c "")) in H.
    injection H as -> H. f_equal. by apply IH.
Qed.

Lemma years_not_months (a : string) : HasSuffix (a +:+ "years") "months" = false.
Proof.
  apply not_true_is_false. intros [a' Heq]%HasSuffix_inv.
  change "years" with ("year" +:+ "s") in Heq.
  change "months" with ("month" +:+ "s") in Heq.
  rewrite <- !append_assoc in Heq. apply append_last_inj in Heq.
  apply (f_equal lastByte) in Heq. by rewrite !lastByte_app in Heq.
Qed.

Lemma Sscanf_d_itoa n rest :
  0 <= n < 2 ^ 63 -> stopsNumber rest = true ->
  Sscanf_d (itoa n +:+ rest) "" = Some n.
Proof.
  intros Hn Hr. unfold Sscanf_d.
  replace (HasPrefix (itoa n +:+ rest) "") with true
    by (by destruct (itoa n +:+ rest)).
  change (String.length "") with 0%nat.
  rewrite Nat.sub_0_r, substring_full. by apply scanInt_itoa.
Qed.

Lemma itoa_app_nonempty n rest :
  0 <= n -> String.eqb (itoa n +:+ rest) "" = false.
Proof.
  intros Hn. destruct (itoa_nonneg n Hn) as (c & s & -> & _). done.
Qed.

Lemma parseTimeframe_months now n :
  0 < n < 2 ^ 31 ->
  parseTimeframe now (itoa n +:+ "months")
  = (firstOfMonth now, AddDate (firstOfMonth now) 0 n 0).
Proof.
  intros Hn.
  assert (Hpos : (0 <? n) = true) by (apply Z.ltb_lt; lia).
  assert (Hr : 0 <= n < 2 ^ 63) by lia.
  unfold parseTimeframe, parseMonths. cbv zeta.
  rewrite itoa_app_nonempty by lia.
  rewrite HasSuffix_app, Sscanf_d_itoa by done.
  simpl scanned. by rewrite Hpos.
Qed.

Lemma parseTimeframe_years now n (plural : bool) :
  0 < n < 2 ^ 31 ->
  parseTimeframe now (itoa n +:+ (if plural then "years" else "year"))
  = (firstOfMonth now, AddDate (firstOfMonth now) n 0 0).
Proof.
  intros Hn.
  assert (Hpos : (0 <? n) = true) by (apply Z.ltb_lt; lia).
  assert (Hz : (n =? 0) = false) by (apply Z.eqb_neq; lia).
  assert (Hr : 0 <= n < 2 ^ 63) by lia.
  unfold parseTimeframe, parseMonths, parseYears. cbv zeta.
  rewrite itoa_app_nonempty by lia. destruct plural.
  - rewrite years_not_months.
    rewrite (HasSuffix_app _ "years"), orb_true_r, Sscanf_d_itoa by done.
    simpl scanned. by rewrite Hz, Hpos.
  - rewrite (HasSuffix_lastByte _ "year" "months") by done.
    rewrite HasSuffix_app, Sscanf_d_itoa by done.
    simpl scanned. by rewrite Hz, Hpos.
Qed.

(** X13.  The relative timeframes read back what [%d] prints: for a
    positive count [n] the timeframes "[n]months", "[n]year" and
    "[n]years" give the range that starts on the first of the current
    month and ends [n] months or [n] years later (both "year" and "years"
    are accepted for any count).  A count of zero is no timeframe. *)
Theorem parseTimeframe_relative (now : Time) (n : Z) :
  0 < n < 2 ^ 31 ->
  parseTimeframe now (itoa n +:+ "months")
  = (firstOfMonth now, AddDate (firstOfMonth now) 0 n 0)
  /\ parseTimeframe now (itoa n +:+ "year")
     = (firstOfMonth now, AddDate (firstOfMonth now) n 0 0)
  /\ parseTimeframe now (itoa n +:+ "years")
     = (firstOfMonth now, AddDate (firstOfMonth now) n 0 0)
  /\ parseTimeframe now "0months" = (GoTime.zero, GoTime.zero)
  /\ parseTimeframe now "0years" = (GoTime.zero, GoTime.zero).
Proof.
  intros Hn. split; [|split; [|split; [|split]]].
  - by apply parseTimeframe_months.
  - by apply (parseTimeframe_years now n false).
  - by apply (parseTimeframe_years now n true).
  - reflexivity.
  - reflexivity.
Qed.

Lemma parseTimeframe_relative_witness :
  0 < 6 < 2 ^ 31
  /\ parseTimeframe (Date 2025 5 17 9 30 0 0) (itoa 6 +:+ "months")
     = (firstOfMonth (Date 2025 5 17 9 30 0 0),
        AddDate (firstOfMonth (Date 2025 5 17 9 30 0 0)) 0 6 0).
Proof.
  split; [lia|].
  exact (proj1 (parseTimeframe_relative (Date 2025 5 17 9 30 0 0) 6
                  ltac:(lia))).
Defined.

Lemma Date_months y m k d h mi sec ns :
  Date y (m + 12 * k) d h mi sec ns = Date (y + k) m d h mi sec ns.
Proof.
  unfold Date. cbv zeta.
  replace (m + 12 * k - 1) with (m - 1 + k * 12) by lia.
  rewrite Z.div_add, Z.mod_add by lia.
  by replace (y + ((m - 1) / 12 + k)) with (y + k + (m - 1) / 12) by lia.
Qed.

Lemma AddDate_years_months t k : AddDate t 0 (12 * k) 0 = AddDate t k 0 0.
Proof.
  unfold AddDate. rewrite Date_months. by rewrite !Z.add_0_r.
Qed.

(** X14.  Twelve months are a year: the timeframes "[12k]months",
    "[k]year" and "[k]years" give the same range, and "12months" and
    "1year" give the range of the roadmap that has no timeframe, which
    runs from the first of the current month to the same day a year
    later. *)
Theorem roadmapRange_years (now : Time) (opts : Options.t) (k : Z) :
  0 < k -> 12 * k < 2 ^ 31 ->
  roadmapRange now (withTimeframe opts (itoa (12 * k) +:+ "months"))
  = roadmapRange now (withTimeframe opts (itoa k +:+ "years"))
  /\ roadmapRange now (withTimeframe opts (itoa k +:+ "year"))
     = roadmapRange now (withTimeframe opts (itoa k +:+ "years"))
  /\ roadmapRange now (withTimeframe opts "")
     = (firstOfMonth now, AddDate (firstOfMonth now) 1 0 0)
  /\ roadmapRange now (withTimeframe opts "12months")
     = roadmapRange now (withTimeframe opts "")
  /\ roadmapRange now (withTimeframe opts "1year")
     = roadmapRange now (withTimeframe opts "").
Proof.
  intros Hk Hb.
  set (range n := if IsZero (firstOfMonth now)
                  then (firstOfMonth now, AddDate (firstOfMonth now) 1 0 0)
                  else (firstOfMonth now, AddDate (firstOfMonth now) n 0 0)).
  assert (Hdefault : roadmapRange now (withTimeframe opts "")
                     = (firstOfMonth now, AddDate (firstOfMonth now) 1 0 0))
    by reflexivity.
  assert (Hone : range 1 = (firstOfMonth now, AddDate (firstOfMonth now) 1 0 0))
    by (unfold range; by destruct (IsZero _)).
  assert (Hyears : forall n (plural : bool), 0 < n < 2 ^ 31 ->
            roadmapRange now
              (withTimeframe opts
                 (itoa n +:+ (if plural then "years" else "year")))
            = range n).
  { intros n plural Hn. unfold roadmapRange.
    cbn [withTimeframe Options.RoadmapTimeframe].
    by rewrite parseTimeframe_years by done. }
  assert (Hmonths : forall n, 0 < n -> 12 * n < 2 ^ 31 ->
            roadmapRange now
              (withTimeframe opts (itoa (12 * n) +:+ "months"))
            = range n).
  { intros n Hn Hn'. unfold roadmapRange.
    cbn [withTimeframe Options.RoadmapTimeframe].
    rewrite parseTimeframe_months by lia.
    by rewrite AddDate_years_months. }
  split; [|split; [|split; [|split]]].
  - rewrite Hmonths by done. by rewrite (Hyears k true) by lia.
  - rewrite (Hyears k true), (Hyears k false) by lia. done.
  - exact Hdefault.
  - rewrite Hdefault, <- Hone. apply (Hmonths 1); lia.
  - rewrite Hdefault, <- Hone. apply (Hyears 1 false); lia.
Qed.

Lemma roadmapRange_years_witness :
  0 < 2 /\ 12 * 2 < 2 ^ 31
  /\ roadmapRange (Date 2025 5 17 9 30 0 0)
       (withTimeframe epicGanttOptions (itoa (12 * 2) +:+ "months"))
     = roadmapRange (Date 2025 5 17 9 30 0 0)
         (withTimeframe epicGanttOptions (itoa 2 +:+ "years")).
Proof.
  split; [lia|]. split; [lia|].
  exact (proj1 (roadmapRange_years (Date 2025 5 17 9 30 0 0) epicGanttOptions
                  2 ltac:(lia) ltac:(lia))).
Defined.

(** ** The first days of the months *)

Lemma first_days_check : forallRange 400 1 firstDayOk = true.
Proof. vm_compute. reflexivity. Qed.

Lemma civil_first y m :
  1 <= m <= 12 -> civil (dateToDays y m 1) = (y, m, 1).
Proof.
  intros Hm.
  set (n := (y - 1) / 400). set (y0 := (y - 1) mod 400 + 1).
  assert (Hy : y = y0 + 400 * n)
    by (unfold y0, n; pose proof (Z.div_mod (y - 1) 400); lia).
  assert (Hy0 : 1 <= y0 < 1 + Z.of_nat 400)
    by (unfold y0; pose proof (Z.mod_pos_bound (y - 1) 400); lia).
  pose proof (forallRange_spec firstDayOk _ 1 y0 first_days_check Hy0) as H.
  unfold firstDayOk in H. rewrite forallb_forall in H.
  assert (Hin : In m [1; 2; 3; 4; 5; 6; 7; 8; 9; 10; 11; 12])
    by (simpl; lia).
  specialize (H m Hin). cbv zeta in H.
  rewrite Hy, dateToDays_shift, civil_shift.
  generalize dependent (dateToDays y0 m 1). intros d H.
  apply andb_true_iff in H as [[H1%Z.leb_le H2%Z.ltb_lt]%andb_true_iff H].
  replace ((d + 146097 * n) mod 146097) with d
    by (rewrite Z.mul_comm, Z.mod_add, Z.mod_small; lia).
  replace ((d + 146097 * n) / 146097) with n
    by (rewrite Z.mul_comm, Z.div_add, Z.div_small; lia).
  destruct (civil d) as [[y' m'] d'].
  apply andb_true_iff in H as [[->%Z.eqb_eq ->%Z.eqb_eq]%andb_true_iff
                                 ->%Z.eqb_eq].
  done.
Qed.

Lemma monthStart_norm y m :
  monthStart y m = monthStart (y + (m - 1) / 12) ((m - 1) mod 12 + 1).
Proof.
  unfold monthStart, Date. cbv zeta.
  pose proof (Z.mod_pos_bound (m - 1) 12 ltac:(lia)) as Hr.
  replace ((m - 1) mod 12 + 1 - 1) with ((m - 1) mod 12) by lia.
  rewrite Z.mod_mod by lia.
  rewrite (Z.div_small ((m - 1) mod 12)) by lia.
  by replace (y + (m - 1) / 12 + 0) with (y + (m - 1) / 12) by lia.
Qed.

Lemma monthStart_fields y m :
  1 <= m <= 12 ->
  Year (monthStart y m) = y /\ Month (monthStart y m) = m
  /\ Day (monthStart y m) = 1 /\ Hour (monthStart y m) = 0
  /\ Minute (monthStart y m) = 0 /\ Second (monthStart y m) = 0
  /\ Nanosecond (monthStart y m) = 0.
Proof.
  intros Hm.
  assert (Hn : nanos (monthStart y m) = dateToDays y m 1 * nsPerDay).
  { unfold monthStart, Date. cbv zeta. simpl nanos.
    rewrite (Z.div_small (m - 1)), (Z.mod_small (m - 1)) by lia.
    replace (y + 0) with y by lia. replace (m - 1 + 1) with m by lia.
    lia. }
  assert (Hd : absDays (monthStart y m) = dateToDays y m 1).
  { unfold absDays. rewrite Hn. apply Z.div_mul. by vm_compute. }
  assert (Ht : timeOfDay (monthStart y m) = 0).
  { unfold timeOfDay. rewrite Hn. apply Z.mod_mul. by vm_compute. }
  unfold Year, Month, Day, Hour, Minute, Second, Nanosecond.
  rewrite Hd, Ht, civil_first by done. done.
Qed.

Lemma AddDate_monthStart y m k :
  AddDate (monthStart y m) 0 k 0 = monthStart y (m + k).
Proof.
  rewrite (monthStart_norm y m).
  pose proof (Z.mod_pos_bound (m - 1) 12 ltac:(lia)) as Hr.
  destruct (monthStart_fields (y + (m - 1) / 12) ((m - 1) mod 12 + 1)
              ltac:(lia)) as (Hy & Hmo & Hd & Hh & Hmi & Hs & Hns).
  unfold AddDate. rewrite Hy, Hmo, Hd, Hh, Hmi, Hs, Hns.
  unfold monthStart, Date. cbv zeta. f_equal.
  replace ((m - 1) mod 12 + 1 + k - 1) with ((m - 1) mod 12 + k) by lia.
  replace (m + k - 1) with ((m - 1) mod 12 + k + (m - 1) / 12 * 12)
    by (pose proof (Z.div_mod (m - 1) 12); lia).
  rewrite Z.div_add, Z.mod_add by lia.
  replace (y + (m - 1) / 12 + 0 + ((m - 1) mod 12 + k) / 12)
    with (y + (((m - 1) mod 12 + k) / 12 + (m - 1) / 12)) by lia.
  by replace (1 + 0) with 1 by lia.
Qed.

Lemma firstOfMonth_monthStart now :
  firstOfMonth now = monthStart (Year now) (Month now).
Proof. unfold firstOfMonth, monthStart. reflexivity. Qed.

Lemma monthSteps_S k t :
  monthSteps (S k) t = t :: monthSteps k (AddDate t 0 1 0).
Proof. reflexivity. Qed.

Lemma afterMonths_S k t :
  afterMonths (S k) t = afterMonths k (AddDate t 0 1 0).
Proof. reflexivity. Qed.

Lemma monthSteps_monthStart y k : forall m,
  monthSteps k (monthStart y m)
  = map (fun i => monthStart y (m + Z.of_nat i)) (seq 0 k).
Proof.
  induction k as [|k IH]; intros m; [done|].
  rewrite monthSteps_S, AddDate_monthStart, IH.
  rewrite <- cons_seq, <- seq_shift, map_cons, map_map.
  replace (m + Z.of_nat 0) with m by lia.
  apply (f_equal (cons (monthStart y m))).
  apply map_ext. intros i.
  by replace (m + 1 + Z.of_nat i) with (m + Z.of_nat (S i)) by lia.
Qed.

Lemma afterMonths_monthStart y k : forall m,
  afterMonths k (monthStart y m) = monthStart y (m + Z.of_nat k).
Proof.
  induction k as [|k IH]; intros m.
  - replace (m + Z.of_nat 0) with m by lia. reflexivity.
  - rewrite afterMonths_S, AddDate_monthStart, IH.
    by replace (m + 1 + Z.of_nat k) with (m + Z.of_nat (S k)) by lia.
Qed.

Lemma monthStart_mono y m (d : nat) :
  nanos (monthStart y m) + Z.of_nat d * (28 * nsPerDay)
  <= nanos (monthStart y (m + Z.of_nat d)).
Proof.
  induction d as [|d IH].
  - replace (m + Z.of_nat 0) with m by lia. lia.
  - replace (m + Z.of_nat (S d)) with (m + Z.of_nat d + 1) by lia.
    rewrite <- AddDate_monthStart.
    pose proof (AddDate_month (monthStart y (m + Z.of_nat d))). lia.
Qed.

Lemma monthStart_Before y m (i n : nat) :
  Before (monthStart y (m + Z.of_nat i)) (monthStart y (m + Z.of_nat n))
  = bool_decide (i < n)%nat.
Proof.
  assert (Hns : 0 < nsPerDay) by (by vm_compute).
  unfold Before. case_bool_decide as Hlt.
  - apply Z.ltb_lt.
    pose proof (monthStart_mono y (m + Z.of_nat i) (n - i)) as H.
    replace (m + Z.of_nat i + Z.of_nat (n - i)) with (m + Z.of_nat n) in H
      by lia.
    nia.
  - apply Z.ltb_ge.
    pose proof (monthStart_mono y (m + Z.of_nat n) (i - n)) as H.
    replace (m + Z.of_nat n + Z.of_nat (i - n)) with (m + Z.of_nat i) in H
      by lia.
    nia.
Qed.

Lemma quarterLabel_monthStart y m :
  quarterLabel (monthStart y m) = monthLabel y m.
Proof.
  rewrite monthStart_norm.
  pose proof (Z.mod_pos_bound (m - 1) 12 ltac:(lia)) as Hr.
  destruct (monthStart_fields (y + (m - 1) / 12) ((m - 1) mod 12 + 1)
              ltac:(lia)) as (Hy & Hmo & _).
  unfold quarterLabel, monthLabel, quarterName. rewrite Hy, Hmo.
  by replace ((m - 1) mod 12 + 1 - 1) with ((m - 1) mod 12) by lia.
Qed.

Lemma afterMonths_elem n : forall i t,
  (i < n)%nat -> afterMonths i t ∈ monthSteps n t.
Proof.
  induction n as [|n IH]; intros i t Hi; [lia|].
  rewrite monthSteps_S. destruct i as [|i].
  - apply list_elem_of_here.
  - rewrite afterMonths_S. apply list_elem_of_further, IH. lia.
Qed.

(** The loop makes exactly [n] turns when the [n] first month steps lie
    before the end and the next one does not. *)
Lemma generateQuarters_exact start end_ n :
  Forall (fun t => Before t end_ = true) (monthSteps n start) ->
  Before (afterMonths n start) end_ = false ->
  generateQuarters start end_
  = Some (firstSeen (map quarterLabel (monthSteps n start))).
Proof.
  intros Hall Hlast.
  destruct (generateQuarters_total start end_) as [result H].
  rewrite H. f_equal. unfold generateQuarters in H.
  apply generateQuartersLoop_steps in H as (k & Hall' & Hlast' & ->).
  rewrite firstSeen_fold. rewrite Forall_forall in Hall, Hall'.
  assert (Hk : k = n).
  { destruct (lt_eq_lt_dec k n) as [[Hlt|Heq]|Hgt]; [|done|].
    - pose proof (Hall _ (afterMonths_elem n k start Hlt)). congruence.
    - pose proof (Hall' _ (afterMonths_elem k n start Hgt)). congruence. }
  by subst k.
Qed.

Lemma generateQuarters_months y m (n : nat) :
  generateQuarters (monthStart y m) (monthStart y (m + Z.of_nat n))
  = Some (firstSeen (monthLabels y m n)).
Proof.
  rewrite (generateQuarters_exact _ _ n).
  - rewrite monthSteps_monthStart, map_map. unfold monthLabels.
    apply (f_equal Some), (f_equal firstSeen).
    apply map_ext. intros i. apply quarterLabel_monthStart.
  - rewrite monthSteps_monthStart. apply Forall_forall.
    intros t (i & <- & Hi%in_seq)%list_elem_of_In%in_map_iff.
    rewrite monthStart_Before. apply bool_decide_eq_true. lia.
  - rewrite afterMonths_monthStart, monthStart_Before.
    apply bool_decide_eq_false. lia.
Qed.

Lemma itoa_inj a b : itoa a = itoa b -> a = b.
Proof.
  unfold itoa. intros H. apply DecimalZ.to_int_inj.
  apply (f_equal NilEmpty.int_of_string) in H.
  rewrite !NilEmpty.isi in H. by injection H.
Qed.

Lemma quarterName_inj q y q' y' :
  1 <= q <= 4 -> 1 <= q' <= 4 ->
  quarterName q y = quarterName q' y' -> q = q' /\ y = y'.
Proof.
  intros Hq Hq' H. unfold quarterName in H. apply append_inj_r in H.
  assert (Hc : forall c x, String c "" +:+ x = String c x) by reflexivity.
  assert (Hcases : forall z, 1 <= z <= 4 -> z = 1 \/ z = 2 \/ z = 3 \/ z = 4)
    by lia.
  destruct (Hcases q Hq) as [-> | [-> | [-> | ->]]];
    destruct (Hcases q' Hq') as [-> | [-> | [-> | ->]]];
    match type of H with
    | itoa ?a +:+ _ = itoa ?b +:+ _ =>
        let sa := eval vm_compute in (itoa a) in
        let sb := eval vm_compute in (itoa b) in
        change (itoa a) with sa in H; change (itoa b) with sb in H
    end;
    rewrite !Hc in H; try discriminate H;
    injection H as H; apply itoa_inj in H; by split.
Qed.

Section axis.
Variable f : Z -> Z -> string.
Variable plus : Z -> Z.
Hypothesis f_inj : forall q y q' y',
  1 <= q <= 4 -> 1 <= q' <= 4 -> f q y = f q' y' -> q = q' /\ y = y'.
Hypothesis plus_inj : forall a b, plus a = plus b -> a = b.

Lemma f_neq q a q' b :
  1 <= q <= 4 -> 1 <= q' <= 4 -> q <> q' \/ a <> b ->
  f q (plus a) <> f q' (plus b).
Proof.
  intros Hq Hq' Hne H. apply f_inj in H as [H1 H2%plus_inj]; [lia|done|done].
Qed.

Ltac first_seen :=
  cbn [firstSeen];
  repeat first
    [ rewrite filter_nil
    | rewrite filter_cons_False by (intros H; apply H; reflexivity)
    | rewrite filter_cons_True by (apply f_neq; lia) ].

(** Twelve months in a row from month [m] on lie in four quarters when
    [m] opens a quarter and in five otherwise. *)
Lemma firstSeen_year (m : Z) :
  1 <= m <= 12 ->
  firstSeen
    (map (fun i : nat =>
            f (((m + Z.of_nat i - 1) mod 12) ÷ 3 + 1)
              (plus ((m + Z.of_nat i - 1) / 12)))
         (seq 0 12))
  = map (fun i : Z =>
           f (Z.rem ((m - 1) ÷ 3 + 1 + i - 1) 4 + 1)
             (plus (((m - 1) ÷ 3 + 1 + i - 1) ÷ 4)))
        (map Z.of_nat
           (seq 0 (Z.to_nat (if Z.rem (m - 1) 3 =? 0 then 4 else 5)))).
Proof.
  intros Hm.
  assert (Hcases : m = 1 \/ m = 2 \/ m = 3 \/ m = 4 \/ m = 5 \/ m = 6
                   \/ m = 7 \/ m = 8 \/ m = 9 \/ m = 10 \/ m = 11 \/ m = 12)
    by lia.
  repeat destruct Hcases as [-> | Hcases]; try subst m;
    match goal with
    | |- firstSeen ?l = ?r =>
        let l' := eval vm_compute in l in
        let r' := eval vm_compute in r in
        change (firstSeen l' = r')
    end;
    first_seen; reflexivity.
Qed.
(** The months of the quarters [a] to [b] of a year lie in these
    quarters. *)
Lemma firstSeen_span (a b : Z) :
  1 <= a <= 4 -> 1 <= b <= 4 -> a <= b ->
  firstSeen
    (map (fun i : nat =>
            f (((3 * a - 2 + Z.of_nat i - 1) mod 12) ÷ 3 + 1)
              (plus ((3 * a - 2 + Z.of_nat i - 1) / 12)))
         (seq 0 (Z.to_nat (3 * (b - a + 1)))))
  = map (fun q => f q (plus 0)) (seqZ a (b - a + 1)).
Proof.
  intros Ha Hb Hab.
  assert (Hca : a = 1 \/ a = 2 \/ a = 3 \/ a = 4) by lia.
  assert (Hcb : b = 1 \/ b = 2 \/ b = 3 \/ b = 4) by lia.
  destruct Hca as [->|[->|[->| ->]]]; destruct Hcb as [->|[->|[->| ->]]];
    try lia;
    match goal with
    | |- firstSeen ?l = ?r =>
        let l' := eval vm_compute in l in
        let r' := eval vm_compute in r in
        change (firstSeen l' = r')
    end;
    first_seen; reflexivity.
Qed.
End axis.

(** X15.  The axis of a roadmap of [n] months: the quarters of the [n]
    months from the current month on, each once, in the order of the
    calendar. *)
Theorem months_axis (now : Time) (n : Z) :
  0 < n < 2 ^ 31 ->
  generateQuarters (parseTimeframe now (itoa n +:+ "months")).1
                   (parseTimeframe now (itoa n +:+ "months")).2
  = Some (firstSeen (monthLabels (Year now) (Month now) (Z.to_nat n))).
Proof.
  intros Hn. rewrite parseTimeframe_months by done. cbn [fst snd].
  rewrite firstOfMonth_monthStart, AddDate_monthStart.
  rewrite <- (Z2Nat.id n) at 1 by lia.
  apply generateQuarters_months.
Qed.

Lemma months_axis_witness :
  0 < 6 < 2 ^ 31
  /\ generateQuarters
       (parseTimeframe (Date 2025 5 17 9 30 0 0) (itoa 6 +:+ "months")).1
       (parseTimeframe (Date 2025 5 17 9 30 0 0) (itoa 6 +:+ "months")).2
     = Some ["Q2 2025"; "Q3 2025"; "Q4 2025"].
Proof.
  split; [lia|].
  rewrite (months_axis (Date 2025 5 17 9 30 0 0) 6 ltac:(lia)).
  vm_compute. reflexivity.
Defined.

Lemma fromNow_names (Y M : Z) (l : list Z) :
  map (fun i : Z =>
         "Q" +:+ itoa (Z.rem ((M - 1) ÷ 3 + 1 + i - 1) 4 + 1) +:+ " "
         +:+ itoa (Y + ((M - 1) ÷ 3 + 1 + i - 1) ÷ 4)) l
  = map (fun i : Z =>
           quarterName (Z.rem ((M - 1) ÷ 3 + 1 + i - 1) 4 + 1)
                       (Y + ((M - 1) ÷ 3 + 1 + i - 1) ÷ 4)) l.
Proof. reflexivity. Qed.

(** X16.  The axis of a roadmap without a timeframe is the current
    quarter and the quarters after it, as [generateQuartersFromNow] counts
    them: four quarters when the current month opens a quarter, five
    otherwise. *)
Theorem default_axis (now : Time) (opts : Options.t) :
  generateQuarters (roadmapRange now (withTimeframe opts "")).1
                   (roadmapRange now (withTimeframe opts "")).2
  = Some (generateQuartersFromNow now
            (if Z.rem (Month now - 1) 3 =? 0 then 4 else 5)).
Proof.
  destruct (civil_fields now) as (Hm & _).
  replace (roadmapRange now (withTimeframe opts ""))
    with (firstOfMonth now, AddDate (firstOfMonth now) 1 0 0)
    by reflexivity.
  cbn [fst snd].
  rewrite <- (AddDate_years_months (firstOfMonth now) 1).
  change (12 * 1) with (Z.of_nat 12).
  rewrite firstOfMonth_monthStart, AddDate_monthStart.
  rewrite generateQuarters_months. f_equal.
  unfold monthLabels, monthLabel.
  rewrite (firstSeen_year quarterName (Z.add (Year now)) quarterName_inj
             ltac:(intros; lia) (Month now) Hm).
  unfold generateQuartersFromNow. cbv zeta.
  by rewrite fromNow_names.
Qed.

(** ** Items off the axis *)

Lemma firstIndex_None label quarters :
  label ∉ quarters -> firstIndex label quarters = None.
Proof.
  intros Hnot. unfold firstIndex.
  destruct (list_find (eq label) quarters) as [[k x]|] eqn:E; [|done].
  apply list_find_Some in E as (Hk & <- & _).
  by apply list_elem_of_lookup_2 in Hk.
Qed.

(** X17.  An item both of whose dates fall in quarters that the axis does
    not show is placed from the first to the last column, so every cell of
    its row is filled: work that lies wholly before or wholly after the
    roadmap is drawn across all of it. *)
Theorem item_off_axis (item : RoadmapItem.t) (quarters : list string)
    (startDate endDate : Time) :
  item.(RoadmapItem.StartDate) = Some startDate ->
  item.(RoadmapItem.EndDate) = Some endDate ->
  itemQuarterStr startDate ∉ quarters ->
  itemQuarterStr endDate ∉ quarters ->
  getItemQuarters item quarters = (0, Z.of_nat (length quarters) - 1)
  /\ forall i : nat,
       (i < length quarters)%nat ->
       timelineCell item.(RoadmapItem.Status)
         (getItemQuarters item quarters).1 (getItemQuarters item quarters).2
         (Z.of_nat i)
       <> emptyCell.
Proof.
  intros Hs He Hns Hne.
  assert (Hq : getItemQuarters item quarters
               = (0, Z.of_nat (length quarters) - 1)).
  { unfold getItemQuarters. rewrite Hs, He. cbv zeta.
    pose proof (findQuarters_fst quarters 0 (itemQuarterStr startDate)
                  (itemQuarterStr endDate) (-1) (-1) ltac:(lia)) as H1.
    pose proof (findQuarters_snd quarters 0 (itemQuarterStr startDate)
                  (itemQuarterStr endDate) (-1) (-1) ltac:(lia)) as H2.
    rewrite firstIndex_None in H1, H2 by done.
    destruct (findQuarters _ _ _ _ _ _) as [sq eq_].
    simpl in H1, H2. by subst. }
  split; [exact Hq|]. intros i Hi. rewrite Hq. cbn [fst snd].
  intros Hempty%timelineCell_empty_iff. lia.
Qed.

Lemma item_off_axis_witness :
  (itemQuarterStr (Date 2020 2 1 0 0 0 0) ∉ axis2025)
  /\ (itemQuarterStr (Date 2020 3 1 0 0 0 0) ∉ axis2025)
  /\ getItemQuarters (jiraRoadmapItem oldTicket) axis2025 = (0, 3).
Proof.
  assert (H1 : itemQuarterStr (Date 2020 2 1 0 0 0 0) ∉ axis2025).
  { intros Hin. apply list_elem_of_In in Hin. vm_compute in Hin.
    intuition discriminate. }
  assert (H2 : itemQuarterStr (Date 2020 3 1 0 0 0 0) ∉ axis2025).
  { intros Hin. apply list_elem_of_In in Hin. vm_compute in Hin.
    intuition discriminate. }
  split; [exact H1|]. split; [exact H2|].
  exact (proj1 (item_off_axis (jiraRoadmapItem oldTicket) axis2025 _ _
                  eq_refl eq_refl H1 H2)).
Defined.

(** ** The Jira client *)

Lemma projects_fold (projects : list string) : forall (n : nat) (acc : string),
  foldl (fun projectQuery '(i, project) =>
           (if (0 <? Z.of_nat i) then projectQuery +:+ ", "
            else projectQuery)
           +:+ lit "`" +:+ project +:+ lit "`")
        acc (imap (fun i => pair (n + i)%nat) projects)
  = acc +:+ (if (0 <? Z.of_nat n) && bool_decide (projects <> [])
             then ", " else "")
    +:+ Join (map quoted projects) ", ".
Proof.
  induction projects as [|p projects IH]; intros n acc.
  - simpl. rewrite andb_false_r. by rewrite !append_nil_r.
  - rewrite imap_cons. cbn [foldl].
    assert (Himap : imap ((fun i => pair (n + i)%nat) ∘ S) projects
                    = imap (fun i => pair (S n + i)%nat) projects).
    { apply imap_ext. intros i x _. simpl. f_equal. lia. }
    rewrite Himap, IH. replace (n + 0)%nat with n by lia.
    replace (0 <? Z.of_nat (S n)) with true by (symmetry; apply Z.ltb_lt; lia).
    rewrite (bool_decide_true (p :: projects <> [])) by done.
    rewrite andb_true_r. cbn [andb]. fold (quoted p).
    destruct projects as [|q projects].
    + rewrite bool_decide_false by (intros H; by apply H).
      cbn [map Join]. rewrite !append_nil_r.
      destruct (0 <? Z.of_nat n); by rewrite ?append_assoc.
    + rewrite bool_decide_true by done.
      change (Join (map quoted (p :: q :: projects)) ", ")
        with (quoted p +:+ ", " +:+ Join (map quoted (q :: projects)) ", ").
      destruct (0 <? Z.of_nat n); by rewrite ?append_assoc.
Qed.

(** X18.  [buildJQLQuery] in closed form.  One project gives an equality,
    any other number of projects the list of the quoted names between
    commas; for no project at all the list is empty, "project IN ()".
    The additional query is appended after " AND " when it is not
    empty. *)
Theorem buildJQLQuery_closed_form (projects : list string)
    (additionalJQL : string) :
  let projectQuery :=
    match projects with
    | [project] => lit "project = `" +:+ project +:+ lit "`"
    | _ => "project IN (" +:+ Join (map quoted projects) ", " +:+ ")"
    end in
  buildJQLQuery projects additionalJQL
  = (if String.eqb additionalJQL "" then projectQuery
     else projectQuery +:+ " AND " +:+ additionalJQL)
  /\ buildJQLQuery [] "" = "project IN ()".
Proof.
  cbv zeta. split; [|reflexivity].
  unfold buildJQLQuery. cbv zeta.
  assert (Hfold : foldl (fun projectQuery '(i, project) =>
                           (if (0 <? Z.of_nat i) then projectQuery +:+ ", "
                            else projectQuery)
                           +:+ lit "`" +:+ project +:+ lit "`")
                        "project IN (" (imap pair projects) +:+ ")"
                  = "project IN (" +:+ Join (map quoted projects) ", "
                    +:+ ")").
  { rewrite (projects_fold projects 0). cbn [Z.of_nat Z.ltb Z.compare andb].
    by rewrite !append_assoc. }
  destruct projects as [|p [|q projects]];
    [|by destruct (String.eqb additionalJQL "")|];
    rewrite Hfold; by destruct (String.eqb additionalJQL "").
Qed.

Lemma substring_app_l (a b : string) :
  String.substring 0 (String.length a) (a +:+ b) = a.
Proof.
  induction a as [|c a IH]; [by destruct b|].
  change (String c a +:+ b) with (String c (a +:+ b)). simpl. by rewrite IH.
Qed.

Lemma substring_length s : forall n,
  (n <= String.length s)%nat ->
  String.length (String.substring 0 n s) = n.
Proof.
  induction s as [|c s IH]; intros [|n] Hn; simpl in *; try done; try lia.
  rewrite IH; lia.
Qed.

(** X19.  The link that [convertJiraIssue] gives an issue.  For an
    address made of a base, "/rest/api/2/issue/" and an identifier, the
    link is the base followed by "/browse/" and the key exactly when the
    identifier is as long as the key: the address is cut by the length of
    the key, not of the identifier.  A key longer than base and identifier
    together makes the slice bound negative. *)
Theorem convertJiraIssue_URL_base (base id key : string) :
  let self := base +:+ "/rest/api/2/issue/" +:+ id in
  (convertJiraIssue_URL self key = Some (base +:+ "/browse/" +:+ key)
   <-> String.length id = String.length key)
  /\ (convertJiraIssue_URL self key = None
      <-> (String.length base + String.length id < String.length key)%nat).
Proof.
  cbv zeta. unfold convertJiraIssue_URL. cbv zeta.
  rewrite !string_length_app.
  change (String.length "/rest/api/2/issue/") with 18%nat.
  set (lb := String.length base). set (li := String.length id).
  set (lk := String.length key).
  destruct (Z.ltb_spec (Z.of_nat (lb + (18 + li)) - Z.of_nat lk - Z.of_nat 18)
              0) as [Hneg|Hpos].
  - split; split; try done; intros H; lia.
  - split; [|split; [done|lia]].
    replace (Z.to_nat (Z.of_nat (lb + (18 + li)) - Z.of_nat lk - Z.of_nat 18))
      with (lb + li - lk)%nat by lia.
    split.
    + intros [= H]. apply (f_equal String.length) in H.
      rewrite !string_length_app in H.
      rewrite substring_length in H by (rewrite !string_length_app; fold lb li; simpl; lia).
      fold lb lk in H. lia.
    + intros H. replace (lb + li - lk)%nat with lb by lia.
      unfold lb. by rewrite substring_app_l.
Qed.

(** ** The kanban board *)

Lemma colorIndexOf_range hash : -10 < colorIndexOf hash < 10.
Proof.
  unfold colorIndexOf. change (Z.of_nat (length colors)) with 10.
  Z.quot_rem_to_equations. lia.
Qed.

Lemma index_None (l : list string) i :
  length l = 10%nat -> -10 < i < 10 -> (index l i = None <-> i < 0).
Proof.
  intros Hl Hi. unfold index.
  destruct (Z.ltb_spec i 0) as [Hneg|Hpos]; [done|].
  split; [|lia]. intros Hnone%lookup_ge_None. lia.
Qed.

Lemma panel_None hash body : panel hash body = None <-> colorIndexOf hash < 0.
Proof.
  unfold panel. cbv zeta.
  pose proof (colorIndexOf_range hash) as Hr.
  pose proof (index_None colors _ eq_refl Hr) as H1.
  pose proof (index_None lightColors _ eq_refl Hr) as H2.
  destruct (index colors _), (index lightColors _); split; intros H;
    first [done | by apply H1 | by apply H2
          | apply H1 in H; discriminate H].
Qed.

Lemma writeCards_None {A : Type} (inColumn : A -> bool)
    (card : A -> option string) (l : list A) : forall content,
  writeCards inColumn card content l = None
  <-> exists x, x ∈ l /\ inColumn x = true /\ card x = None.
Proof.
  induction l as [|x l IH]; intros content; simpl.
  - split; [done|]. by intros (x & ?%elem_of_nil & _).
  - destruct (inColumn x) eqn:E; [destruct (card x) as [text|] eqn:Ec|];
      rewrite ?IH; split.
    + intros (y & Hy & ?). exists y. split; [by right|done].
    + intros (y & [->|Hy]%elem_of_cons & Hc & Hn); [congruence|by exists y].
    + intros _. exists x. split; [by left|done].
    + done.
    + intros (y & Hy & ?). exists y. split; [by right|done].
    + intros (y & [->|Hy]%elem_of_cons & Hc & Hn); [congruence|by exists y].
Qed.

Section kanban.
Variable unicodeToLower : Z -> Z.

Lemma mapStatusToColumn_column status :
  mapStatusToColumn unicodeToLower status ∈ columns.
Proof.
  unfold mapStatusToColumn, columns. cbv zeta.
  repeat destruct (_ || _); rewrite !elem_of_cons; tauto.
Qed.

Lemma mapGitHubStateToColumn_column state :
  mapGitHubStateToColumn state ∈ columns.
Proof.
  unfold mapGitHubStateToColumn, columns.
  destruct (String.eqb _ _); rewrite !elem_of_cons; tauto.
Qed.

Lemma mapGitHubPRStateToColumn_column state mergeStatus :
  mapGitHubPRStateToColumn state mergeStatus ∈ columns.
Proof.
  unfold mapGitHubPRStateToColumn, columns.
  repeat destruct (String.eqb _ _); simpl; rewrite !elem_of_cons; tauto.
Qed.

Lemma kanbanColumn_None data content column :
  kanbanColumn unicodeToLower data content column = None
  <-> panics unicodeToLower data column.
Proof.
  unfold kanbanColumn, panics. cbv zeta.
  destruct (writeCards _ jiraCard _ _) as [c1|] eqn:E1.
  - destruct (writeCards _ githubIssueCard _ _) as [c2|] eqn:E2.
    + destruct (writeCards _ githubPRCard _ _) as [c3|] eqn:E3.
      * split; [done|]. intros [H|[H|H]]; exfalso.
        -- assert (Hn : writeCards
                     (fun issue =>
                        String.eqb
                          (mapStatusToColumn unicodeToLower
                             issue.(JiraIssue.Status)) column)
                     jiraCard
                     (content +:+ lit "<ac:layout-cell>\n"
                      +:+ lit "<h3 style=`text-align:center;background-color:#f4f5f7;padding:8px;margin-bottom:10px;border-radius:3px;`>"
                      +:+ column +:+ lit "</h3>\n")
                     data.(AggregatedData.JiraIssues) = None).
           { apply writeCards_None. destruct H as (x & Hx & Hc & Hn).
             exists x. by rewrite Hc, String.eqb_refl. }
           congruence.
        -- assert (Hn : writeCards
                     (fun issue =>
                        String.eqb
                          (mapGitHubStateToColumn issue.(GitHubIssue.State))
                          column)
                     githubIssueCard c1
                     data.(AggregatedData.GitHubIssues) = None).
           { apply writeCards_None. destruct H as (x & Hx & Hc & Hn).
             exists x. by rewrite Hc, String.eqb_refl. }
           congruence.
        -- assert (Hn : writeCards
                     (fun pr =>
                        String.eqb
                          (mapGitHubPRStateToColumn pr.(GitHubPR.State)
                             pr.(GitHubPR.MergeStatus)) column)
                     githubPRCard c2 data.(AggregatedData.GitHubPRs) = None).
           { apply writeCards_None. destruct H as (x & Hx & Hc & Hn).
             exists x. by rewrite Hc, String.eqb_refl. }
           congruence.
      * split; [|done]. intros _. right. right.
        apply writeCards_None in E3 as (x & Hx & Hc%String.eqb_eq & Hn).
        by exists x.
    + split; [|done]. intros _. right. left.
      apply writeCards_None in E2 as (x & Hx & Hc%String.eqb_eq & Hn).
      by exists x.
  - split; [|done]. intros _. left.
    apply writeCards_None in E1 as (x & Hx & Hc%String.eqb_eq & Hn).
    by exists x.
Qed.

Lemma kanbanColumns_None data cols : forall content,
  kanbanColumns unicodeToLower data content cols = None
  <-> exists column, column ∈ cols /\ panics unicodeToLower data column.
Proof.
  induction cols as [|column cols IH]; intros content; simpl.
  - split; [done|]. by intros (x & ?%elem_of_nil & _).
  - destruct (kanbanColumn _ _ _ _) as [c|] eqn:E.
    + rewrite IH. split.
      * intros (x & Hx & Hp). exists x. split; [by right|done].
      * intros (x & [->|Hx]%elem_of_cons & Hp); [|by exists x].
        apply (kanbanColumn_None data content) in Hp. congruence.
    + split; [|done]. intros _. exists column.
      split; [by left|]. by eapply kanbanColumn_None.
Qed.
End kanban.

Lemma keyHash_bound (l : list Z) : forall (h : Z) (k : nat),
  0 <= h <= 5 * 31 ^ Z.of_nat k - 5 ->
  Forall (fun c => 0 <= c < 128) l ->
  (k + length l <= 12)%nat ->
  0 <= foldl (fun hash c => wrapInt (31 * hash + c)) h l
    <= 5 * 31 ^ Z.of_nat (k + length l) - 5.
Proof.
  induction l as [|c l IH]; intros h k Hh Hl Hk.
  - simpl. by replace (k + 0)%nat with k by lia.
  - apply Forall_cons in Hl as [Hc Hl]. simpl in Hk. cbn [foldl].
    replace (k + length (c :: l))%nat with (S k + length l)%nat
      by (simpl; lia).
    assert (Hpow : 31 ^ Z.of_nat (S k) = 31 * 31 ^ Z.of_nat k)
      by (rewrite Nat2Z.inj_succ, Z.pow_succ_r; lia).
    assert (Hmax : 31 ^ Z.of_nat (S k) <= 31 ^ 12)
      by (apply Z.pow_le_mono_r; lia).
    assert (Hv : 0 <= 31 * h + c <= 5 * 31 ^ Z.of_nat (S k) - 5) by lia.
    assert (Hw : wrapInt (31 * h + c) = 31 * h + c).
    { unfold wrapInt. rewrite Z.mod_small; [lia|].
      change (31 ^ 12) with 787662783788549761 in Hmax.
      change (2 ^ 63) with 9223372036854775808.
      change (2 ^ 64) with 18446744073709551616. lia. }
    rewrite Hw. apply IH; [done|done|lia].
Qed.

(** X20.  When the kanban board cannot be drawn.  The colour of a card
    is looked up at [hash % 10], which is negative for a negative hash, so
    [generateKanbanFormat] panics exactly when some ticket, host issue or
    pull request has a hash whose remainder is negative; every one of them
    lands in one of the four columns, whatever its status is.  The hash of
    a key of at most twelve ASCII characters never wraps, so such a key is
    safe; number 1 of a repository with a name of twenty characters makes
    the board panic. *)
Theorem generateKanbanFormat_panics (unicodeToLower : Z -> Z)
    (content : string) (data : AggregatedData.t) (opts : Options.t) :
  (generateKanbanFormat unicodeToLower content data opts = None
   <-> (exists issue, issue ∈ data.(AggregatedData.JiraIssues)
          /\ colorIndexOf (keyHash issue.(JiraIssue.Key)) < 0)
       \/ (exists issue, issue ∈ data.(AggregatedData.GitHubIssues)
             /\ colorIndexOf
                  (wrapInt (keyHash issue.(GitHubIssue.Repository)
                            + issue.(GitHubIssue.Number))) < 0)
       \/ (exists pr, pr ∈ data.(AggregatedData.GitHubPRs)
             /\ colorIndexOf
                  (wrapInt (keyHash pr.(GitHubPR.Repository)
                            + pr.(GitHubPR.Number))) < 0))
  /\ (forall key,
        asciiKey key = true -> (length (runes key) <= 12)%nat ->
        0 <= colorIndexOf (keyHash key))
  /\ generateKanbanFormat unicodeToLower content longRepositoryData opts
     = None.
Proof.
  assert (Hiff : forall content data,
            generateKanbanFormat unicodeToLower content data opts = None
            <-> (exists issue, issue ∈ data.(AggregatedData.JiraIssues)
                   /\ colorIndexOf (keyHash issue.(JiraIssue.Key)) < 0)
                \/ (exists issue, issue ∈ data.(AggregatedData.GitHubIssues)
                      /\ colorIndexOf
                           (wrapInt (keyHash issue.(GitHubIssue.Repository)
                                     + issue.(GitHubIssue.Number))) < 0)
                \/ (exists pr, pr ∈ data.(AggregatedData.GitHubPRs)
                      /\ colorIndexOf
                           (wrapInt (keyHash pr.(GitHubPR.Repository)
                                     + pr.(GitHubPR.Number))) < 0)).
  { clear content data. intros content data.
    unfold generateKanbanFormat. cbv zeta.
    destruct (kanbanColumns _ _ _ _) as [c|] eqn:E.
    - split; [done|]. intros H. exfalso.
      assert (Hn : exists column,
                column ∈ columns /\ panics unicodeToLower data column).
      { destruct H as [(x & Hx & Hc)|[(x & Hx & Hc)|(x & Hx & Hc)]].
        - exists (mapStatusToColumn unicodeToLower x.(JiraIssue.Status)).
          split; [apply mapStatusToColumn_column|]. left. exists x.
          repeat split; [done|]. by apply panel_None.
        - exists (mapGitHubStateToColumn x.(GitHubIssue.State)).
          split; [apply mapGitHubStateToColumn_column|]. right. left.
          exists x. repeat split; [done|]. by apply panel_None.
        - exists (mapGitHubPRStateToColumn x.(GitHubPR.State)
                    x.(GitHubPR.MergeStatus)).
          split; [apply mapGitHubPRStateToColumn_column|]. right. right.
          exists x. repeat split; [done|]. by apply panel_None. }
      eapply kanbanColumns_None in Hn. rewrite E in Hn. discriminate Hn.
    - split; [|done]. intros _.
      apply kanbanColumns_None in E as (column & _ & [H|[H|H]]);
        destruct H as (x & Hx & _ & Hn); apply panel_None in Hn;
        [left|right; left|right; right]; by exists x. }
  split; [apply Hiff|]. split.
  - intros key Hascii Hlen.
    assert (Hall : Forall (fun c => 0 <= c < 128) (runes key)).
    { apply Forall_forall. intros c Hc. unfold asciiKey in Hascii.
      rewrite forallb_forall in Hascii.
      apply list_elem_of_In, Hascii, andb_true_iff in Hc
        as [H1%Z.leb_le H2%Z.ltb_lt].
      lia. }
    pose proof (keyHash_bound (runes key) 0 0 ltac:(simpl; lia) Hall
                  ltac:(lia)) as [Hh _].
    fold (keyHash key) in Hh. unfold colorIndexOf.
    change (Z.of_nat (length colors)) with 10.
    generalize dependent (keyHash key). intros h Hh.
    Z.quot_rem_to_equations. lia.
  - apply Hiff. right. left. exists longRepository.
    split; [apply list_elem_of_here|]. by vm_compute.
Qed.

(** ** Quarter ranges *)

Lemma splitGo_digits s : forall cur,
  allDigits s = true -> splitGo "-" s 0 cur = [cur +:+ s].
Proof.
  induction s as [|c s IH]; intros cur Hd.
  - simpl. by rewrite append_nil_r.
  - simpl in Hd. apply andb_true_iff in Hd as [Hc Hs].
    assert (Hp : String.prefix "-" (String c s) = false)
      by (digit_cases c Hc).
    cbn [splitGo]. rewrite Hp, IH by done.
    by rewrite append_assoc.
Qed.

Lemma trimRight_digits s : allDigits s = true -> trimRight s = s.
Proof.
  induction s as [|c s IH]; intros Hd; [done|].
  simpl in Hd. apply andb_true_iff in Hd as [Hc Hs].
  cbn [trimRight]. rewrite IH by done.
  destruct s; [|done]. by digit_cases c Hc.
Qed.

Lemma trimRight_app x s :
  trimRight s <> "" -> trimRight (x +:+ s) = x +:+ trimRight s.
Proof.
  intros Hs. induction x as [|c x IH]; [done|].
  change (String c x +:+ s) with (String c (x +:+ s)).
  cbn [trimRight]. rewrite IH.
  change (String c x +:+ trimRight s) with (String c (x +:+ trimRight s)).
  destruct (x +:+ trimRight s) eqn:E; [|done].
  destruct x; [|done]. by destruct Hs.
Qed.

Lemma lastByte_digits c s :
  isDigit c = true -> allDigits s = true ->
  exists d, lastByte (String c s) = Some d /\ isDigit d = true.
Proof.
  revert c. induction s as [|c' s IH]; intros c Hc Hs; [by exists c|].
  simpl in Hs. apply andb_true_iff in Hs as [Hc' Hs].
  destruct (IH c' Hc' Hs) as (d & Hd & Hdd). by exists d.
Qed.
Section quarterRange.
Variable D : string.
Variable y : Z.
Hypothesis Hscan : scanInt D = Some y.
Hypothesis Hsplit : forall cur, splitGo "-" D 0 cur = [cur +:+ D].
Hypothesis Htl : trimLeft D = D.
Hypothesis Htrx : forall x, trimRight (x +:+ D) = x +:+ D.
Hypothesis Hpre : forall q, String.prefix (String "Q" (String q "")) D = false.

Ltac quarter_digit H :=
  rewrite !elem_of_cons, elem_of_nil in H;
  destruct H as [->|[->|[->|[->|[]]]]].

Lemma part1_split qa qb :
  qa ∈ ["1"; "2"; "3"; "4"]%char -> qb ∈ ["1"; "2"; "3"; "4"]%char ->
  Contains (quarterRangeText qa qb D) "-" = true
  /\ Contains (quarterRangeText qa qb D) "Q" = true
  /\ Split (quarterRangeText qa qb D) "-"
     = [String "Q" (String qa ""); String "Q" (String qb (String " " D))].
Proof.
  intros Hqa Hqb. quarter_digit Hqa; quarter_digit Hqb;
    (split; [reflexivity|]);
    (split; [reflexivity|]); unfold Split, quarterRangeText;
    cbn; rewrite Hsplit; reflexivity.
Qed.

Lemma TrimSpace_D : TrimSpace D = D.
Proof. unfold TrimSpace. rewrite Htl. apply (Htrx ""). Qed.

Lemma TrimSpace_space_D : TrimSpace (String " " D) = D.
Proof. unfold TrimSpace. cbn [trimLeft]. change (isSpace " ") with true. cbv iota. rewrite Htl. apply (Htrx ""). Qed.

Lemma TrimSpace_part1 qb :
  qb ∈ ["1"; "2"; "3"; "4"]%char ->
  TrimSpace (String "Q" (String qb (String " " D)))
  = String "Q" (String qb (String " " D)).
Proof.
  intros Hqb. unfold TrimSpace. cbn [trimLeft]. change (isSpace "Q") with false. cbv iota.
  apply (Htrx (String "Q" (String qb " "))).
Qed.

Lemma yearStr_D qb :
  qb ∈ ["1"; "2"; "3"; "4"]%char ->
  let part1 := String "Q" (String qb (String " " D)) in
  let yearStr := TrimSpace (TrimPrefix part1 "Q1") in
  let yearStr := TrimSpace (TrimPrefix yearStr "Q2") in
  let yearStr := TrimSpace (TrimPrefix yearStr "Q3") in
  let yearStr := TrimSpace (TrimPrefix yearStr "Q4") in
  yearStr = D.
Proof.
  intros Hqb. cbv zeta.
  assert (Hhit : forall q,
            TrimPrefix (String "Q" (String q (String " " D)))
              (String "Q" (String q ""))
            = String " " D).
  { intros q. unfold TrimPrefix, HasPrefix. cbn [String.prefix].
    destruct (ascii_dec "Q" "Q"); [|done]. destruct (ascii_dec q q); [|done].
    cbn [String.length Nat.sub String.substring].
    by rewrite ?Nat.sub_0_r, substring_full. }
  assert (HD : forall q, TrimPrefix D (String "Q" (String q "")) = D).
  { intros q. unfold TrimPrefix, HasPrefix. by rewrite Hpre. }
  assert (Hmiss : forall q q' R, q <> q' ->
            TrimPrefix (String "Q" (String q R)) (String "Q" (String q' ""))
            = String "Q" (String q R)).
  { intros q q' R Hne. unfold TrimPrefix, HasPrefix. cbn [String.prefix].
    destruct (ascii_dec "Q" "Q"); [|done].
    destruct (ascii_dec q' q); [congruence|done]. }
  quarter_digit Hqb;
    repeat first
      [ rewrite Hhit | rewrite HD | rewrite Hmiss by discriminate
      | rewrite TrimSpace_space_D | rewrite TrimSpace_D
      | rewrite TrimSpace_part1
          by (rewrite !elem_of_cons; tauto) ];
    reflexivity.
Qed.

Lemma Sscanf_year : Sscanf_d D "" = Some y.
Proof.
  unfold Sscanf_d, HasPrefix. cbn [String.prefix String.length].
  replace (String.prefix "" D) with true by (by destruct D).
  by rewrite Nat.sub_0_r, substring_full.
Qed.

Lemma Sscanf_start qa :
  qa ∈ ["1"; "2"; "3"; "4"]%char ->
  Sscanf_d (TrimSpace (String "Q" (String qa ""))) "Q" = Some (ord qa - 48).
Proof. intros Hqa. quarter_digit Hqa; reflexivity. Qed.

Lemma Sscanf_end qb :
  qb ∈ ["1"; "2"; "3"; "4"]%char ->
  Sscanf_d (TrimSpace (String "Q" (String qb (String " " D)))) "Q"
  = Some (ord qb - 48).
Proof.
  intros Hqb. rewrite TrimSpace_part1 by done.
  unfold Sscanf_d, HasPrefix. cbn [String.prefix].
  destruct (ascii_dec "Q" "Q"); [|done].
  cbn [String.length Nat.sub String.substring].
  rewrite ?Nat.sub_0_r, substring_full.
  quarter_digit Hqb; reflexivity.
Qed.

Lemma parseQuarterRange_text qa qb :
  qa ∈ ["1"; "2"; "3"; "4"]%char -> qb ∈ ["1"; "2"; "3"; "4"]%char ->
  0 < y ->
  parseQuarterRange (quarterRangeText qa qb D)
  = Some (Date y ((ord qa - 48 - 1) * 3 + 1) 1 0 0 0 0,
          AddDate (Date y ((ord qb - 48) * 3) 1 0 0 0 0) 0 1 0).
Proof.
  intros Hqa Hqb Hy.
  destruct (part1_split qa qb Hqa Hqb) as (H1 & H2 & H3).
  unfold parseQuarterRange. rewrite H1, H2, H3. cbv beta iota zeta.
  cbn [andb].
  rewrite (yearStr_D qb Hqb), Sscanf_year, Sscanf_start, Sscanf_end by done.
  cbn [scanned default from_option id].
  assert (Ha : 1 <= ord qa - 48 <= 4) by (quarter_digit Hqa; by vm_compute).
  assert (Hb : 1 <= ord qb - 48 <= 4) by (quarter_digit Hqb; by vm_compute).
  generalize dependent (ord qa - 48). intros a Ha.
  generalize dependent (ord qb - 48). intros b Hb.
  destruct (Z.leb_spec 1 a); [|lia]. destruct (Z.leb_spec a 4); [|lia].
  destruct (Z.leb_spec 1 b); [|lia]. destruct (Z.leb_spec b 4); [|lia].
  destruct (Z.ltb_spec 0 y); [|lia]. reflexivity.
Qed.
End quarterRange.

Lemma itoa_digit_string y :
  0 <= y < 2 ^ 63 ->
  scanInt (itoa y) = Some y
  /\ (forall cur, splitGo "-" (itoa y) 0 cur = [cur +:+ itoa y])
  /\ trimLeft (itoa y) = itoa y
  /\ (forall x, trimRight (x +:+ itoa y) = x +:+ itoa y)
  /\ (forall q, String.prefix (String "Q" (String q "")) (itoa y) = false)
  /\ (forall x suffix d,
        lastByte suffix = Some d -> isDigit d = false ->
        HasSuffix (x +:+ itoa y) suffix = false).
Proof.
  intros Hy.
  pose proof (scanInt_itoa y "" Hy eq_refl) as Hscan.
  rewrite append_nil_r in Hscan.
  destruct (itoa_nonneg y ltac:(lia)) as (c & s & HD & Hc & Hs & _).
  rewrite HD in *.
  assert (Hd : allDigits (String c s) = true) by (simpl; by rewrite Hc).
  assert (Htr : trimRight (String c s) = String c s)
    by (by apply trimRight_digits).
  split; [done|]. split; [intros; by apply splitGo_digits|].
  split; [by digit_cases c Hc|].
  split; [intros x; rewrite trimRight_app; rewrite Htr; done|].
  split; [intros q; by digit_cases c Hc|].
  intros x suffix d Hlast Hnd.
  destruct (lastByte_digits c s Hc Hs) as (d' & Hd' & Hdd).
  apply HasSuffix_lastByte; [done|by destruct suffix|].
  rewrite Hd', Hlast. intros [= ->]. congruence.
Qed.

Lemma parseTimeframe_quarter_range_parts (now : Time) (a b y : Z) :
  1 <= a <= 4 -> 1 <= b <= 4 -> 0 < y < 2 ^ 31 ->
  let timeframe := "Q" +:+ itoa a +:+ "-Q" +:+ itoa b +:+ " " +:+ itoa y in
  parseTimeframe now timeframe
  = (monthStart y (3 * a - 2), monthStart y (3 * b + 1))
  /\ generateQuarters (monthStart y (3 * a - 2)) (monthStart y (3 * b + 1))
     = Some (map (fun q => quarterName q y) (seqZ a (b - a + 1))).
Proof.
  intros Ha Hb Hy. cbv zeta.
  destruct (itoa_digit_string y ltac:(lia))
    as (Hscan & Hsplit & Htl & Htrx & Hpre & Hsuffix).
  assert (Haxis : generateQuarters (monthStart y (3 * a - 2))
                    (monthStart y (3 * b + 1))
                  = Some (map (fun q => quarterName q y)
                            (seqZ a (b - a + 1)))).
  { destruct (Z.le_gt_cases a b) as [Hab|Hab].
    - replace (3 * b + 1)
        with (3 * a - 2 + Z.of_nat (Z.to_nat (3 * (b - a + 1)))) by lia.
      rewrite generateQuarters_months. f_equal.
      unfold monthLabels, monthLabel.
      rewrite (firstSeen_span quarterName (Z.add y) quarterName_inj
                 ltac:(intros; lia) a b Ha Hb Hab).
      apply map_ext. intros q. by rewrite Z.add_0_r.
    - replace (seqZ a (b - a + 1)) with (@nil Z)
        by (unfold seqZ; by replace (Z.to_nat (b - a + 1)) with 0%nat by lia).
      rewrite (generateQuarters_exact _ _ 0); [done|by constructor|].
      change (afterMonths 0 ?t) with t.
      pose proof (monthStart_Before y (3 * b + 1)
                    (Z.to_nat (3 * a - 2 - (3 * b + 1))) 0) as HB.
      replace (3 * b + 1 + Z.of_nat (Z.to_nat (3 * a - 2 - (3 * b + 1))))
        with (3 * a - 2) in HB by lia.
      replace (3 * b + 1 + Z.of_nat 0) with (3 * b + 1) in HB by lia.
      rewrite HB. apply bool_decide_eq_false. lia. }
  split; [|exact Haxis].
  - assert (Hqa : chr (48 + a) ∈ ["1"; "2"; "3"; "4"]%char).
    { assert (Hc : a = 1 \/ a = 2 \/ a = 3 \/ a = 4) by lia.
      rewrite !elem_of_cons. destruct Hc as [->|[->|[->| ->]]]; tauto. }
    assert (Hqb : chr (48 + b) ∈ ["1"; "2"; "3"; "4"]%char).
    { assert (Hc : b = 1 \/ b = 2 \/ b = 3 \/ b = 4) by lia.
      rewrite !elem_of_cons. destruct Hc as [->|[->|[->| ->]]]; tauto. }
    assert (Htext : "Q" +:+ itoa a +:+ "-Q" +:+ itoa b +:+ " " +:+ itoa y
                    = quarterRangeText (chr (48 + a)) (chr (48 + b)) (itoa y)).
    { assert (Hc : a = 1 \/ a = 2 \/ a = 3 \/ a = 4) by lia.
      assert (Hc' : b = 1 \/ b = 2 \/ b = 3 \/ b = 4) by lia.
      destruct Hc as [->|[->|[->| ->]]]; destruct Hc' as [->|[->|[->| ->]]];
        reflexivity. }
    rewrite Htext.
    assert (Happ : quarterRangeText (chr (48 + a)) (chr (48 + b)) (itoa y)
                   = String "Q" (String (chr (48 + a)) (String "-"
                       (String "Q" (String (chr (48 + b)) " "))))
                     +:+ itoa y) by reflexivity.
    assert (Hs : forall suffix d,
              lastByte suffix = Some d -> isDigit d = false ->
              HasSuffix (quarterRangeText (chr (48 + a)) (chr (48 + b))
                           (itoa y)) suffix = false).
    { intros suffix d H1 H2. rewrite Happ. by apply (Hsuffix _ suffix d). }
    unfold parseTimeframe, parseMonths, parseYears. cbv zeta.
    replace (String.eqb (quarterRangeText _ _ (itoa y)) "") with false
      by reflexivity.
    rewrite (Hs "months" "s"%char), (Hs "year" "r"%char),
      (Hs "years" "s"%char) by reflexivity.
    cbn [orb].
    rewrite (parseQuarterRange_text (itoa y) y Hscan Hsplit Htl Htrx Hpre
               _ _ Hqa Hqb ltac:(lia)).
    assert (Hord : forall z, 1 <= z <= 4 -> ord (chr (48 + z)) - 48 = z).
    { intros z Hz. assert (Hc : z = 1 \/ z = 2 \/ z = 3 \/ z = 4) by lia.
      by destruct Hc as [->|[->|[->| ->]]]. }
    rewrite !Hord by done.
    fold (monthStart y ((a - 1) * 3 + 1)). fold (monthStart y (b * 3)).
    rewrite AddDate_monthStart.
    replace ((a - 1) * 3 + 1) with (3 * a - 2) by lia.
    by replace (b * 3 + 1) with (3 * b + 1) by lia.
Qed.



(** ** The status summary *)

Lemma countOf_cons status (x : RoadmapItem.t) items :
  countOf status (x :: items)
  = (if decide (x.(RoadmapItem.Status) = status) then 1 else 0)
    + countOf status items.
Proof.
  unfold countOf. rewrite filter_cons.
  destruct (decide _); simpl length; lia.
Qed.

Lemma countOf_app status l1 l2 :
  countOf status (l1 ++ l2) = countOf status l1 + countOf status l2.
Proof. unfold countOf. rewrite filter_app, length_app. lia. Qed.

Lemma countOf_nonneg status items : 0 <= countOf status items.
Proof. unfold countOf. lia. Qed.

Lemma countOf_perm status l1 l2 :
  l1 ≡ₚ l2 -> countOf status l1 = countOf status l2.
Proof. intros H. unfold countOf. by rewrite H. Qed.

Lemma countItems_lookup items : forall counts status,
  countItems counts items !! status
  = if decide (countOf status items = 0) then counts !! status
    else Some (default 0 (counts !! status) + countOf status items).
Proof.
  induction items as [|x items IH]; intros counts status; [done|].
  unfold countItems in *. cbn [foldl]. rewrite IH, countOf_cons.
  pose proof (countOf_nonneg status items) as Hn.
  destruct (decide (x.(RoadmapItem.Status) = status)) as [Heq|Hne].
  - rewrite Heq, lookup_insert_eq. simpl.
    rewrite (decide_False (P := 1 + _ = 0)) by lia.
    destruct (decide (countOf status items = 0)) as [->|]; f_equal; lia.
  - rewrite lookup_insert_ne by done.
    replace (0 + countOf status items) with (countOf status items) by lia.
    done.
Qed.

Lemma countGroups_lookup (m : gmap string (list RoadmapItem.t)) keys :
  forall counts status,
  let items := concat (map (fun g => default [] (m !! g)) keys) in
  foldl (fun counts group => countItems counts (default [] (m !! group)))
        counts keys !! status
  = if decide (countOf status items = 0) then counts !! status
    else Some (default 0 (counts !! status) + countOf status items).
Proof.
  induction keys as [|g keys IH]; intros counts status; [done|].
  cbv zeta in *. cbn [foldl map concat]. rewrite IH, countOf_app.
  rewrite countItems_lookup.
  pose proof (countOf_nonneg status (default [] (m !! g))).
  pose proof (countOf_nonneg status
                (concat (map (fun g => default [] (m !! g)) keys))).
  repeat destruct (decide _); simpl; try lia; try done; f_equal; lia.
Qed.

Lemma values_of_keys (m : gmap string (list RoadmapItem.t)) :
  map (fun g => default [] (m !! g)) (keysOf m) = (map_to_list m).*2.
Proof.
  unfold keysOf. rewrite <- list_fmap_compose. apply list_fmap_ext.
  intros i [k v] Hi%list_elem_of_lookup_2%elem_of_map_to_list.
  simpl. by rewrite Hi.
Qed.

Lemma groupedItems_perm data grouping :
  groupedItems (groupRoadmapItems data grouping) ≡ₚ allItems data.
Proof.
  destruct (oneOf grouping ["epic"; "theme"; "team"; "quarter"]) eqn:E.
  - rewrite groupRoadmapItems_groupBy by done.
    rewrite groupedItems_groupBy.
    unfold groupedItems. by rewrite map_to_list_empty.
  - destruct (groupRoadmapItems_default data grouping E) as [-> _].
    unfold groupedItems. rewrite map_to_list_singleton. simpl.
    by rewrite app_nil_r.
Qed.

(** X22.  The status summary of the timeline view counts every issue of
    the feed once, under its roadmap status: the count of a status is the
    number of normalised items that have it, whatever the grouping is and
    in whatever order the groups are ranged over, and a status that no
    item has gets no row. *)
Theorem status_summary (rangeKeys : RangeOrder) (data : AggregatedData.t)
    (grouping status : string) :
  let groups := groupRoadmapItems data grouping in
  rangeKeys 0%nat (keysOf groups) ≡ₚ keysOf groups ->
  countStatuses rangeKeys groups !! status
  = if decide (countOf status (allItems data) = 0) then None
    else Some (countOf status (allItems data)).
Proof.
  intros groups Hperm. unfold countStatuses.
  rewrite countGroups_lookup. cbv zeta. rewrite lookup_empty.
  assert (Hcount : countOf status
                     (concat (map (fun g => default [] (groups !! g))
                                (rangeKeys 0%nat (keysOf groups))))
                   = countOf status (allItems data)).
  { rewrite <- (countOf_perm status _ _ (groupedItems_perm data grouping)).
    apply countOf_perm. rewrite Hperm, values_of_keys. done. }
  rewrite Hcount. by destruct (decide _).
Qed.

Lemma status_summary_witness :
  keysInOrder 0%nat (keysOf (groupRoadmapItems exampleData "epic"))
    ≡ₚ keysOf (groupRoadmapItems exampleData "epic")
  /\ countStatuses keysInOrder (groupRoadmapItems exampleData "epic")
       !! "In Progress" = Some 2.
Proof.
  split; [reflexivity|].
  rewrite (status_summary keysInOrder exampleData "epic" "In Progress"
             (reflexivity _)).
  reflexivity.
Defined.

(** ** Host issues and epics *)

Lemma findEpicInTitle_firstNamed keys title :
  findEpicInTitle keys title = default "No Epic" (firstNamed keys title).
Proof.
  unfold firstNamed. induction keys as [|key keys IH]; [done|].
  cbn [findEpicInTitle list_find].
  destruct (decide (key <> "No Epic" /\ Contains title key = true))
    as [[Hk Hc]|Hn].
  - apply String.eqb_neq in Hk. by rewrite Hk, Hc.
  - rewrite IH. destruct (String.eqb_spec key "No Epic") as [->|Hk]; simpl.
    + by destruct (list_find _ keys) as [[i k]|].
    + destruct (Contains title key) eqn:Hc; [tauto|].
      by destruct (list_find _ keys) as [[i k]|].
Qed.

(** X23.  The epic of a host issue is the first key, in the order of the
    range over the epics, that its title contains.  A title that contains
    no key goes to "No Epic" and a title that contains one key goes to
    that epic, in every order.  A title that contains two keys (as
    "PROJ-10" contains "PROJ-1") goes to the one or to the other,
    depending on the order of the range. *)
Theorem findEpicInTitle_order (title : string) (keys : list string) :
  let named key := key <> "No Epic" /\ Contains title key = true in
  findEpicInTitle keys title = default "No Epic" (firstNamed keys title)
  /\ ((forall key, key ∈ keys -> ~ named key) ->
      forall keys', keys' ≡ₚ keys -> findEpicInTitle keys' title = "No Epic")
  /\ (forall key,
        key ∈ keys -> named key ->
        (forall key', key' ∈ keys -> named key' -> key' = key) ->
        forall keys', keys' ≡ₚ keys -> findEpicInTitle keys' title = key)
  /\ (forall key1 key2,
        named key1 -> named key2 -> key1 <> key2 ->
        findEpicInTitle [key1; key2] title = key1
        /\ findEpicInTitle [key2; key1] title = key2).
Proof.
  intros named. split; [apply findEpicInTitle_firstNamed|].
  split; [|split].
  - intros Hnone keys' Hperm. rewrite findEpicInTitle_firstNamed.
    unfold firstNamed.
    destruct (list_find _ keys') as [[i k]|] eqn:E; [|done].
    apply list_find_Some in E as (Hi%list_elem_of_lookup_2 & Hn & _).
    rewrite Hperm in Hi. by destruct (Hnone k Hi).
  - intros key Hin Hnamed Huniq keys' Hperm.
    rewrite findEpicInTitle_firstNamed. unfold firstNamed.
    destruct (list_find _ keys') as [[i k]|] eqn:E.
    + apply list_find_Some in E as (Hi%list_elem_of_lookup_2 & Hn & _).
      rewrite Hperm in Hi. simpl. by apply Huniq.
    + apply list_find_None in E. rewrite Forall_forall in E.
      rewrite <- Hperm in Hin. by destruct (E key Hin).
  - intros key1 key2 [H1 C1] [H2 C2] Hne.
    apply String.eqb_neq in H1, H2. cbn [findEpicInTitle].
    by rewrite H1, H2, C1, C2.
Qed.

(** ** The announced period *)

Lemma formatMonthYear_monthStart y m :
  formatMonthYear (monthStart y m)
  = nth (Z.to_nat ((m - 1) mod 12)) longMonthNames "" +:+ " "
    +:+ padInt (y + (m - 1) / 12) 4.
Proof.
  rewrite monthStart_norm.
  pose proof (Z.mod_pos_bound (m - 1) 12 ltac:(lia)) as Hr.
  destruct (monthStart_fields (y + (m - 1) / 12) ((m - 1) mod 12 + 1)
              ltac:(lia)) as (Hy & Hmo & _).
  unfold formatMonthYear, monthName. rewrite Hy, Hmo.
  by replace ((m - 1) mod 12 + 1 - 1) with ((m - 1) mod 12) by lia.
Qed.

Lemma monthStart_not_zero y m :
  1 <= y -> 1 <= m -> 1 < y \/ 1 < m -> IsZero (monthStart y m) = false.
Proof.
  intros Hy Hm Hlt.
  assert (Hns : 0 < nsPerDay) by (by vm_compute).
  assert (Heq : monthStart y m
                = monthStart 1 (1 + Z.of_nat (Z.to_nat (12 * (y - 1) + m - 1)))).
  { unfold monthStart.
    replace (1 + Z.of_nat (Z.to_nat (12 * (y - 1) + m - 1)))
      with (m + 12 * (y - 1)) by lia.
    rewrite Date_months. by replace (1 + (y - 1)) with y by lia. }
  pose proof (monthStart_mono 1 1 (Z.to_nat (12 * (y - 1) + m - 1))) as Hmono.
  rewrite <- Heq in Hmono.
  change (nanos (monthStart 1 1)) with 0 in Hmono.
  unfold IsZero. apply Z.eqb_neq. nia.
Qed.


